(** * School records: entities, validation, JSON and SQLite persistence

    A shallow embedding of [person.py], [student.py], [instructor.py],
    [course.py], [data_manager.py], [database_manager.py] and
    [validators.py], followed by
    the properties of the specification that can be stated over it.

    Conventions of the embedding.
    - A Python value that travels through [dict]s and JSON files is a
      [pyval]: [None], [bool], [int], [float], [str], [list] and [dict]
      with string keys in insertion order.  A [float] is a binary64 number
      as the Standard Library's [SpecFloat] describes it.
    - A file is represented by what [json.load] finds in it when it is
      opened in UTF-8, as [save_data] opens it, and in the encoding of the
      locale, as [load_json] and [overwrite_json_file] open it.
    - A [str] is a [string] whose characters are the code points U+0000 to
      U+00FF; the character classes of [str.isalpha], [str.strip] and
      [int()] are the Unicode ones restricted to that range.
    - A call that can raise returns a [result]; the exception is a value
      of [exn].  A method that changes its object, or the database, returns
      the state after the call together with the outcome.
    - Entities that Python compares by identity ([Student], [Instructor])
      live in a [heap] and are referred to by address.
    - The limits of the interpreter's resources (recursion depth, memory)
      and the failures of the operating system (permissions, a full disk)
      are not modelled; the limit of 4300 digits on the conversion between
      [int] and [str] is. *)

From Stdlib Require Import ZArith List String Ascii Bool Lia.
From Stdlib Require Import DecimalString SpecFloat.
Import ListNotations.
Local Open Scope string_scope.
Local Open Scope Z_scope.
Local Open Scope list_scope.

(** ** Exceptions and fallible results *)

Inductive exn : Type :=
| ValueError (msg : string)
| TypeError
| AttributeError
| KeyError (key : string)
| UnboundLocalError (var : string)
| OverflowError
| FileNotFoundError
| JSONDecodeError
| UnicodeDecodeError
| IntegrityError (msg : string)
| ProgrammingError.

Inductive result (A : Type) : Type :=
| Ok (a : A)
| Raise (e : exn).
Arguments Ok {A} a.
Arguments Raise {A} e.

Definition bind {A B} (m : result A) (k : A -> result B) : result B :=
  match m with
  | Ok a => k a
  | Raise e => Raise e
  end.

Notation "x <- m ;; k" := (bind m (fun x => k))
  (at level 61, m at next level, right associativity).

(** ** Python values *)

Set Warnings "-register-all".

Inductive pyval : Type :=
| VNone
| VBool (b : bool)
| VInt (z : Z)
| VFloat (f : spec_float)
| VStr (s : string)
| VList (l : list pyval)
| VDict (d : list (string * pyval)).

Definition pydict := list (string * pyval).

(** *** Insertion-ordered dictionaries with string keys *)

Section Dict.
Context {V : Type}.

Fixpoint dict_get (d : list (string * V)) (k : string) : option V :=
  match d with
  | [] => None
  | (k', v) :: d' => if String.eqb k' k then Some v else dict_get d' k
  end.

(** [d[k] = v]: an existing key keeps its position, a new one goes last. *)
Fixpoint dict_set (d : list (string * V)) (k : string) (v : V)
  : list (string * V) :=
  match d with
  | [] => [(k, v)]
  | (k', v') :: d' =>
      if String.eqb k' k then (k', v) :: d' else (k', v') :: dict_set d' k v
  end.

Definition dict_has (d : list (string * V)) (k : string) : bool :=
  match dict_get d k with Some _ => true | None => false end.

Definition dict_keys (d : list (string * V)) : list string := map fst d.
Definition dict_values (d : list (string * V)) : list V := map snd d.

(** [{**d, **e}], also [d.update(e)]. *)
Definition dict_update (d e : list (string * V)) : list (string * V) :=
  fold_left (fun acc kv => dict_set acc (fst kv) (snd kv)) e d.

(** A dict display [{k1: v1, ...}] evaluates its items left to right. *)
Definition dict_of_items (items : list (string * V)) : list (string * V) :=
  dict_update [] items.
End Dict.

(** [d.get(k)] and [d.get(k, default)] on a dict of Python values. *)
Definition py_get (d : pydict) (k : string) : pyval :=
  match dict_get d k with Some v => v | None => VNone end.

Definition py_get_default (d : pydict) (k : string) (dflt : pyval) : pyval :=
  match dict_get d k with Some v => v | None => dflt end.

(** [d[k]]. *)
Definition py_index (d : pydict) (k : string) : result pyval :=
  match dict_get d k with Some v => Ok v | None => Raise (KeyError k) end.

(** Truth value testing. *)
Definition py_truthy (v : pyval) : bool :=
  match v with
  | VNone => false
  | VBool b => b
  | VInt z => negb (z =? 0)
  | VFloat f => match f with S754_zero _ => false | _ => true end
  | VStr s => negb (String.eqb s "")
  | VList l => match l with [] => false | _ => true end
  | VDict d => match d with [] => false | _ => true end
  end.

Definition is_none (v : pyval) : bool :=
  match v with VNone => true | _ => false end.

(** *** Characters and strings *)

Definition code (c : ascii) : N := N_of_ascii c.

Definition in_range (lo hi : N) (c : ascii) : bool :=
  ((lo <=? code c) && (code c <=? hi))%N.

Definition is_upper_az (c : ascii) : bool := in_range 65 90 c.
Definition is_lower_az (c : ascii) : bool := in_range 97 122 c.
Definition is_digit (c : ascii) : bool := in_range 48 57 c.

(** [c.isalpha()] for a code point below 256: the ASCII letters, U+00AA,
    U+00B5, U+00BA and the Latin-1 letters U+00C0..U+00FF without the
    multiplication and division signs. *)
Definition char_isalpha (c : ascii) : bool :=
  is_upper_az c || is_lower_az c
  || (code c =? 170)%N || (code c =? 181)%N || (code c =? 186)%N
  || in_range 192 214 c || in_range 216 246 c || in_range 248 255 c.

(** [c.isspace()] for a code point below 256. *)
Definition char_isspace (c : ascii) : bool :=
  in_range 9 13 c || in_range 28 32 c
  || (code c =? 133)%N || (code c =? 160)%N.

Fixpoint str_forall (p : ascii -> bool) (s : string) : bool :=
  match s with
  | EmptyString => true
  | String c s' => p c && str_forall p s'
  end.

(** [s.isalpha()]: at least one character, all of them alphabetic. *)
Definition str_isalpha (s : string) : bool :=
  negb (String.eqb s "") && str_forall char_isalpha s.

Fixpoint lstrip (s : string) : string :=
  match s with
  | EmptyString => EmptyString
  | String c s' => if char_isspace c then lstrip s' else s
  end.

Fixpoint rstrip (s : string) : string :=
  match s with
  | EmptyString => EmptyString
  | String c s' =>
      match rstrip s' with
      | EmptyString => if char_isspace c then EmptyString else String c EmptyString
      | r => String c r
      end
  end.

(** [s.strip()]. *)
Definition strip (s : string) : string := lstrip (rstrip s).

(** *** The text of characters, strings and integers *)

Definition chr (n : N) : ascii := ascii_of_N n.
Definition str1 (c : ascii) : string := String c EmptyString.

Definition hex_digit (n : N) : ascii :=
  if (n <? 10)%N then chr (48 + n) else chr (87 + n).

(** [c.isprintable()] for a code point below 256. *)
Definition char_isprintable (c : ascii) : bool :=
  in_range 32 126 c || (in_range 161 255 c && negb (code c =? 173)%N).

Definition repr_char (quote c : ascii) : string :=
  if (code c =? 92)%N then String c (str1 c)
  else if Ascii.eqb c quote then String (chr 92) (str1 c)
  else if (code c =? 9)%N then String (chr 92) "t"
  else if (code c =? 10)%N then String (chr 92) "n"
  else if (code c =? 13)%N then String (chr 92) "r"
  else if char_isprintable c then str1 c
  else String (chr 92)
         (String "x" (String (hex_digit (code c / 16))
                        (str1 (hex_digit (code c mod 16))))).

Fixpoint str_exists (p : ascii -> bool) (s : string) : bool :=
  match s with
  | EmptyString => false
  | String c s' => p c || str_exists p s'
  end.

Fixpoint str_flat_map (f : ascii -> string) (s : string) : string :=
  match s with
  | EmptyString => EmptyString
  | String c s' => (f c ++ str_flat_map f s')%string
  end.

(** [repr(s)]: single quotes, unless [s] has a single quote and no double one. *)
Definition repr_str (s : string) : string :=
  let quote :=
    if str_exists (Ascii.eqb (chr 39)) s && negb (str_exists (Ascii.eqb (chr 34)) s)
    then chr 34 else chr 39 in
  String quote (str_flat_map (repr_char quote) s ++ str1 quote)%string.

Definition repr_int (z : Z) : string := NilZero.string_of_int (Z.to_int z).

(** *** Floats

    A Python [float] is a [spec_float] for which [is_binary64] holds.  The
    functions below go by the value [m * 2 ^ e] of a finite float. *)

Definition is_binary64 (f : spec_float) : bool := valid_binary 53 1024 f.

Definition float_is_nan (f : spec_float) : bool :=
  match f with S754_nan => true | _ => false end.

(** The value [n * 2 ^ e] of a float that is zero or finite. *)
Definition float_parts (f : spec_float) : Z * Z :=
  match f with
  | S754_finite s m e => (if s then Z.neg m else Z.pos m, e)
  | _ => (0, 0)
  end.

(** A float compared with an integer; a NaN compares with nothing. *)
Definition float_compare_Z (f : spec_float) (z : Z) : option comparison :=
  match f with
  | S754_nan => None
  | S754_infinity s => Some (if s then Lt else Gt)
  | _ =>
      let (n, e) := float_parts f in
      Some (n * 2 ^ Z.max e 0 ?= z * 2 ^ Z.max (- e) 0)
  end.

Definition float_compare (f g : spec_float) : option comparison :=
  match f, g with
  | S754_nan, _ | _, S754_nan => None
  | S754_infinity s, S754_infinity t =>
      Some (if s then (if t then Eq else Lt) else (if t then Gt else Eq))
  | S754_infinity s, _ => Some (if s then Lt else Gt)
  | _, S754_infinity t => Some (if t then Gt else Lt)
  | _, _ =>
      let (n1, e1) := float_parts f in
      let (n2, e2) := float_parts g in
      let e := Z.min e1 e2 in
      Some (n1 * 2 ^ (e1 - e) ?= n2 * 2 ^ (e2 - e))
  end.

Definition is_Eq (c : option comparison) : bool :=
  match c with Some Eq => true | _ => false end.

(** [int(f)]: the integer part, toward zero. *)
Definition float_trunc (f : spec_float) : result Z :=
  match f with
  | S754_zero _ => Ok 0
  | S754_finite s m e =>
      let q := Z.pos m * 2 ^ Z.max e 0 / 2 ^ Z.max (- e) 0 in
      Ok (if s then - q else q)
  | S754_infinity _ => Raise OverflowError
  | S754_nan => Raise (ValueError "cannot convert float NaN to integer")
  end.

(** **** The decimal digits of a float *)

(** [c * 10 ^ p] compared with [a * 2 ^ g], for [c] and [a] not negative. *)
Definition compare_scaled (c p a g : Z) : comparison :=
  c * 10 ^ Z.max p 0 * 2 ^ Z.max (- g) 0
  ?= a * 2 ^ Z.max g 0 * 10 ^ Z.max (- p) 0.

(** The integer part of [m * 2 ^ e * 10 ^ p]. *)
Definition floor_scaled (m e p : Z) : Z :=
  m * 2 ^ Z.max e 0 * 10 ^ Z.max p 0
  / (2 ^ Z.max (- e) 0 * 10 ^ Z.max (- p) 0).

(** The position of the decimal point of [x = m * 2 ^ e]: the [k] with
    [10 ^ (k - 1) <= x < 10 ^ k], looked for upward from an estimate that
    lies below it. *)
Fixpoint point_from (fuel : nat) (k m e : Z) : Z :=
  match fuel with
  | O => k
  | S fuel' =>
      match compare_scaled 1 k m e with
      | Gt => k
      | _ => point_from fuel' (k + 1) m e
      end
  end.

Definition decimal_point (m e : Z) : Z :=
  point_from 5 ((Z.log2 m + e) * 30103 / 100000 - 1) m e.

(** The numbers that round to the binary64 float [m * 2 ^ e] lie between
    [low * 2 ^ g] and [high * 2 ^ g], the bounds included when [m] is
    even; the lower neighbour is half as far when [m] is the least
    mantissa of its binade. *)
Definition rounding_interval (m : positive) (e : Z) : Z * Z * Z :=
  if Pos.eqb m (2 ^ 52) && (-1074 <? e)
  then (4 * Z.pos m - 1, 4 * Z.pos m + 2, e - 2)
  else (2 * Z.pos m - 1, 2 * Z.pos m + 1, e - 1).

(** [c * 10 ^ q] rounds to the float [m * 2 ^ e]. *)
Definition rounds_back (m : positive) (e c q : Z) : bool :=
  let '(low, high, g) := rounding_interval m e in
  let closed := Z.even (Z.pos m) in
  match compare_scaled c q low g with
  | Gt => true
  | Eq => closed
  | Lt => false
  end
  && match compare_scaled c q high g with
     | Lt => true
     | Eq => closed
     | Gt => false
     end.

(** The shortest decimal number [c * 10 ^ q] that rounds to the float, the
    nearest one when two of a length do: with [n] digits the candidates
    are the two neighbours of the float. *)
Fixpoint shortest_from (fuel : nat) (n : Z) (m : positive) (e k : Z) : Z * Z :=
  let lo := floor_scaled (Z.pos m) e (n - k) in
  match fuel with
  | O => (lo, k - n)
  | S fuel' =>
      let ok_lo := rounds_back m e lo (k - n) in
      let ok_hi := rounds_back m e (lo + 1) (k - n) in
      let nearer_lo :=
        match compare_scaled (2 * lo + 1) (k - n) (2 * Z.pos m) e with
        | Gt => true
        | _ => false
        end in
      if ok_lo && (nearer_lo || negb ok_hi) then (lo, k - n)
      else if ok_hi then (lo + 1, k - n)
      else shortest_from fuel' (n + 1) m e k
  end.

Definition shortest_digits (m : positive) (e : Z) : Z * Z :=
  shortest_from 17 1 m e (decimal_point (Z.pos m) e).

Fixpoint rstrip_zeros (s : string) : string :=
  match s with
  | EmptyString => EmptyString
  | String c s' =>
      match rstrip_zeros s' with
      | EmptyString => if Ascii.eqb c "0" then EmptyString else str1 c
      | r => String c r
      end
  end.

Fixpoint zeros (n : nat) : string :=
  match n with
  | O => EmptyString
  | S n' => String "0" (zeros n')
  end.

(** The digits [ds] with the decimal point after the first [decpt] of
    them, and [.0] for a whole number. *)
Definition fixed_notation (ds : string) (decpt : Z) : string :=
  let len := Z.of_nat (String.length ds) in
  if decpt <=? 0 then ("0." ++ zeros (Z.to_nat (- decpt)%Z) ++ ds)%string
  else if len <=? decpt
  then (ds ++ zeros (Z.to_nat (decpt - len)%Z) ++ ".0")%string
  else (substring 0 (Z.to_nat decpt) ds ++ "."
        ++ substring (Z.to_nat decpt) (Z.to_nat (len - decpt)%Z) ds)%string.

(** The exponent with its sign and two digits at least. *)
Definition exponent_text (x : Z) : string :=
  ((if (x <? 0)%Z then "-" else "+")
   ++ (if (Z.abs x <? 10)%Z then "0" else "")
   ++ repr_int (Z.abs x))%string.

(** [repr(f)], also [str(f)]: the shortest digits that give the float
    back, in fixed notation when the decimal point lies within them or
    close, with an exponent otherwise. *)
Definition float_repr (f : spec_float) : string :=
  match f with
  | S754_nan => "nan"
  | S754_infinity s => if s then "-inf" else "inf"
  | S754_zero s => if s then "-0.0" else "0.0"
  | S754_finite s m e =>
      let (c, q) := shortest_digits m e in
      let decpt := Z.of_nat (String.length (repr_int c)) + q in
      let ds := rstrip_zeros (repr_int c) in
      ((if s then "-" else "")
       ++ (if ((-4 <? decpt) && (decpt <=? 16))%Z then fixed_notation ds decpt
           else
             match ds with
             | String d EmptyString =>
                 String d ("e" ++ exponent_text (decpt - 1)%Z)
             | String d rest =>
                 String d ("." ++ rest ++ "e" ++ exponent_text (decpt - 1)%Z)
             | EmptyString => EmptyString
             end))%string
  end.

(** The text SQLite makes of a real number: fifteen significant digits,
    the last one rounded up from a half. *)
Definition sqlite_real_text (f : spec_float) : string :=
  match f with
  | S754_nan => "NaN"
  | S754_infinity s => if s then "-Inf" else "Inf"
  | S754_zero _ => "0.0"
  | S754_finite s m e =>
      let k := decimal_point (Z.pos m) e in
      let num := Z.pos m * 2 ^ Z.max e 0 * 10 ^ Z.max (15 - k) 0 in
      let den := 2 ^ Z.max (- e) 0 * 10 ^ Z.max (k - 15) 0 in
      let c := (2 * num + den) / (2 * den) in
      let decpt := Z.of_nat (String.length (repr_int c)) + (k - 15) in
      let ds := rstrip_zeros (repr_int c) in
      ((if s then "-" else "")
       ++ (if ((decpt - 1 <? -4) || (14 <? decpt - 1))%Z
           then
             match ds with
             | String d EmptyString =>
                 String d (".0e" ++ exponent_text (decpt - 1)%Z)
             | String d rest =>
                 String d ("." ++ rest ++ "e" ++ exponent_text (decpt - 1)%Z)
             | EmptyString => EmptyString
             end
           else fixed_notation ds decpt))%string
  end.

(** *** [int(x)] *)

Definition digit_value (c : ascii) : Z := Z.of_N (code c) - 48.

(** The blanks [int()] skips around a number: those of [str.strip] without
    the four separators U+001C to U+001F. *)
Definition int_isspace (c : ascii) : bool :=
  in_range 9 13 c || (code c =? 32)%N || (code c =? 133)%N || (code c =? 160)%N.

Fixpoint lstrip_int (s : string) : string :=
  match s with
  | EmptyString => EmptyString
  | String c s' => if int_isspace c then lstrip_int s' else s
  end.

(** What the scan of the digits ends in. *)
Inductive scan : Type :=
| Scanned (value : Z) (digits : Z) (rest : string)
| BadUnderscore.

(** Decimal digits with single underscores between them, as far as they
    go: the value, the number of digits, and what follows them. *)
Fixpoint scan_digits (acc count : Z) (after_underscore : bool) (s : string)
  : scan :=
  match s with
  | EmptyString =>
      if after_underscore then BadUnderscore else Scanned acc count s
  | String c s' =>
      if is_digit c
      then scan_digits (10 * acc + digit_value c) (count + 1) false s'
      else if Ascii.eqb c "_" then
        if after_underscore then BadUnderscore
        else scan_digits acc count true s'
      else if after_underscore then BadUnderscore
      else Scanned acc count s
  end.

Definition invalid_literal (s : string) : exn :=
  ValueError ("invalid literal for int() with base 10: " ++ repr_str s)%string.

Definition max_str_digits : Z := 4300.

(** The [ValueError] of a conversion from [str] to [int]. *)
Definition long_literal (digits : Z) : exn :=
  ValueError
    ("Exceeds the limit (4300 digits) for integer string conversion: value has "
     ++ repr_int digits
     ++ " digits; use sys.set_int_max_str_digits() to increase the limit")%string.

(** [int(s)] for a string: blanks, a sign, the digits, blanks.  More than
    4300 digits are refused as soon as they are counted, before what
    follows them is looked at. *)
Definition parse_int (s : string) : result Z :=
  let after_sign (negative : bool) (t : string) :=
    match t with
    | String "_" _ => Raise (invalid_literal s)
    | _ =>
        match scan_digits 0 0 false t with
        | BadUnderscore => Raise (invalid_literal s)
        | Scanned value digits rest =>
            if digits =? 0 then Raise (invalid_literal s)
            else if max_str_digits <? digits then Raise (long_literal digits)
            else
              match lstrip_int rest with
              | EmptyString => Ok (if negative then - value else value)
              | _ => Raise (invalid_literal s)
              end
        end
    end in
  match lstrip_int s with
  | String "+" t => after_sign false t
  | String "-" t => after_sign true t
  | t => after_sign false t
  end.

Definition py_int (v : pyval) : result Z :=
  match v with
  | VInt z => Ok z
  | VBool b => Ok (Z.b2z b)
  | VFloat f => float_trunc f
  | VStr s => parse_int s
  | VNone | VList _ | VDict _ => Raise TypeError
  end.

(** *** Equality, membership and [append] *)

(** [a is b or a == b], the comparison that [in] and the comparison of
    lists and dicts make on their elements.  Numbers compare by value, a
    [bool] as the integer it is; a NaN, which equals nothing, is found
    where it is held: the model has one NaN object, the one [json.load]
    returns.  Two dicts are equal when they have as many items and every
    item of the first has an equal item in the second, which for dicts
    (whose keys are distinct) is equality of mappings whatever the
    insertion order. *)
Fixpoint py_eq (a b : pyval) : bool :=
  match a, b with
  | VNone, VNone => true
  | VBool x, VBool y => Bool.eqb x y
  | VBool x, VInt y => Z.b2z x =? y
  | VInt x, VBool y => x =? Z.b2z y
  | VInt x, VInt y => x =? y
  | VFloat x, VFloat y =>
      (float_is_nan x && float_is_nan y) || is_Eq (float_compare x y)
  | VFloat x, VInt y => is_Eq (float_compare_Z x y)
  | VInt x, VFloat y => is_Eq (float_compare_Z y x)
  | VFloat x, VBool y => is_Eq (float_compare_Z x (Z.b2z y))
  | VBool x, VFloat y => is_Eq (float_compare_Z y (Z.b2z x))
  | VStr x, VStr y => String.eqb x y
  | VList xs, VList ys =>
      (fix all2 (xs : list pyval) (ys : list pyval) : bool :=
         match xs, ys with
         | [], [] => true
         | x :: xs', y :: ys' => py_eq x y && all2 xs' ys'
         | _, _ => false
         end) xs ys
  | VDict d, VDict e =>
      Nat.eqb (List.length d) (List.length e)
      && forallb
           (fun kv =>
              existsb (fun kv' => String.eqb (fst kv) (fst kv')
                                  && py_eq (snd kv) (snd kv')) e)
           d
  | _, _ => false
  end.

(** [needle in haystack] for two strings. *)
Fixpoint str_contains (haystack needle : string) : bool :=
  String.prefix needle haystack
  || match haystack with
     | EmptyString => false
     | String _ h' => str_contains h' needle
     end.

(** [x in c]: a list holds [x] when an element is [x] or equals it; a string accepts only a
    string on the left; a dict looks the key up, and an unhashable left
    operand raises; any other right operand is not iterable. *)
Definition py_contains (c x : pyval) : result bool :=
  match c with
  | VList l => Ok (existsb (py_eq x) l)
  | VStr s =>
      match x with
      | VStr n => Ok (str_contains s n)
      | _ => Raise TypeError
      end
  | VDict d =>
      match x with
      | VStr k => Ok (dict_has d k)
      | VList _ | VDict _ => Raise TypeError
      | _ => Ok false
      end
  | VNone | VBool _ | VInt _ | VFloat _ => Raise TypeError
  end.

(** [c.append(x)], returning the list after the call. *)
Definition py_append (c x : pyval) : result pyval :=
  match c with
  | VList l => Ok (VList (l ++ [x]))
  | _ => Raise AttributeError
  end.

(** *** [str(x)] and [repr(x)] *)

Fixpoint py_repr (v : pyval) : string :=
  match v with
  | VNone => "None"
  | VBool true => "True"
  | VBool false => "False"
  | VInt z => repr_int z
  | VFloat f => float_repr f
  | VStr s => repr_str s
  | VList l => ("[" ++ String.concat ", " (map py_repr l) ++ "]")%string
  | VDict d =>
      ("{" ++ String.concat ", "
                (map (fun kv => repr_str (fst kv) ++ ": " ++ py_repr (snd kv)) d)
           ++ "}")%string
  end.

(** The text [str(v)] returns when it returns. *)
Definition py_str (v : pyval) : string :=
  match v with
  | VStr s => s
  | _ => py_repr v
  end.

(** The number of digits of an [int], whose text is refused when they
    are more than 4300. *)
Definition int_digits (z : Z) : Z :=
  Z.of_nat (String.length (repr_int (Z.abs z))).

Definition int_is_long (z : Z) : bool := max_str_digits <? int_digits z.

(** The integers of a value, in the order of its text. *)
Fixpoint ints_of (v : pyval) : list Z :=
  match v with
  | VInt z => [z]
  | VList l => flat_map ints_of l
  | VDict d => flat_map (fun kv => ints_of (snd kv)) d
  | _ => []
  end.

(** The value is an [int] of more than 4300 digits, or a list or dict
    that holds one. *)
Definition has_long_int (v : pyval) : bool := existsb int_is_long (ints_of v).

Definition first_long_int (v : pyval) : option Z := find int_is_long (ints_of v).

(** The [ValueError] of a conversion from [int] to [str]. *)
Definition limit_exceeded : exn :=
  ValueError "Exceeds the limit (4300 digits) for integer string conversion; use sys.set_int_max_str_digits() to increase the limit".

(** The call [str(v)], also [f"{v}"]: it raises on a value that holds an
    [int] of more than 4300 digits. *)
Definition str_of (v : pyval) : result string :=
  if has_long_int v then Raise limit_exceeded else Ok (py_str v).

(** ** Regular expressions, as far as [validate_email] needs them *)

Module Re.

Inductive t : Type :=
| Void
| Eps
| Class (p : ascii -> bool)
| Cat (r1 r2 : t)
| Alt (r1 r2 : t)
| Star (r : t).

(** [r+] and [r{2,}]. *)
Definition Plus (r : t) : t := Cat r (Star r).
Definition AtLeast2 (r : t) : t := Cat r (Cat r (Star r)).

Fixpoint nullable (r : t) : bool :=
  match r with
  | Void => false
  | Eps => true
  | Class _ => false
  | Cat r1 r2 => nullable r1 && nullable r2
  | Alt r1 r2 => nullable r1 || nullable r2
  | Star _ => true
  end.

(** The words [w] such that [c w] is matched by [r]. *)
Fixpoint deriv (c : ascii) (r : t) : t :=
  match r with
  | Void | Eps => Void
  | Class p => if p c then Eps else Void
  | Cat r1 r2 =>
      if nullable r1
      then Alt (Cat (deriv c r1) r2) (deriv c r2)
      else Cat (deriv c r1) r2
  | Alt r1 r2 => Alt (deriv c r1) (deriv c r2)
  | Star r1 => Cat (deriv c r1) (Star r1)
  end.

(** [r] matches the whole of [s]. *)
Fixpoint fullmatch (r : t) (s : string) : bool :=
  match s with
  | EmptyString => nullable r
  | String c s' => fullmatch (deriv c r) s'
  end.

Fixpoint drop_final_newline (s : string) : option string :=
  match s with
  | EmptyString => None
  | String c EmptyString => if (code c =? 10)%N then Some EmptyString else None
  | String c s' => option_map (String c) (drop_final_newline s')
  end.

(** [re.match('^' r '$', s)]: the pattern is anchored at the start, and
    [$] matches at the end of the string or just before a newline that
    ends it. *)
Definition match_anchored (r : t) (s : string) : bool :=
  fullmatch r s
  || match drop_final_newline s with
     | Some s' => fullmatch r s'
     | None => false
     end.

End Re.

(** ** [person.py] *)

Module Person.

Record t : Type := mk {
  name : string;
  age : Z;
  _email : string
}.

(** [Person.validate_name]. *)
Definition validate_name (name : pyval) : result string :=
  if negb (py_truthy name) then Raise (ValueError "Name cannot be empty")
  else
    match name with
    | VStr s =>
        if negb (str_isalpha s) then Raise (ValueError "Name must be alphabetic.")
        else Ok (strip s)
    | _ => Raise AttributeError
    end.

Definition is_alnum_az (c : ascii) : bool :=
  is_upper_az c || is_lower_az c || is_digit c.
Definition is_char (ch : string) (c : ascii) : bool :=
  str_exists (Ascii.eqb c) ch.

(** [[A-Za-z0-9._%+-]+@[A-Za-z0-9.-]+\.[A-Za-z]{2,}]. *)
Definition email_pattern : Re.t :=
  Re.Cat (Re.Plus (Re.Class (fun c => is_alnum_az c || is_char "._%+-" c)))
    (Re.Cat (Re.Class (is_char "@"))
       (Re.Cat (Re.Plus (Re.Class (fun c => is_alnum_az c || is_char ".-" c)))
          (Re.Cat (Re.Class (is_char "."))
             (Re.AtLeast2
                (Re.Class (fun c => is_upper_az c || is_lower_az c)))))).

(** [Person.validate_email]. *)
Definition validate_email (email : pyval) : result string :=
  if negb (py_truthy email) then Raise (ValueError "Email cannot be empty")
  else
    match email with
    | VStr s =>
        if Re.match_anchored email_pattern s then Ok s
        else Raise (ValueError "Invalid email format")
    | _ => Raise TypeError
    end.

(** [Person.validate_age]: of what [int()] raises, [TypeError] and
    [ValueError] are caught. *)
Definition validate_age (age : pyval) : result Z :=
  if is_none age then Raise (ValueError "Age cannot be empty")
  else
    match py_int age with
    | Raise TypeError | Raise (ValueError _) =>
        Raise (ValueError "Age must be a number.")
    | Raise e => Raise e
    | Ok age_int =>
        if negb ((1 <=? age_int) && (age_int <=? 120))
        then Raise (ValueError "Age must be between 1 and 120.")
        else Ok age_int
    end.

(** [Person.__init__]: the name is only stripped. *)
Definition init (name age email : pyval) : result t :=
  n <- match name with
       | VStr s => Ok (strip s)
       | _ => Raise AttributeError
       end ;;
  a <- validate_age age ;;
  e <- validate_email email ;;
  Ok (mk n a e).

Definition get_email (self : t) : string := _email self.

(** [Person.set_email]: the object after the call and the outcome. *)
Definition set_email (self : t) (new_email : pyval) : t * result unit :=
  match validate_email new_email with
  | Ok e => (mk (name self) (age self) e, Ok tt)
  | Raise ex => (self, Raise ex)
  end.

Definition to_dict (self : t) : pydict :=
  dict_of_items
    [("name", VStr (name self));
     ("age", VInt (age self));
     ("email", VStr (_email self))].

Definition from_dict (d : pydict) : result t :=
  n <- py_index d "name" ;;
  a <- py_index d "age" ;;
  a' <- py_int a ;;
  init n (VInt a') (py_get_default d "email" (VStr "")).

End Person.

(** ** Local variables of a function body

    [Student.from_dict] and [Instructor.from_dict] run their assignments
    inside [try: ... except Exception: pass] and read the local variables
    afterwards.  A [frame] holds the locals that are bound; a statement
    returns the frame it leaves and the exception it raised, if any. *)

Definition frame := pydict.
Definition stmt := frame -> frame * option exn.

Definition assign (x : string) (e : result pyval) : stmt :=
  fun f =>
    match e with
    | Ok v => (dict_set f x v, None)
    | Raise ex => (f, Some ex)
    end.

(** [if (x := e) is None: raise ex]. *)
Definition assign_required (x : string) (e : pyval) (ex : exn) : stmt :=
  fun f =>
    let f' := dict_set f x e in
    if is_none e then (f', Some ex) else (f', None).

Fixpoint block (body : list stmt) : stmt :=
  fun f =>
    match body with
    | [] => (f, None)
    | s :: rest =>
        match s f with
        | (f', None) => block rest f'
        | (f', Some ex) => (f', Some ex)
        end
    end.

(** [try: body  except Exception: pass]. *)
Definition try_except_pass (body : list stmt) (f : frame) : frame :=
  fst (block body f).

(** Reading a local variable. *)
Definition load (f : frame) (x : string) : result pyval :=
  match dict_get f x with
  | Some v => Ok v
  | None => Raise (UnboundLocalError x)
  end.

Definition as_str (r : result string) : result pyval := s <- r ;; Ok (VStr s).
Definition as_int (r : result Z) : result pyval := z <- r ;; Ok (VInt z).

(** An object with a [course_id] attribute. *)
Class HasCourseId (C : Type) : Type := get_course_id : C -> pyval.

(** An object with a [to_dict()] method. *)
Class ToDict (T : Type) : Type := to_dict_of : T -> result pydict.

(** ** [student.py] *)

Module Student.

Record t : Type := mk {
  person : Person.t;
  student_id : pyval;
  registered_courses : pyval
}.

(** [Student.__init__]. *)
Definition init (name age email student_id registered_courses : pyval)
  : result t :=
  p <- Person.init name age email ;;
  Ok (mk p student_id
        (if is_none registered_courses then VList [] else registered_courses)).

(** [Student.register_course]. *)
Definition register_course {C} `{HasCourseId C} (self : t) (course : C)
  : t * result unit :=
  match py_contains (registered_courses self) (get_course_id course) with
  | Raise ex => (self, Raise ex)
  | Ok present =>
      if negb present then
        match py_append (registered_courses self) (get_course_id course) with
        | Ok l => (mk (person self) (student_id self) l, Ok tt)
        | Raise ex => (self, Raise ex)
        end
      else (self, Ok tt)
  end.

Definition to_dict (self : t) : pydict :=
  dict_update (Person.to_dict (person self))
    (dict_of_items
       [("student_id", student_id self);
        ("registered_courses", registered_courses self)]).

Definition from_dict_body (data : pydict) : list stmt :=
  [ assign_required "name" (py_get data "name") (ValueError "Name is required");
    assign_required "age" (py_get data "age") (ValueError "Age is required");
    assign_required "email" (py_get data "email") (ValueError "Email is required");
    assign_required "student_id" (py_get data "student_id")
      (ValueError "Student ID is required");
    assign "name" (as_str (Person.validate_name (py_get data "name")));
    assign "age" (as_int (Person.validate_age (py_get_default data "age" (VInt 1))));
    assign "email"
      (as_str (Person.validate_email (py_get_default data "email" (VStr ""))));
    assign "student_id" (py_index data "student_id");
    assign "registered_courses"
      (Ok (py_get_default data "registered_courses" (VList []))) ].

(** [Student.from_dict]. *)
Definition from_dict (data : pydict) : result t :=
  let f := try_except_pass (from_dict_body data) [] in
  name <- load f "name" ;;
  age <- load f "age" ;;
  email <- load f "email" ;;
  student_id <- load f "student_id" ;;
  registered_courses <- load f "registered_courses" ;;
  init name age email student_id registered_courses.

Definition display_student (self : t) : result string :=
  id <- str_of (student_id self) ;;
  Ok (id ++ " - " ++ Person.name (person self))%string.

End Student.

(** ** [instructor.py] *)

Module Instructor.

Record t : Type := mk {
  person : Person.t;
  instructor_id : pyval;
  assigned_courses : pyval
}.

(** [Instructor.__init__]. *)
Definition init (name age email instructor_id assigned_courses : pyval)
  : result t :=
  p <- Person.init name age email ;;
  Ok (mk p instructor_id
        (if is_none assigned_courses then VList [] else assigned_courses)).

(** [Instructor.assign_course]. *)
Definition assign_course {C} `{HasCourseId C} (self : t) (course : C)
  : t * result unit :=
  match py_contains (assigned_courses self) (get_course_id course) with
  | Raise ex => (self, Raise ex)
  | Ok present =>
      if negb present then
        match py_append (assigned_courses self) (get_course_id course) with
        | Ok l => (mk (person self) (instructor_id self) l, Ok tt)
        | Raise ex => (self, Raise ex)
        end
      else (self, Ok tt)
  end.

Definition to_dict (self : t) : pydict :=
  dict_update (Person.to_dict (person self))
    (dict_of_items
       [("instructor_id", instructor_id self);
        ("assigned_courses", assigned_courses self)]).

Definition from_dict_body (data : pydict) : list stmt :=
  [ assign "name"
      (as_str (Person.validate_name (py_get_default data "name" (VStr ""))));
    assign "age" (as_int (Person.validate_age (py_get_default data "age" (VInt 0))));
    assign "email"
      (as_str (Person.validate_email (py_get_default data "email" (VStr ""))));
    assign "instructor_id" (py_index data "instructor_id");
    assign "assigned_courses"
      (Ok (py_get_default data "assigned_courses" (VList []))) ].

(** [Instructor.from_dict]. *)
Definition from_dict (data : pydict) : result t :=
  let f := try_except_pass (from_dict_body data) [] in
  name <- load f "name" ;;
  age <- load f "age" ;;
  email <- load f "email" ;;
  instructor_id <- load f "instructor_id" ;;
  assigned_courses <- load f "assigned_courses" ;;
  init name age email instructor_id assigned_courses.

Definition display_instructor (self : t) : result string :=
  id <- str_of (instructor_id self) ;;
  Ok (id ++ " - " ++ Person.name (person self))%string.

End Instructor.

(** ** Objects and references *)

Definition addr := nat.

Inductive object : Type :=
| OStudent (s : Student.t)
| OInstructor (i : Instructor.t)
| OOther.  (* an instance of any other class *)

Definition heap := list object.

(** What a parameter can be bound to: an object, by reference, or a value. *)
Inductive pyobj : Type :=
| Ref (a : addr)
| Val (v : pyval).

Definition alloc (h : heap) (o : object) : heap * addr :=
  (h ++ [o], List.length h).

Definition is_Instructor (h : heap) (x : pyobj) : bool :=
  match x with
  | Ref a => match nth_error h a with Some (OInstructor _) => true | _ => false end
  | Val _ => false
  end.

Definition is_Student (h : heap) (x : pyobj) : bool :=
  match x with
  | Ref a => match nth_error h a with Some (OStudent _) => true | _ => false end
  | Val _ => false
  end.

(** [x.to_dict()]. *)
Definition obj_to_dict (h : heap) (x : pyobj) : result pydict :=
  match x with
  | Ref a =>
      match nth_error h a with
      | Some (OStudent s) => Ok (Student.to_dict s)
      | Some (OInstructor i) => Ok (Instructor.to_dict i)
      | _ => Raise AttributeError
      end
  | Val _ => Raise AttributeError
  end.

(** [x == y] on parameters: the entity classes define no [__eq__], so two
    objects are equal when they are the same object. *)
Definition obj_eq (x y : pyobj) : bool :=
  match x, y with
  | Ref a, Ref b => Nat.eqb a b
  | Val u, Val v => py_eq u v
  | _, _ => false
  end.

Definition obj_is_none (x : pyobj) : bool :=
  match x with
  | Val v => is_none v
  | Ref _ => false
  end.

Fixpoint map_result {A B} (f : A -> result B) (l : list A) : result (list B) :=
  match l with
  | [] => Ok []
  | x :: l' => y <- f x ;; ys <- map_result f l' ;; Ok (y :: ys)
  end.

(** The items a [for] loop draws from a value. *)
Definition py_iter (v : pyval) : result (list pyval) :=
  match v with
  | VList l => Ok l
  | VStr s => Ok (map (fun c => VStr (str1 c)) (list_ascii_of_string s))
  | VDict d => Ok (map VStr (dict_keys d))
  | VNone | VBool _ | VInt _ | VFloat _ => Raise TypeError
  end.

(** ** [course.py] *)

Module Course.

Record t : Type := mk {
  course_id : pyval;
  course_name : pyval;
  instructor : pyobj;
  enrolled_students : list pyobj
}.

(** [Course.__init__]: whatever [instructor] is passed, the attribute is
    set to [None]. *)
Definition init (course_id course_name : pyval)
    (instructor : pyobj) (enrolled_students : option (list pyobj)) : t :=
  mk course_id course_name (Val VNone)
     (match enrolled_students with
      | None => []
      | Some l => l
      end).

(** [Course.add_instructor]. *)
Definition add_instructor (h : heap) (self : t) (instructor : pyobj)
  : t * result unit :=
  if negb (is_Instructor h instructor)
  then (self,
        Raise (ValueError "Only an Instructor can be assigned to the course."))
  else (mk (course_id self) (course_name self) instructor
           (enrolled_students self), Ok tt).

(** [Course.add_student]. *)
Definition add_student (h : heap) (self : t) (student : pyobj)
  : t * result unit :=
  if negb (is_Student h student)
  then (self, Raise (ValueError "Only a Student can be enrolled in the course."))
  else if negb (existsb (obj_eq student) (enrolled_students self))
  then (mk (course_id self) (course_name self) (instructor self)
           (enrolled_students self ++ [student]), Ok tt)
  else (self, Ok tt).

(** [Course.to_dict]. *)
Definition to_dict (h : heap) (self : t) : result pydict :=
  i <- (if negb (obj_is_none (instructor self))
        then d <- obj_to_dict h (instructor self) ;; Ok (VDict d)
        else Ok VNone) ;;
  ss <- map_result (fun x => d <- obj_to_dict h x ;; Ok (VDict d))
          (enrolled_students self) ;;
  Ok (dict_of_items
        [("course_id", course_id self);
         ("course_name", course_name self);
         ("instructor", i);
         ("enrolled_students", VList ss)]).

(** [Instructor.from_dict(d)] and [Student.from_dict(d)], the new object
    placed in the heap.  On a [d] that is no dict the first [d.get] raises
    [AttributeError] inside the [try] block, which passes over it, and the
    [return] finds [name] unbound. *)
Definition new_instructor (h : heap) (d : pyval) : result (heap * pyobj) :=
  match d with
  | VDict d' =>
      i <- Instructor.from_dict d' ;;
      let (h', a) := alloc h (OInstructor i) in
      Ok (h', Ref a)
  | _ => Raise (UnboundLocalError "name")
  end.

Definition new_student (h : heap) (d : pyval) : result (heap * pyobj) :=
  match d with
  | VDict d' =>
      s <- Student.from_dict d' ;;
      let (h', a) := alloc h (OStudent s) in
      Ok (h', Ref a)
  | _ => Raise (UnboundLocalError "name")
  end.

(** [[Student.from_dict(student_data) for student_data in l]]. *)
Fixpoint new_students (h : heap) (l : list pyval)
  : result (heap * list pyobj) :=
  match l with
  | [] => Ok (h, [])
  | d :: l' =>
      hx <- new_student h d ;;
      hxs <- new_students (fst hx) l' ;;
      Ok (fst hxs, snd hx :: snd hxs)
  end.

(** [Course.from_dict]. *)
Definition from_dict (h : heap) (data : pydict) : result (heap * t) :=
  hi <- (if py_truthy (py_get data "instructor")
         then new_instructor h (py_get data "instructor")
         else Ok (h, Val VNone)) ;;
  sd <- py_index data "enrolled_students" ;;
  items <- py_iter sd ;;
  hs <- new_students (fst hi) items ;;
  cid <- py_index data "course_id" ;;
  cname <- py_index data "course_name" ;;
  Ok (fst hs, init cid cname (snd hi) (Some (snd hs))).

Definition display_course (self : t) : result string :=
  id <- str_of (course_id self) ;;
  name <- str_of (course_name self) ;;
  Ok (id ++ " - " ++ name)%string.

End Course.

#[export] Instance Course_HasCourseId : HasCourseId Course.t := Course.course_id.
#[export] Instance Student_ToDict : ToDict Student.t :=
  fun s => Ok (Student.to_dict s).
#[export] Instance Instructor_ToDict : ToDict Instructor.t :=
  fun i => Ok (Instructor.to_dict i).
#[export] Instance Course_ToDict : ToDict (heap * Course.t) :=
  fun hc => Course.to_dict (fst hc) (snd hc).

(** A collection may hold objects of two classes. *)
#[export] Instance Sum_ToDict {A B} `{ToDict A} `{ToDict B} : ToDict (A + B) :=
  fun x =>
    match x with
    | inl a => to_dict_of a
    | inr b => to_dict_of b
    end.

(** ** [data_manager.py]

    The JSON codec and the text files are the standard library's.  A file
    opened as text is represented by what [json.load] finds in it. *)

Inductive reading : Type :=
| Json (v : pyval)
  (** the text is JSON and denotes [v] *)
| NotJson
  (** it is text but not JSON, and no integer of more than 4300 digits
      comes before its first flaw *)
| LongBeforeFlaw (excess : positive)
  (** it is text but not JSON, and an integer of [4300 + excess] digits
      comes before its first flaw *)
| NotText.
  (** the bytes are no text in the encoding the file is opened with *)

(** [json.load(f)]: the integers are converted as they are met. *)
Definition json_load (r : reading) : result pyval :=
  match r with
  | Json v =>
      match first_long_int v with
      | Some z => Raise (long_literal (int_digits z))
      | None => Ok v
      end
  | NotJson => Raise JSONDecodeError
  | LongBeforeFlaw excess => Raise (long_literal (max_str_digits + Z.pos excess))
  | NotText => Raise UnicodeDecodeError
  end.

(** The encoding of the locale, which [open] uses when it is given none:
    UTF-8 or another extension of ASCII.  In the latter a UTF-8 text with
    a character outside ASCII reads as something else: [misread cut v] is
    what comes of the text that [json.dump(v, f, indent=4,
    ensure_ascii=False)] writes and, when [cut] is set, of the part of it
    that is written before [json.dump] fails. *)
Record locale : Type := mk_locale {
  is_utf8 : bool;
  misread : bool -> pyval -> reading
}.

(** What a file holds. *)
Inductive content : Type :=
| Dumped (v : pyval) (ensure_ascii : bool)
  (** the text [json.dump(v, f, indent=4, ensure_ascii=...)] writes; the
      characters outside ASCII, which only [ensure_ascii=False] leaves in
      it, are encoded in UTF-8 *)
| Cut (v : pyval) (ensure_ascii : bool)
  (** the part of that text which is written before [json.dump] fails on
      an integer of more than 4300 digits: nothing, or the beginning of a
      list or dict that is not closed *)
| Bytes (as_utf8 otherwise : reading).
  (** any bytes, given by what they read as in UTF-8 and in the encoding
      of a locale that is not UTF-8 *)

(** [s.isascii()], and the same of every string of a value, the keys of
    its dicts included. *)
Definition str_isascii (s : string) : bool :=
  str_forall (fun c => (code c <? 128)%N) s.

Fixpoint ascii_only (v : pyval) : bool :=
  match v with
  | VStr s => str_isascii s
  | VList l => forallb ascii_only l
  | VDict d => forallb (fun kv => str_isascii (fst kv) && ascii_only (snd kv)) d
  | _ => true
  end.

(** A file opened with [encoding="utf-8"]. *)
Definition read_utf8 (c : content) : reading :=
  match c with
  | Dumped v _ => Json v
  | Cut _ _ => NotJson
  | Bytes r _ => r
  end.

(** A file opened with the encoding of the locale. *)
Definition read_locale (loc : locale) (c : content) : reading :=
  if is_utf8 loc then read_utf8 c
  else
    match c with
    | Dumped v ensure_ascii =>
        if ensure_ascii || ascii_only v then Json v else misread loc false v
    | Cut v ensure_ascii =>
        if ensure_ascii || ascii_only v then NotJson else misread loc true v
    | Bytes _ r => r
    end.

Definition files := string -> option content.

Definition write_file (fs : files) (filename : string) (c : content) : files :=
  fun n => if String.eqb n filename then Some c else fs n.

(** [with open(filename, "r", ...) as f: json.load(f)]. *)
Definition open_load (read : content -> reading) (fs : files)
    (filename : string) : result pyval :=
  match fs filename with
  | None => Raise FileNotFoundError
  | Some c => json_load (read c)
  end.

(** [with open(filename, "w", ...) as f: json.dump(v, f, indent=4,
    ensure_ascii=...)]: the file is emptied when it is opened and written
    piece by piece, so a failure leaves the pieces written before it. *)
Definition open_dump (fs : files) (filename : string) (v : pyval)
    (ensure_ascii : bool) : files * result unit :=
  if has_long_int v
  then (write_file fs filename (Cut v ensure_ascii), Raise limit_exceeded)
  else (write_file fs filename (Dumped v ensure_ascii), Ok tt).

Module DataManager.

(** The [try] block of [save_data] and its handler, which catches
    [FileNotFoundError] and [json.JSONDecodeError] only: the prior
    records, [[]] when the file is missing, is not JSON or does not hold a
    list. *)
Definition read_existing (fs : files) (filename : string)
  : result (list pyval) :=
  match open_load read_utf8 fs filename with
  | Ok (VList l) => Ok l
  | Ok _ => Ok []
  | Raise FileNotFoundError | Raise JSONDecodeError => Ok []
  | Raise e => Raise e
  end.

(** [{str(record[key_field]): record for record in existing
      if isinstance(record, dict) and key_field in record}]. *)
Fixpoint index_by_key (by_key : list (string * pydict))
    (existing : list pyval) (key_field : string)
  : result (list (string * pydict)) :=
  match existing with
  | [] => Ok by_key
  | VDict record :: rest =>
      match dict_get record key_field with
      | Some k =>
          key <- str_of k ;;
          index_by_key (dict_set by_key key record) rest key_field
      | None => index_by_key by_key rest key_field
      end
  | _ :: rest => index_by_key by_key rest key_field
  end.

(** One turn of the loop over [data] with [record = obj.to_dict()]. *)
Definition upsert (by_key : list (string * pydict)) (record : pydict)
    (key_field : string) : result (list (string * pydict)) :=
  key <- str_of (py_get record key_field) ;;
  if String.eqb key "" then Ok by_key
  else
    Ok (dict_set by_key key
          (dict_update
             (match dict_get by_key key with Some r => r | None => [] end)
             record)).

Fixpoint merge_all {T} `{ToDict T} (by_key : list (string * pydict))
    (data : list (option T)) (key_field : string)
  : result (list (string * pydict)) :=
  match data with
  | [] => Ok by_key
  | None :: rest => merge_all by_key rest key_field
  | Some obj :: rest =>
      record <- to_dict_of obj ;;
      by_key' <- upsert by_key record key_field ;;
      merge_all by_key' rest key_field
  end.

(** [DataManager.save_data]: the files after the call and its outcome;
    [data] may be [None]. *)
Definition save_data {T} `{ToDict T} (fs : files) (filename : string)
    (data : option (list (option T))) (key_field : string)
  : files * result unit :=
  match
    existing <- read_existing fs filename ;;
    by_key <- index_by_key [] existing key_field ;;
    merge_all by_key (match data with Some l => l | None => [] end) key_field
  with
  | Ok by_key =>
      open_dump fs filename (VList (map VDict (dict_values by_key))) false
  | Raise e => (fs, Raise e)
  end.


(** [DataManager.load_json]: the file is opened with the encoding of the
    locale. *)
Definition load_json (loc : locale) (fs : files) (filename : string)
  : result pyval :=
  open_load (read_locale loc) fs filename.

End DataManager.

(** ** [database_manager.py]

    SQLite as far as the statements of [DatabaseManager] use it: values
    are NULL, integers, reals or text; every key column has TEXT affinity;
    foreign keys are declared but not enforced; NULLs are distinct for
    uniqueness, also in a primary key. *)

Inductive sqlval : Type :=
| SNull
| SInt (z : Z)
| SReal (f : spec_float)
| SText (s : string).

(** Binding a Python value to a [?]; a NaN is bound as NULL. *)
Definition sql_bind (v : pyval) : result sqlval :=
  match v with
  | VNone => Ok SNull
  | VBool b => Ok (SInt (Z.b2z b))
  | VInt z =>
      if (- 2 ^ 63 <=? z) && (z <? 2 ^ 63) then Ok (SInt z)
      else Raise OverflowError
  | VFloat f => Ok (if float_is_nan f then SNull else SReal f)
  | VStr s => Ok (SText s)
  | VList _ | VDict _ => Raise ProgrammingError
  end.

(** The values that are bound as NULL. *)
Definition binds_null (v : pyval) : bool :=
  match v with
  | VNone => true
  | VFloat f => float_is_nan f
  | _ => false
  end.

(** TEXT affinity: a number is stored as its text. *)
Definition text_affinity (v : sqlval) : sqlval :=
  match v with
  | SInt z => SText (repr_int z)
  | SReal f => SText (sqlite_real_text f)
  | _ => v
  end.

(** [a = b] is true: numbers compare by value, a number is no text. *)
Definition sql_eq (a b : sqlval) : bool :=
  match a, b with
  | SInt x, SInt y => x =? y
  | SReal x, SReal y => is_Eq (float_compare x y)
  | SReal x, SInt y => is_Eq (float_compare_Z x y)
  | SInt x, SReal y => is_Eq (float_compare_Z y x)
  | SText x, SText y => String.eqb x y
  | _, _ => false
  end.

Definition sql_is_null (v : sqlval) : bool :=
  match v with SNull => true | _ => false end.

Record person_row : Type := mk_person_row {
  row_id : sqlval;
  row_name : sqlval;
  row_age : sqlval;
  row_email : sqlval
}.

Record course_row : Type := mk_course_row {
  row_course_id : sqlval;
  row_course_name : sqlval
}.

(** A row of [student_courses] or [instructor_courses]. *)
Record link_row : Type := mk_link_row {
  link_person_id : sqlval;
  link_course_id : sqlval
}.

Record database : Type := mk_database {
  students : list person_row;
  instructors : list person_row;
  courses : list course_row;
  student_courses : list link_row;
  instructor_courses : list link_row
}.

Module DatabaseManager.

(** [INSERT INTO <table> (<id>, name, age, email) VALUES (?, ?, ?, ?)] on a
    table [(<id> TEXT PRIMARY KEY, name TEXT NOT NULL, age INTEGER NOT
    NULL, email TEXT UNIQUE NOT NULL)].  The [NOT NULL] constraints are
    checked first, in the order of the columns; of the two [UNIQUE]
    indexes SQLite checks the one on [email] before the one of the
    primary key. *)
Definition insert_person (table : string) (id_column : string)
    (rows : list person_row) (r : person_row) : result (list person_row) :=
  let failed (what column : string) :=
    Raise (IntegrityError
             (what ++ " constraint failed: " ++ table ++ "." ++ column)%string) in
  if sql_is_null (row_name r) then failed "NOT NULL" "name"
  else if sql_is_null (row_age r) then failed "NOT NULL" "age"
  else if sql_is_null (row_email r) then failed "NOT NULL" "email"
  else if existsb (fun r' => sql_eq (row_email r') (row_email r)) rows
  then failed "UNIQUE" "email"
  else if existsb (fun r' => sql_eq (row_id r') (row_id r)) rows
  then failed "UNIQUE" id_column
  else Ok (rows ++ [r]).

Definition person_params (id : pyval) (p : Person.t) : result person_row :=
  i <- sql_bind id ;;
  n <- sql_bind (VStr (Person.name p)) ;;
  a <- sql_bind (VInt (Person.age p)) ;;
  e <- sql_bind (VStr (Person.get_email p)) ;;
  Ok (mk_person_row (text_affinity i) (text_affinity n) a (text_affinity e)).

(** [DatabaseManager.add_student]: the database after the call and its
    outcome. *)
Definition add_student (db : database) (student : Student.t)
  : database * result unit :=
  match
    r <- person_params (Student.student_id student) (Student.person student) ;;
    insert_person "students" "student_id" (students db) r
  with
  | Ok rows =>
      (mk_database rows (instructors db) (courses db) (student_courses db)
         (instructor_courses db), Ok tt)
  | Raise (IntegrityError e) =>
      (db, Raise (ValueError
                    ("Student already exists or email is already in use: " ++ e)%string))
  | Raise e => (db, Raise e)
  end.

(** [DatabaseManager.add_instructor]. *)
Definition add_instructor (db : database) (instructor : Instructor.t)
  : database * result unit :=
  match
    r <- person_params (Instructor.instructor_id instructor)
           (Instructor.person instructor) ;;
    insert_person "instructors" "instructor_id" (instructors db) r
  with
  | Ok rows =>
      (mk_database (students db) rows (courses db) (student_courses db)
         (instructor_courses db), Ok tt)
  | Raise (IntegrityError e) =>
      (db, Raise (ValueError ("Instructor already exists: " ++ e)%string))
  | Raise e => (db, Raise e)
  end.

(** [DatabaseManager.add_course]. *)
Definition add_course (db : database) (course : Course.t)
  : database * result unit :=
  match
    i <- sql_bind (Course.course_id course) ;;
    n <- sql_bind (Course.course_name course) ;;
    let r := mk_course_row (text_affinity i) (text_affinity n) in
    if sql_is_null (row_course_name r)
    then Raise (IntegrityError "NOT NULL constraint failed: courses.course_name")
    else if existsb (fun r' => sql_eq (row_course_id r') (row_course_id r))
              (courses db)
    then Raise (IntegrityError "UNIQUE constraint failed: courses.course_id")
    else Ok (courses db ++ [r])
  with
  | Ok rows =>
      (mk_database (students db) (instructors db) rows (student_courses db)
         (instructor_courses db), Ok tt)
  | Raise (IntegrityError e) =>
      (db, Raise (ValueError ("Course already exists: " ++ e)%string))
  | Raise e => (db, Raise e)
  end.

(** [DELETE FROM <table> WHERE <column> = ?]. *)
Definition delete_where {R} (column : R -> sqlval) (v : sqlval) (rows : list R)
  : list R :=
  filter (fun r => negb (sql_eq (column r) (text_affinity v))) rows.

(** [DatabaseManager.delete_student]. *)
Definition delete_student (db : database) (student_id : pyval)
  : database * result unit :=
  match sql_bind student_id with
  | Ok v =>
      (mk_database (delete_where row_id v (students db)) (instructors db)
         (courses db) (delete_where link_person_id v (student_courses db))
         (instructor_courses db), Ok tt)
  | Raise e => (db, Raise e)
  end.

(** [DatabaseManager.delete_instructor]. *)
Definition delete_instructor (db : database) (instructor_id : pyval)
  : database * result unit :=
  match sql_bind instructor_id with
  | Ok v =>
      (mk_database (students db) (delete_where row_id v (instructors db))
         (courses db) (student_courses db)
         (delete_where link_person_id v (instructor_courses db)), Ok tt)
  | Raise e => (db, Raise e)
  end.

(** [DatabaseManager.delete_course]. *)
Definition delete_course (db : database) (course_id : pyval)
  : database * result unit :=
  match sql_bind course_id with
  | Ok v =>
      (mk_database (students db) (instructors db)
         (delete_where row_course_id v (courses db))
         (delete_where link_course_id v (student_courses db))
         (delete_where link_course_id v (instructor_courses db)), Ok tt)
  | Raise e => (db, Raise e)
  end.

(** [INSERT INTO <table> (<person>_id, course_id) VALUES (?, ?)] on a table
    with [PRIMARY KEY (<person>_id, course_id)]. *)
Definition insert_link (table : string) (person_column : string)
    (rows : list link_row) (person_id course_id : pyval)
  : result (list link_row) :=
  p <- sql_bind person_id ;;
  c <- sql_bind course_id ;;
  let r := mk_link_row (text_affinity p) (text_affinity c) in
  if existsb (fun r' => sql_eq (link_person_id r') (link_person_id r)
                        && sql_eq (link_course_id r') (link_course_id r)) rows
  then Raise (IntegrityError
                ("UNIQUE constraint failed: " ++ table ++ "." ++ person_column
                 ++ ", " ++ table ++ ".course_id")%string)
  else Ok (rows ++ [r]).

(** [DatabaseManager.register_student_course]. *)
Definition register_student_course (db : database) (student_id course_id : pyval)
  : database * result unit :=
  match insert_link "student_courses" "student_id" (student_courses db)
          student_id course_id with
  | Ok rows =>
      (mk_database (students db) (instructors db) (courses db) rows
         (instructor_courses db), Ok tt)
  | Raise (IntegrityError e) =>
      (db, Raise (ValueError ("Registration already exists: " ++ e)%string))
  | Raise e => (db, Raise e)
  end.

(** [DatabaseManager.assign_instructor_course]. *)
Definition assign_instructor_course (db : database)
    (instructor_id course_id : pyval) : database * result unit :=
  match insert_link "instructor_courses" "instructor_id" (instructor_courses db)
          instructor_id course_id with
  | Ok rows =>
      (mk_database (students db) (instructors db) (courses db)
         (student_courses db) rows, Ok tt)
  | Raise (IntegrityError e) =>
      (db, Raise (ValueError ("Assignment already exists: " ++ e)%string))
  | Raise e => (db, Raise e)
  end.

End DatabaseManager.

(** *** Reading the tables *)

(** The Python value of a stored value. *)
Definition sql_to_py (v : sqlval) : pyval :=
  match v with
  | SNull => VNone
  | SInt z => VInt z
  | SReal f => VFloat f
  | SText s => VStr s
  end.

Module DatabaseReads.

(** [DatabaseManager.get_all_students]:
    [[Student(row[1], row[2], row[3], row[0]) for row in rows]]. *)
Definition get_all_students (db : database) : result (list Student.t) :=
  map_result
    (fun row =>
       Student.init (sql_to_py (row_name row)) (sql_to_py (row_age row))
         (sql_to_py (row_email row)) (sql_to_py (row_id row)) VNone)
    (students db).

(** [DatabaseManager.get_all_instructors]. *)
Definition get_all_instructors (db : database) : result (list Instructor.t) :=
  map_result
    (fun row =>
       Instructor.init (sql_to_py (row_name row)) (sql_to_py (row_age row))
         (sql_to_py (row_email row)) (sql_to_py (row_id row)) VNone)
    (instructors db).

(** [DatabaseManager.get_all_courses]: [[Course(row[0], row[1]) for row in
    cursor.fetchall()]]. *)
Definition get_all_courses (db : database) : list Course.t :=
  map (fun row =>
         Course.init (sql_to_py (row_course_id row))
           (sql_to_py (row_course_name row)) (Val VNone) None)
    (courses db).

End DatabaseReads.

(** *** Calls that write *)

(** A call of a method of [DatabaseManager] that changes the tables. *)
Inductive command : Type :=
| AddStudent (student : Student.t)
| AddInstructor (instructor : Instructor.t)
| AddCourse (course : Course.t)
| DeleteStudent (student_id : pyval)
| DeleteInstructor (instructor_id : pyval)
| DeleteCourse (course_id : pyval)
| RegisterStudentCourse (student_id course_id : pyval)
| AssignInstructorCourse (instructor_id course_id : pyval).

Definition run (db : database) (c : command) : database * result unit :=
  match c with
  | AddStudent s => DatabaseManager.add_student db s
  | AddInstructor i => DatabaseManager.add_instructor db i
  | AddCourse c => DatabaseManager.add_course db c
  | DeleteStudent id => DatabaseManager.delete_student db id
  | DeleteInstructor id => DatabaseManager.delete_instructor db id
  | DeleteCourse id => DatabaseManager.delete_course db id
  | RegisterStudentCourse s c => DatabaseManager.register_student_course db s c
  | AssignInstructorCourse i c => DatabaseManager.assign_instructor_course db i c
  end.

(** The database after a sequence of calls, whatever each one raised. *)
Definition run_all (db : database) (cs : list command) : database :=
  fold_left (fun db c => fst (run db c)) cs db.

(** *** Keys of the tables *)

(** No two rows are the same for [same]. *)
Fixpoint pairwise_false {R} (same : R -> R -> bool) (rows : list R) : Prop :=
  match rows with
  | [] => True
  | r :: rest => (forall r', In r' rest -> same r r' = false)
                 /\ pairwise_false same rest
  end.

Definition same_on {R} (column : R -> sqlval) (r r' : R) : bool :=
  sql_eq (column r) (column r').

Definition same_link (r r' : link_row) : bool :=
  sql_eq (link_person_id r) (link_person_id r')
  && sql_eq (link_course_id r) (link_course_id r').

(** What the primary keys and the [UNIQUE] columns of the schema demand. *)
Definition keys_unique (db : database) : Prop :=
  pairwise_false (same_on row_id) (students db)
  /\ pairwise_false (same_on row_email) (students db)
  /\ pairwise_false (same_on row_id) (instructors db)
  /\ pairwise_false (same_on row_email) (instructors db)
  /\ pairwise_false (same_on row_course_id) (courses db)
  /\ pairwise_false same_link (student_courses db)
  /\ pairwise_false same_link (instructor_courses db).

(** The [NOT NULL] columns of the schema. *)
Definition not_null_kept (db : database) : Prop :=
  (forall r, In r (students db) ->
     row_name r <> SNull /\ row_age r <> SNull /\ row_email r <> SNull)
  /\ (forall r, In r (instructors db) ->
        row_name r <> SNull /\ row_age r <> SNull /\ row_email r <> SNull)
  /\ (forall r, In r (courses db) -> row_course_name r <> SNull).

(** The tables [create_tables] makes in a new file. *)
Definition empty_database : database := mk_database [] [] [] [] [].

(** What [get_all_students] and [get_all_instructors] give for the
    identifier a person was stored with. *)
Definition stored_id (v : sqlval) : pyval := sql_to_py (text_affinity v).

(** ** [validators.py]

    The dialogues of [tkinter.messagebox] are recorded in the order they
    are shown: a function that shows dialogues returns them beside its
    outcome. *)

Inductive dialog : Type :=
| showwarning (title message : string)
| showinfo (title message : string)
| showerror (title message : string).

Definition shown (A : Type) : Type := (list dialog * result A)%type.

Module Validators.

(** [try: validate(x); return True
     except ValueError as e:
         messagebox.showwarning("Invalid Input", str(e)); return False].
    The validators of [Person] raise no subclass of [ValueError]. *)
Definition checked {A} (outcome : result A) : shown bool :=
  match outcome with
  | Ok _ => ([], Ok true)
  | Raise (ValueError msg) => ([showwarning "Invalid Input" msg], Ok false)
  | Raise e => ([], Raise e)
  end.

Definition validate_name (name : pyval) : shown bool :=
  checked (Person.validate_name name).

Definition validate_age (age_str : pyval) : shown bool :=
  checked (Person.validate_age age_str).

Definition validate_email (email : pyval) : shown bool :=
  checked (Person.validate_email email).

(** [validators.require]. *)
Definition require (value label : pyval) : shown bool :=
  if negb (py_truthy value)
  then
    match str_of label with
    | Ok text =>
        ([showwarning "Invalid Input" (text ++ " cannot be empty.")%string],
         Ok false)
    | Raise e => ([], Raise e)
    end
  else ([], Ok true).

(** [s.replace('_', ' ')]. *)
Definition replace_underscores (s : string) : string :=
  str_flat_map (fun c => if Ascii.eqb c "_" then " " else str1 c) s.

Section UniqueId.

(** The objects of the list, with [getattr(obj, attr_name)] and
    [obj is exclude] on them, and [str.title]. *)
Context {T : Type}.
Variable getattr : T -> string -> result pyval.
Variable same_object : T -> T -> bool.
Variable title : string -> string.

Definition is_excluded (exclude : option T) (obj : T) : bool :=
  match exclude with
  | Some x => same_object obj x
  | None => false
  end.

(** The loop of [validate_unique_id], on the stripped text of the new
    identifier. *)
Fixpoint unique_among (new_id : string) (items : list T) (attr_name : string)
    (exclude : option T) : shown bool :=
  match items with
  | [] => ([], Ok true)
  | obj :: rest =>
      match getattr obj attr_name with
      | Raise e => ([], Raise e)
      | Ok v =>
          match str_of v with
          | Raise e => ([], Raise e)
          | Ok text =>
              if String.eqb text new_id && negb (is_excluded exclude obj)
              then ([showwarning "Invalid Input"
                       (title (replace_underscores attr_name)
                        ++ " must be unique.")%string],
                    Ok false)
              else unique_among new_id rest attr_name exclude
          end
      end
  end.

(** [validators.validate_unique_id]. *)
Definition validate_unique_id (new_id : pyval) (items : list T)
    (attr_name : string) (exclude : option T) : shown bool :=
  match str_of new_id with
  | Raise e => ([], Raise e)
  | Ok text => unique_among (strip text) items attr_name exclude
  end.

End UniqueId.

End Validators.

(** An item of the list has the text of the new identifier as its
    attribute and is not the excluded object. *)
Definition clashes {T} (getattr : T -> string -> result pyval)
    (same_object : T -> T -> bool) (new_id : pyval) (attr_name : string)
    (exclude : option T) (obj : T) : Prop :=
  exists v,
    getattr obj attr_name = Ok v
    /\ py_str v = strip (py_str new_id)
    /\ Validators.is_excluded same_object exclude obj = false.

(** [str.title] on a string of ASCII characters: a letter is put in upper
    case when it follows no letter and in lower case when it follows one. *)
Fixpoint title_from (after_letter : bool) (s : string) : string :=
  match s with
  | EmptyString => EmptyString
  | String c s' =>
      String (if after_letter
              then (if is_upper_az c then chr (code c + 32) else c)
              else (if is_lower_az c then chr (code c - 32) else c))
        (title_from (is_upper_az c || is_lower_az c) s')
  end.

Definition title_ascii (s : string) : string := title_from false s.

(** [getattr] on a student, for the names of the attributes that hold its
    data; its methods, which [getattr] finds as well, are not represented. *)
Definition Student_getattr (s : Student.t) (attr_name : string) : result pyval :=
  if String.eqb attr_name "name" then Ok (VStr (Person.name (Student.person s)))
  else if String.eqb attr_name "age" then Ok (VInt (Person.age (Student.person s)))
  else if String.eqb attr_name "_email"
  then Ok (VStr (Person._email (Student.person s)))
  else if String.eqb attr_name "student_id" then Ok (Student.student_id s)
  else if String.eqb attr_name "registered_courses"
  then Ok (Student.registered_courses s)
  else Raise AttributeError.


(** ** Sequences of changes to a dictionary

    The loop of [save_data] and the merge [{**old, **record}] both run a
    sequence of assignments [d[k] = g(d.get(k))] over a dictionary. *)

Section Changes.
Context {V : Type}.

Definition change : Type := string * (option V -> V).

Definition apply_change (d : list (string * V)) (c : change) : list (string * V) :=
  dict_set d (fst c) (snd c (dict_get d (fst c))).

Definition apply_changes (cs : list change) (d : list (string * V))
  : list (string * V) :=
  fold_left apply_change cs d.





End Changes.


(** The key [save_data] files a record under. *)
Definition key_of (key_field : string) (record : pydict) : string :=
  py_str (py_get record key_field).

(** [by_key[key] = {**by_key.get(key, {}), **record}] as a change. *)
Definition merge_change (key_field : string) (record : pydict) : change :=
  (key_of key_field record,
   fun o => dict_update (match o with Some r => r | None => [] end) record).

(** The changes of the records that [save_data] does not skip. *)
Definition merge_changes (key_field : string) (records : list pydict)
  : list change :=
  map (merge_change key_field)
    (filter (fun r => negb (String.eqb (key_of key_field r) "")) records).

(** The serializations [save_data] obtains from [data]. *)
Fixpoint records_of {T} `{ToDict T} (data : list (option T))
  : result (list pydict) :=
  match data with
  | [] => Ok []
  | None :: rest => records_of rest
  | Some obj :: rest =>
      r <- to_dict_of obj ;; rs <- records_of rest ;; Ok (r :: rs)
  end.



(** The index of the entries of a file: the dicts that have the key
    field, each under the text of its key, a later one replacing an
    earlier one. *)
Fixpoint indexed (by_key : list (string * pydict)) (existing : list pyval)
    (key_field : string) : list (string * pydict) :=
  match existing with
  | [] => by_key
  | VDict record :: rest =>
      match dict_get record key_field with
      | Some k => indexed (dict_set by_key (py_str k) record) rest key_field
      | None => indexed by_key rest key_field
      end
  | _ :: rest => indexed by_key rest key_field
  end.

(** The entries [save_data] finds in a file. *)
Definition existing_records (fs : files) (filename : string) : list pyval :=
  match DataManager.read_existing fs filename with
  | Ok l => l
  | Raise _ => []
  end.

(** The records of a file, indexed as [save_data] does. *)
Definition file_index (fs : files) (filename key_field : string)
  : list (string * pydict) :=
  indexed [] (existing_records fs filename) key_field.

(** The file is missing, or it holds UTF-8 text: JSON in which no integer
    has more than 4300 digits, or something [json.load] rejects as not
    JSON. *)
Definition missing_or_text (fs : files) (filename : string) : Prop :=
  match fs filename with
  | None => True
  | Some c =>
      match read_utf8 c with
      | Json v => has_long_int v = false
      | NotJson => True
      | LongBeforeFlaw _ | NotText => False
      end
  end.

Definition other_locale : locale := mk_locale false (fun _ _ => NotJson).

(** ** Entities whose fields satisfy the validators *)

Definition valid_person (p : Person.t) : Prop :=
  Person.validate_name (VStr (Person.name p)) = Ok (Person.name p)
  /\ Person.validate_age (VInt (Person.age p)) = Ok (Person.age p)
  /\ Person.validate_email (VStr (Person._email p)) = Ok (Person._email p).

Definition valid_student (s : Student.t) : Prop :=
  valid_person (Student.person s)
  /\ is_none (Student.student_id s) = false
  /\ is_none (Student.registered_courses s) = false.

Definition valid_instructor (i : Instructor.t) : Prop :=
  valid_person (Instructor.person i)
  /\ is_none (Instructor.assigned_courses i) = false.

(** The student a parameter refers to. *)
Definition deref_student (h : heap) (x : pyobj) : option Student.t :=
  match x with
  | Ref a => match nth_error h a with Some (OStudent s) => Some s | _ => None end
  | Val _ => None
  end.

(** [xs] are references to the students [ss], in order. *)
Definition refer_to (h : heap) (xs : list pyobj) (ss : list Student.t) : Prop :=
  Forall2 (fun x s => deref_student h x = Some s) xs ss.

(** The serializations of the students [ss], as [Course.to_dict] lists
    them. *)
Definition student_dicts (ss : list Student.t) : list pyval :=
  map (fun s => VDict (Student.to_dict s)) ss.

(** ** Sample data *)

Definition ann : Student.t :=
  Student.mk (Person.mk "Ann" 20 "ann@x.com") (VStr "S1") (VList []).

Definition bob : Instructor.t :=
  Instructor.mk (Person.mk "Bob" 41 "bob@x.com") (VStr "I1") (VList []).

Definition carl : Instructor.t :=
  Instructor.mk (Person.mk "Carl" 52 "carl@x.com") (VStr "I2") (VList []).

(** Ann at address 0, Bob at 1, Carl at 2 and some other object at 3. *)
Definition sample_heap : heap :=
  [OStudent ann; OInstructor bob; OInstructor carl; OOther].

Definition logic : Course.t :=
  Course.init (VStr "C1") (VStr "Logic") (Val VNone) None.

(** The course C1 with Bob as its instructor and Ann enrolled. *)
Definition logic_taught : Course.t :=
  Course.mk (VStr "C1") (VStr "Logic") (Ref 1%nat) [Ref 0%nat].

(** A stored student record whose age is out of range. *)
Definition ann_aged_0 : pydict :=
  [("name", VStr "Ann"); ("age", VInt 0); ("email", VStr "ann@x.com");
   ("student_id", VStr "S1"); ("registered_courses", VList [])].

(** A stored instructor record whose address has no domain. *)
Definition bob_no_domain : pydict :=
  [("name", VStr "Bob"); ("age", VInt 41); ("email", VStr "bob");
   ("instructor_id", VStr "I1"); ("assigned_courses", VList [])].

(** A student file of an earlier run: Zed, and Ann a year younger with a
    field the application does not write. *)
Definition zed_record : pydict :=
  [("name", VStr "Zed"); ("age", VInt 33); ("email", VStr "zed@x.com");
   ("student_id", VStr "S0"); ("registered_courses", VList [])].

Definition ann_old_record : pydict :=
  [("name", VStr "Ann"); ("age", VInt 19); ("email", VStr "ann@x.com");
   ("student_id", VStr "S1"); ("registered_courses", VList []);
   ("note", VStr "kept")].

Definition sample_files : files :=
  write_file (fun _ => None) "students.json"
    (Dumped (VList [VDict zed_record; VDict ann_old_record]) false).







(** Ann and Bob stored, Ann registered for C1 and C2, Bob assigned to C1. *)
Definition sample_db : database :=
  mk_database
    [mk_person_row (SText "S1") (SText "Ann") (SInt 20) (SText "ann@x.com")]
    [mk_person_row (SText "I1") (SText "Bob") (SInt 41) (SText "bob@x.com")]
    [mk_course_row (SText "C1") (SText "Logic");
     mk_course_row (SText "C2") (SText "Algebra")]
    [mk_link_row (SText "S1") (SText "C1"); mk_link_row (SText "S1") (SText "C2")]
    [mk_link_row (SText "I1") (SText "C1")].

(** A second student with Ann's address, and one with Ann's identifier. *)
Definition same_email : Student.t :=
  Student.mk (Person.mk "Anna" 22 "ann@x.com") (VStr "S2") (VList []).

Definition same_id : Student.t :=
  Student.mk (Person.mk "Dan" 23 "dan@x.com") (VStr "S1") (VList []).

(** ** The language of a regular expression *)

Inductive re_matches : Re.t -> string -> Prop :=
| M_Eps : re_matches Re.Eps ""
| M_Class (p : ascii -> bool) (c : ascii) :
    p c = true -> re_matches (Re.Class p) (str1 c)
| M_Cat (r1 r2 : Re.t) (s1 s2 : string) :
    re_matches r1 s1 -> re_matches r2 s2 ->
    re_matches (Re.Cat r1 r2) (s1 ++ s2)%string
| M_AltL (r1 r2 : Re.t) (s : string) :
    re_matches r1 s -> re_matches (Re.Alt r1 r2) s
| M_AltR (r1 r2 : Re.t) (s : string) :
    re_matches r2 s -> re_matches (Re.Alt r1 r2) s
| M_Star0 (r : Re.t) : re_matches (Re.Star r) ""
| M_StarS (r : Re.t) (s1 s2 : string) :
    re_matches r s1 -> re_matches (Re.Star r) s2 ->
    re_matches (Re.Star r) (s1 ++ s2)%string.

(** [local@domain.tld]: a local part and a domain over their character
    classes, neither empty, and a top-level domain of two ASCII letters or
    more. *)
Definition email_shape (s : string) : Prop :=
  exists l d t : string,
    s = (l ++ "@" ++ d ++ "." ++ t)%string
    /\ l <> "" /\ d <> "" /\ (2 <= String.length t)%nat
    /\ str_forall (fun c => Person.is_alnum_az c || Person.is_char "._%+-" c) l
       = true
    /\ str_forall (fun c => Person.is_alnum_az c || Person.is_char ".-" c) d
       = true
    /\ str_forall (fun c => is_upper_az c || is_lower_az c) t = true.

(** The course list a constructor keeps: [[]] for a missing or null one. *)
Definition courses_or_empty (o : option pyval) : pyval :=
  match o with
  | Some VNone | None => VList []
  | Some courses => courses
  end.

(** An entry of a file that [save_data] indexes: a dict with the key field. *)
Definition is_keyed (key_field : string) (v : pyval) : bool :=
  match v with
  | VDict r => dict_has r key_field
  | _ => false
  end.

(** Two calls on files that differ in the named file only end alike: both
    raise the same exception and write nothing, or both leave the same
    content in the named file with the same outcome. *)
Definition end_alike (fs fs' : files) (filename : string)
    (a b : files * result unit) : Prop :=
  (exists e, a = (fs, Raise e) /\ b = (fs', Raise e))
  \/ (exists c r, a = (write_file fs filename c, r)
                  /\ b = (write_file fs' filename c, r)).

(** The invariant of a [Person]: the age and the address are valid and
    the name has no blank at either end. *)
Definition person_invariant (p : Person.t) : Prop :=
  1 <= Person.age p <= 120
  /\ Person.validate_email (VStr (Person._email p)) = Ok (Person._email p)
  /\ strip (Person.name p) = Person.name p.

(** The floats 120.5 and 0.5. *)
Definition float_120_5 : spec_float :=
  S754_finite false 8479433673408512 (-46).

Definition float_0_5 : spec_float :=
  S754_finite false 4503599627370496 (-53).

(** * Properties *)

(** ** Validation *)

Lemma validate_age_of_int (v : pyval) (n : Z) :
  py_int v = Ok n ->
  Person.validate_age v =
    if (1 <=? n) && (n <=? 120) then Ok n
    else Raise (ValueError "Age must be between 1 and 120.").
Proof.
  intros Hint. unfold Person.validate_age.
  destruct (is_none v) eqn:Hnone.
  - destruct v; discriminate.
  - rewrite Hint. destruct ((1 <=? n) && (n <=? 120)); reflexivity.
Qed.

Lemma div_bounds (a b q : Z) :
  0 < b -> (a / b = q <-> q * b <= a < (q + 1) * b).
Proof.
  intros Hb. split.
  - intros <-. pose proof (Z.mul_div_le a b Hb).
    pose proof (Z.mul_succ_div_gt a b Hb). lia.
  - intros [Hlo Hhi]. symmetry.
    apply (Z.div_unique a b q (a - b * q)); lia.
Qed.

Lemma Ok_inj {A} (a b : A) : Ok a = Ok b -> a = b.
Proof. intros H. injection H as H. exact H. Qed.

Lemma cmp_ge (a b : Z) :
  (Some (a ?= b) = Some Eq \/ Some (a ?= b) = Some Gt) <-> b <= a.
Proof.
  destruct (Z.compare_spec a b); split; intros H'; try lia; auto.
  destruct H' as [H' | H']; discriminate.
Qed.

Lemma cmp_lt (a b : Z) : Some (a ?= b) = Some Lt <-> a < b.
Proof.
  destruct (Z.compare_spec a b); split; intros H'; try lia; auto; discriminate.
Qed.

(** [int()] on a float: the integer [n] with [n <= f < n + 1], for a
    float that is not below 1. *)
Lemma float_trunc_between (f : spec_float) (n : Z) :
  1 <= n ->
  (float_trunc f = Ok n
   <-> (float_compare_Z f n = Some Eq \/ float_compare_Z f n = Some Gt)
       /\ float_compare_Z f (n + 1) = Some Lt).
Proof.
  intros Hn. destruct f as [s | s | | s m e].
  - unfold float_trunc, float_compare_Z, float_parts. rewrite cmp_ge, cmp_lt.
    change (2 ^ Z.max (- 0) 0) with 1. change (0 * 2 ^ Z.max 0 0) with 0.
    split; [intros H; apply Ok_inj in H | intros H; f_equal]; lia.
  - unfold float_trunc, float_compare_Z.
    split; [discriminate | ]. destruct s; intros [[H | H] H']; discriminate.
  - unfold float_trunc, float_compare_Z.
    split; [discriminate | ]. intros [[H | H] _]; discriminate.
  - unfold float_trunc, float_compare_Z, float_parts. rewrite cmp_ge, cmp_lt.
    assert (Hd : 0 < 2 ^ Z.max (- e) 0) by (apply Z.pow_pos_nonneg; lia).
    assert (Hu : 0 < 2 ^ Z.max e 0) by (apply Z.pow_pos_nonneg; lia).
    destruct s.
    + pose proof (Z.div_pos (Z.pos m * 2 ^ Z.max e 0) (2 ^ Z.max (- e) 0)
                    ltac:(nia) Hd) as Hq.
      split.
      * intros H. apply Ok_inj in H. lia.
      * intros [Hlo _]. nia.
    + split.
      * intros H. apply Ok_inj in H. apply div_bounds in H; [lia | exact Hd].
      * intros H. f_equal. apply div_bounds; [exact Hd | lia].
Qed.

(** C10, as amended.  [validate_age] returns [int(age)] for every value
    that [int()] converts to an integer of [1,120], 1 and 120 included;
    it raises the range error for every value that [int()] converts to an
    integer outside [1,120], 0 and 121 included; it raises a validation
    error for [None] and for every value on which [int()] raises
    [TypeError] or [ValueError].  A float is converted by dropping its
    fraction, so the floats that are accepted are those from 1 to below
    121. *)
Theorem validate_age_range (v : pyval) :
  (forall n, py_int v = Ok n -> 1 <= n <= 120 -> Person.validate_age v = Ok n) /\
  (forall n, py_int v = Ok n -> n < 1 \/ 120 < n ->
     Person.validate_age v = Raise (ValueError "Age must be between 1 and 120.")) /\
  (v = VNone -> Person.validate_age v = Raise (ValueError "Age cannot be empty")) /\
  (v <> VNone ->
   py_int v = Raise TypeError \/ (exists msg, py_int v = Raise (ValueError msg)) ->
   Person.validate_age v = Raise (ValueError "Age must be a number.")) /\
  (forall f n,
     v = VFloat f ->
     (Person.validate_age v = Ok n
      <-> 1 <= n <= 120
          /\ (float_compare_Z f n = Some Eq \/ float_compare_Z f n = Some Gt)
          /\ float_compare_Z f (n + 1) = Some Lt)).
Proof.
  refine (conj _ (conj _ (conj _ (conj _ _)))).
  - intros n Hint Hn. rewrite (validate_age_of_int v n Hint).
    replace (1 <=? n) with true by (symmetry; apply Z.leb_le; lia).
    replace (n <=? 120) with true by (symmetry; apply Z.leb_le; lia).
    reflexivity.
  - intros n Hint Hn. rewrite (validate_age_of_int v n Hint).
    destruct Hn as [Hlo | Hhi].
    + replace (1 <=? n) with false by (symmetry; apply Z.leb_gt; lia).
      reflexivity.
    + replace (n <=? 120) with false by (symmetry; apply Z.leb_gt; lia).
      rewrite andb_false_r. reflexivity.
  - intros ->. reflexivity.
  - intros Hv Hint. unfold Person.validate_age.
    destruct (is_none v) eqn:Hnone.
    { destruct v; try discriminate. elim Hv. reflexivity. }
    destruct Hint as [-> | [msg ->]]; reflexivity.
  - intros f n ->. split.
    + intros Hok. unfold Person.validate_age in Hok. cbn [is_none py_int] in Hok.
      destruct (float_trunc f) as [q | e] eqn:Hq.
      * destruct ((1 <=? q) && (q <=? 120)) eqn:Hr; cbn [negb] in Hok;
          [ | discriminate].
        injection Hok as ->. apply andb_true_iff in Hr as [H1 H2].
        apply Z.leb_le in H1. apply Z.leb_le in H2.
        split; [lia | ]. apply float_trunc_between; [lia | exact Hq].
      * destruct e; discriminate.
    + intros (Hn & Hlo & Hhi).
      assert (Hq : float_trunc f = Ok n)
        by (apply float_trunc_between; [lia | split; assumption]).
      rewrite (validate_age_of_int (VFloat f) n Hq).
      replace (1 <=? n) with true by (symmetry; apply Z.leb_le; lia).
      replace (n <=? 120) with true by (symmetry; apply Z.leb_le; lia).
      reflexivity.
Qed.

Lemma validate_age_range_witness :
  Person.validate_age (VInt 1) = Ok 1 /\
  Person.validate_age (VInt 120) = Ok 120 /\
  Person.validate_age (VStr " 42 ") = Ok 42 /\
  Person.validate_age (VInt 0)
    = Raise (ValueError "Age must be between 1 and 120.") /\
  Person.validate_age (VInt 121)
    = Raise (ValueError "Age must be between 1 and 120.") /\
  Person.validate_age (VFloat float_0_5)
    = Raise (ValueError "Age must be between 1 and 120.") /\
  Person.validate_age (VStr "abc") = Raise (ValueError "Age must be a number.") /\
  Person.validate_age (VFloat S754_nan)
    = Raise (ValueError "Age must be a number.").
Proof.
  refine (conj _ (conj _ (conj _ (conj _ (conj _ (conj _ (conj _ _))))))).
  - apply (proj1 (validate_age_range (VInt 1)) 1); [reflexivity | lia].
  - apply (proj1 (validate_age_range (VInt 120)) 120); [reflexivity | lia].
  - apply (proj1 (validate_age_range (VStr " 42 ")) 42); [reflexivity | lia].
  - apply (proj1 (proj2 (validate_age_range (VInt 0))) 0); [reflexivity | lia].
  - apply (proj1 (proj2 (validate_age_range (VInt 121))) 121);
      [reflexivity | lia].
  - apply (proj1 (proj2 (validate_age_range (VFloat float_0_5))) 0);
      [reflexivity | lia].
  - apply (proj1 (proj2 (proj2 (proj2 (validate_age_range (VStr "abc")))))).
    + discriminate.
    + right. eexists. reflexivity.
  - apply (proj1 (proj2 (proj2 (proj2 (validate_age_range (VFloat S754_nan)))))).
    + discriminate.
    + right. eexists. reflexivity.
Defined.

(** C10 as it is stated fails on the float 120.5, which lies outside
    [1,120]: [validate_age] does not raise on it, it returns 120. *)
Lemma validate_age_accepts_120_5 :
  is_binary64 float_120_5 = true
  /\ float_compare_Z float_120_5 120 = Some Gt
  /\ Person.validate_age (VFloat float_120_5) = Ok 120.
Proof. repeat split. Qed.

(** ** JSON files *)

Lemma first_long_int_None (v : pyval) :
  has_long_int v = false -> first_long_int v = None.
Proof.
  unfold has_long_int, first_long_int.
  induction (ints_of v) as [ | z l IH]; simpl; [reflexivity | ].
  destruct (int_is_long z); [discriminate | exact IH].
Qed.

Lemma first_long_int_Some (v : pyval) :
  has_long_int v = true ->
  exists z, first_long_int v = Some z /\ int_is_long z = true.
Proof.
  unfold has_long_int, first_long_int.
  induction (ints_of v) as [ | z l IH]; simpl; [discriminate | ].
  destruct (int_is_long z) eqn:E; [intros _; exists z; auto | exact IH].
Qed.

Lemma json_load_short (v : pyval) :
  has_long_int v = false -> json_load (Json v) = Ok v.
Proof. intros H. simpl. rewrite (first_long_int_None v H). reflexivity. Qed.

Lemma json_load_long (v : pyval) :
  has_long_int v = true ->
  exists n, max_str_digits < n /\ json_load (Json v) = Raise (long_literal n).
Proof.
  intros H. destruct (first_long_int_Some v H) as (z & Hz & Hlong).
  exists (int_digits z). split.
  - apply Z.ltb_lt. exact Hlong.
  - simpl. rewrite Hz. reflexivity.
Qed.

(** What [json.load] does on each kind of text. *)
Lemma json_load_cases (r : reading) :
  (json_load r = Raise JSONDecodeError <-> r = NotJson)
  /\ (json_load r = Raise UnicodeDecodeError <-> r = NotText)
  /\ (forall v, json_load r = Ok v <-> r = Json v /\ has_long_int v = false)
  /\ ((exists n, max_str_digits < n /\ json_load r = Raise (long_literal n))
      <-> (exists v, r = Json v /\ has_long_int v = true)
          \/ exists excess, r = LongBeforeFlaw excess)
  /\ json_load r <> Raise FileNotFoundError.
Proof.
  refine (conj _ (conj _ (conj _ (conj _ _)))).
  - destruct r as [v | | excess | ]; simpl; unfold long_literal;
      try destruct (first_long_int v); split; intros H;
      try discriminate H; reflexivity.
  - destruct r as [v | | excess | ]; simpl; unfold long_literal;
      try destruct (first_long_int v); split; intros H;
      try discriminate H; reflexivity.
  - intros v'. destruct r as [v | | excess | ];
      try (split; [discriminate | intros [H _]; discriminate H]).
    destruct (has_long_int v) eqn:Hlong.
    + destruct (json_load_long v Hlong) as (n & _ & ->). split; [discriminate | ].
      intros [H Hshort]. injection H as <-. congruence.
    + rewrite (json_load_short v Hlong). split.
      * intros H. injection H as <-. auto.
      * intros [H _]. injection H as <-. reflexivity.
  - destruct r as [v | | excess | ].
    + destruct (has_long_int v) eqn:Hlong.
      * split; [intros _; left; exists v; auto | ].
        intros _. exact (json_load_long v Hlong).
      * rewrite (json_load_short v Hlong). split.
        -- intros (n & _ & H). discriminate H.
        -- intros [(v' & H & Hl) | (excess & H)]; [ | discriminate H].
           injection H as <-. congruence.
    + split.
      * intros (n & _ & H). discriminate H.
      * intros [(v' & H & _) | (excess & H)]; discriminate H.
    + split.
      * intros _. right. exists excess. reflexivity.
      * intros _. exists (max_str_digits + Z.pos excess).
        split; [lia | reflexivity].
    + split.
      * intros (n & _ & H). discriminate H.
      * intros [(v' & H & _) | (excess & H)]; discriminate H.
  - destruct r as [v | | excess | ]; simpl; unfold long_literal;
      try destruct (first_long_int v); discriminate.
Qed.

Lemma write_file_read (fs : files) (filename : string) (c : content) :
  write_file fs filename c filename = Some c.
Proof. unfold write_file. rewrite String.eqb_refl. reflexivity. Qed.






(** ** Entities *)

(** Induction on Python values, with the hypothesis available for every
    element of a list and every value of a dict. *)
Lemma pyval_nested_ind (P : pyval -> Prop) :
  P VNone ->
  (forall b, P (VBool b)) ->
  (forall z, P (VInt z)) ->
  (forall f, P (VFloat f)) ->
  (forall s, P (VStr s)) ->
  (forall l, Forall P l -> P (VList l)) ->
  (forall d, Forall (fun kv => P (snd kv)) d -> P (VDict d)) ->
  forall v, P v.
Proof.
  intros HNone HBool HInt HFloat HStr HList HDict.
  fix IH 1. intros [ | b | z | f | s | l | d].
  - exact HNone.
  - apply HBool.
  - apply HInt.
  - apply HFloat.
  - apply HStr.
  - apply HList. induction l as [ | x l IHl]; constructor; [apply IH | exact IHl].
  - apply HDict. induction d as [ | [k x] d IHd]; constructor;
      [apply IH | exact IHd].
Qed.

Lemma float_compare_refl (f : spec_float) :
  float_is_nan f = false -> float_compare f f = Some Eq.
Proof.
  destruct f as [s | s | | s m e]; try discriminate; intros _.
  - reflexivity.
  - destruct s; reflexivity.
  - unfold float_compare, float_parts. rewrite Z.min_id, Z.sub_diag.
    rewrite Z.compare_refl. reflexivity.
Qed.

Lemma py_eq_refl (v : pyval) : py_eq v v = true.
Proof.
  induction v as [ | b | z | f | s | l IHl | d IHd] using pyval_nested_ind;
    simpl.
  - reflexivity.
  - apply Bool.eqb_reflx.
  - apply Z.eqb_refl.
  - destruct (float_is_nan f) eqn:Hnan; [reflexivity | ].
    rewrite (float_compare_refl f Hnan). reflexivity.
  - apply String.eqb_refl.
  - induction IHl as [ | x l Hx _ IH]; [reflexivity | ].
    rewrite Hx. exact IH.
  - rewrite Nat.eqb_refl. simpl. apply forallb_forall. intros kv Hin.
    apply existsb_exists. exists kv. split; [exact Hin | ].
    rewrite String.eqb_refl. simpl.
    rewrite Forall_forall in IHd. apply IHd. exact Hin.
Qed.

Lemma existsb_app_last {A} (p : A -> bool) (l : list A) (x : A) :
  p x = true -> existsb p (l ++ [x]) = true.
Proof.
  intros Hp. rewrite existsb_app. simpl. rewrite Hp.
  rewrite orb_true_r. reflexivity.
Qed.

Lemma obj_eq_refl_ref (a : addr) : obj_eq (Ref a) (Ref a) = true.
Proof. simpl. apply Nat.eqb_refl. Qed.

Lemma is_Student_ref (h : heap) (x : pyobj) :
  is_Student h x = true -> exists a, x = Ref a.
Proof. destruct x as [a | v]; [eauto | discriminate]. Qed.

(** C2.  The constructor leaves [instructor] at [None] whatever it is given;
    [add_instructor] attaches an instructor afterwards, and [add_student]
    does not touch the attribute. *)
Theorem Course_init_instructor_none
    (course_id course_name : pyval) (instructor : pyobj)
    (enrolled_students : option (list pyobj)) :
  let c := Course.init course_id course_name instructor enrolled_students in
  Course.instructor c = Val VNone /\
  (forall h x, is_Instructor h x = true ->
     snd (Course.add_instructor h c x) = Ok tt /\
     Course.instructor (fst (Course.add_instructor h c x)) = x) /\
  (forall h x, Course.instructor (fst (Course.add_student h c x)) = Val VNone).
Proof.
  intro c. refine (conj eq_refl (conj _ _)).
  - intros h x Hx. unfold Course.add_instructor. rewrite Hx. simpl. auto.
  - intros h x. unfold Course.add_student.
    destruct (is_Student h x); simpl; [ | reflexivity].
    destruct (existsb _ _); reflexivity.
Qed.

(** C7.  [add_instructor] raises its [ValueError] for every argument that
    is not an [Instructor] and leaves the course as it was; for an
    [Instructor] it replaces the attribute, so the last one assigned is the
    course's instructor. *)
Theorem add_instructor_last_write_wins (h : heap) (c : Course.t) :
  (forall x, is_Instructor h x = false ->
     Course.add_instructor h c x
     = (c, Raise (ValueError "Only an Instructor can be assigned to the course."))) /\
  (forall x, is_Instructor h x = true ->
     Course.add_instructor h c x
     = (Course.mk (Course.course_id c) (Course.course_name c) x
          (Course.enrolled_students c), Ok tt)) /\
  (forall i2 i1, is_Instructor h i2 = true -> is_Instructor h i1 = true ->
     Course.instructor
       (fst (Course.add_instructor h (fst (Course.add_instructor h c i2)) i1))
     = i1).
Proof.
  refine (conj _ (conj _ _)).
  - intros x Hx. unfold Course.add_instructor. rewrite Hx. reflexivity.
  - intros x Hx. unfold Course.add_instructor. rewrite Hx. reflexivity.
  - intros i2 i1 H2 H1. unfold Course.add_instructor.
    rewrite H2, H1. reflexivity.
Qed.

(** C8.  On a student or instructor whose course list is a list, and on a
    course given a [Student], the first call succeeds and a second call
    with the same argument succeeds and changes nothing. *)
Theorem second_call_is_noop :
  (forall (C : Type) (HC : HasCourseId C) (s : Student.t) (course : C) l,
     Student.registered_courses s = VList l ->
     snd (Student.register_course s course) = Ok tt /\
     Student.register_course (fst (Student.register_course s course)) course
     = (fst (Student.register_course s course), Ok tt)) /\
  (forall (C : Type) (HC : HasCourseId C) (i : Instructor.t) (course : C) l,
     Instructor.assigned_courses i = VList l ->
     snd (Instructor.assign_course i course) = Ok tt /\
     Instructor.assign_course (fst (Instructor.assign_course i course)) course
     = (fst (Instructor.assign_course i course), Ok tt)) /\
  (forall (h : heap) (c : Course.t) (student : pyobj),
     is_Student h student = true ->
     snd (Course.add_student h c student) = Ok tt /\
     Course.add_student h (fst (Course.add_student h c student)) student
     = (fst (Course.add_student h c student), Ok tt)).
Proof.
  refine (conj _ (conj _ _)).
  - intros C HC s course l Hl. unfold Student.register_course.
    rewrite Hl. simpl.
    destruct (existsb (py_eq (get_course_id course)) l) eqn:Hin; simpl.
    + rewrite Hl. simpl. rewrite Hin. auto.
    + rewrite existsb_app_last by apply py_eq_refl. auto.
  - intros C HC i course l Hl. unfold Instructor.assign_course.
    rewrite Hl. simpl.
    destruct (existsb (py_eq (get_course_id course)) l) eqn:Hin; simpl.
    + rewrite Hl. simpl. rewrite Hin. auto.
    + rewrite existsb_app_last by apply py_eq_refl. auto.
  - intros h c student Hs. destruct (is_Student_ref h student Hs) as [a ->].
    unfold Course.add_student. rewrite Hs. cbn [negb].
    destruct (existsb (obj_eq (Ref a)) (Course.enrolled_students c)) eqn:Hin;
      cbn [negb fst snd Course.enrolled_students].
    + rewrite Hin. auto.
    + rewrite existsb_app_last by apply obj_eq_refl_ref. auto.
Qed.

Lemma Course_init_instructor_none_witness :
  let c := Course.init (VStr "C1") (VStr "Logic") (Ref 1%nat) None in
  Course.instructor c = Val VNone /\
  Course.instructor (fst (Course.add_instructor sample_heap c (Ref 1%nat)))
  = Ref 1%nat.
Proof.
  intro c. split.
  - exact (proj1 (Course_init_instructor_none
                    (VStr "C1") (VStr "Logic") (Ref 1%nat) None)).
  - exact (proj2 (proj1 (proj2 (Course_init_instructor_none
                                  (VStr "C1") (VStr "Logic") (Ref 1%nat) None))
                    sample_heap (Ref 1%nat) eq_refl)).
Defined.

Lemma add_instructor_last_write_wins_witness :
  Course.add_instructor sample_heap logic (Ref 0%nat)
  = (logic, Raise (ValueError "Only an Instructor can be assigned to the course."))
  /\ Course.add_instructor sample_heap logic (Val (VStr "Bob"))
     = (logic,
        Raise (ValueError "Only an Instructor can be assigned to the course."))
  /\ Course.instructor
       (fst (Course.add_instructor sample_heap
               (fst (Course.add_instructor sample_heap logic (Ref 2%nat)))
               (Ref 1%nat)))
     = Ref 1%nat.
Proof.
  refine (conj _ (conj _ _)).
  - exact (proj1 (add_instructor_last_write_wins sample_heap logic)
             (Ref 0%nat) eq_refl).
  - exact (proj1 (add_instructor_last_write_wins sample_heap logic)
             (Val (VStr "Bob")) eq_refl).
  - exact (proj2 (proj2 (add_instructor_last_write_wins sample_heap logic))
             (Ref 2%nat) (Ref 1%nat) eq_refl eq_refl).
Defined.

Lemma second_call_is_noop_witness :
  Student.register_course (fst (Student.register_course ann logic)) logic
  = (Student.mk (Person.mk "Ann" 20 "ann@x.com") (VStr "S1") (VList [VStr "C1"]),
     Ok tt)
  /\ Instructor.assign_course (fst (Instructor.assign_course bob logic)) logic
     = (Instructor.mk (Person.mk "Bob" 41 "bob@x.com") (VStr "I1")
          (VList [VStr "C1"]), Ok tt)
  /\ Course.add_student sample_heap
       (fst (Course.add_student sample_heap logic (Ref 0%nat))) (Ref 0%nat)
     = (Course.mk (VStr "C1") (VStr "Logic") (Val VNone) [Ref 0%nat], Ok tt).
Proof.
  refine (conj _ (conj _ _)).
  - exact (proj2 (proj1 second_call_is_noop Course.t Course_HasCourseId
                    ann logic [] eq_refl)).
  - exact (proj2 (proj1 (proj2 second_call_is_noop) Course.t Course_HasCourseId
                    bob logic [] eq_refl)).
  - exact (proj2 (proj2 (proj2 second_call_is_noop) sample_heap logic
                    (Ref 0%nat) eq_refl)).
Defined.


(** ** Creation paths and serialization *)

Lemma alpha_not_space (c : ascii) :
  char_isalpha c = true -> char_isspace c = false.
Proof.
  destruct c as [b0 b1 b2 b3 b4 b5 b6 b7].
  destruct b0, b1, b2, b3, b4, b5, b6, b7;
    intros H; try reflexivity; vm_compute in H; discriminate.
Qed.

Lemma rstrip_no_space (s : string) :
  str_forall (fun c => negb (char_isspace c)) s = true -> rstrip s = s.
Proof.
  induction s as [ | c s IH]; [reflexivity | ].
  simpl. intros H. apply andb_true_iff in H as [Hc Hs].
  rewrite (IH Hs). apply negb_true_iff in Hc. rewrite Hc.
  destruct s; reflexivity.
Qed.

Lemma str_forall_impl (p q : ascii -> bool) (s : string) :
  (forall c, p c = true -> q c = true) ->
  str_forall p s = true -> str_forall q s = true.
Proof.
  intros Hpq. induction s as [ | c s IH]; [reflexivity | ].
  simpl. intros H. apply andb_true_iff in H as [Hc Hs].
  rewrite (Hpq c Hc), (IH Hs). reflexivity.
Qed.

(** A name that [isalpha] accepts has nothing to strip. *)
Lemma strip_alpha (s : string) : str_isalpha s = true -> strip s = s.
Proof.
  unfold str_isalpha, strip. intros H.
  apply andb_true_iff in H as [_ Hall].
  rewrite rstrip_no_space.
  - destruct s as [ | c s]; [reflexivity | ].
    simpl in Hall. apply andb_true_iff in Hall as [Hc _].
    simpl. rewrite (alpha_not_space c Hc). reflexivity.
  - apply (str_forall_impl char_isalpha); [ | exact Hall].
    intros c Hc. rewrite (alpha_not_space c Hc). reflexivity.
Qed.

Lemma validate_name_Ok (v : pyval) (n : string) :
  Person.validate_name v = Ok n ->
  exists s, v = VStr s /\ str_isalpha s = true /\ n = strip s.
Proof.
  unfold Person.validate_name.
  destruct (negb (py_truthy v)); [discriminate | ].
  destruct v; try discriminate.
  destruct (str_isalpha s) eqn:E; simpl; [ | discriminate].
  intros H; injection H as <-. eauto.
Qed.

Lemma validate_age_Ok (v : pyval) (n : Z) :
  Person.validate_age v = Ok n -> Person.validate_age (VInt n) = Ok n.
Proof.
  unfold Person.validate_age. destruct (is_none v); [discriminate | ].
  destruct (py_int v) as [m | e]; [ | destruct e; discriminate]. simpl.
  destruct (negb _) eqn:E; [discriminate | ].
  intros H; injection H as <-. rewrite E. reflexivity.
Qed.

Lemma validate_email_Ok (v : pyval) (e : string) :
  Person.validate_email v = Ok e ->
  v = VStr e /\ Person.validate_email (VStr e) = Ok e.
Proof.
  unfold Person.validate_email.
  destruct (negb (py_truthy v)) eqn:T; [discriminate | ].
  destruct v; try discriminate.
  destruct (Re.match_anchored _ s) eqn:M; [ | discriminate].
  intros H; injection H as <-. rewrite T, M. auto.
Qed.

(** The constructor succeeds on fields that the validators produced. *)
Lemma Person_init_validated (vn va ve : pyval) (n : string) (a : Z) (e : string) :
  Person.validate_name vn = Ok n ->
  Person.validate_age va = Ok a ->
  Person.validate_email ve = Ok e ->
  Person.init (VStr n) (VInt a) (VStr e) = Ok (Person.mk (strip n) a e).
Proof.
  intros Hn Ha He. unfold Person.init.
  rewrite (validate_age_Ok _ _ Ha).
  rewrite (proj2 (validate_email_Ok _ _ He)). reflexivity.
Qed.

Local Opaque Person.validate_name Person.validate_age Person.validate_email
  Person.init py_get py_get_default strip.

(** One case split of a [from_dict] body. *)
Ltac from_dict_step :=
  match goal with
  | |- context [is_none ?v] => destruct (is_none v) eqn:?
  | |- context [Person.validate_name ?v] =>
      destruct (Person.validate_name v) eqn:?
  | |- context [Person.validate_age ?v] =>
      destruct (Person.validate_age v) eqn:?
  | |- context [Person.validate_email ?v] =>
      destruct (Person.validate_email v) eqn:?
  | |- context [dict_get ?d ?k] => destruct (dict_get d k) eqn:?
  end; simpl; eauto.

(** [Student.from_dict] returns a student or raises [UnboundLocalError]:
    no validation error leaves it. *)
Lemma Student_from_dict_outcomes (data : pydict) :
  (exists s, Student.from_dict data = Ok s)
  \/ (exists x, Student.from_dict data = Raise (UnboundLocalError x)).
Proof.
  unfold Student.from_dict, Student.from_dict_body, try_except_pass, block,
    assign_required, assign, as_str, as_int, py_index.
  repeat from_dict_step.
  left. unfold Student.init.
  erewrite Person_init_validated by eassumption.
  eexists. reflexivity.
Qed.

Lemma Instructor_from_dict_outcomes (data : pydict) :
  (exists i, Instructor.from_dict data = Ok i)
  \/ (exists x, Instructor.from_dict data = Raise (UnboundLocalError x)).
Proof.
  unfold Instructor.from_dict, Instructor.from_dict_body, try_except_pass,
    block, assign, as_str, as_int, py_index.
  repeat from_dict_step.
  left. unfold Instructor.init.
  erewrite Person_init_validated by eassumption.
  eexists. reflexivity.
Qed.

Local Transparent Person.validate_name Person.validate_age
  Person.validate_email Person.init py_get py_get_default strip.

Lemma valid_person_init (p : Person.t) :
  valid_person p ->
  Person.init (VStr (Person.name p)) (VInt (Person.age p))
    (VStr (Person._email p)) = Ok p.
Proof.
  intros (Hn & Ha & He). unfold Person.init. rewrite Ha, He.
  destruct (validate_name_Ok _ _ Hn) as (s & Hs & Halpha & _).
  injection Hs as <-. rewrite (strip_alpha _ Halpha).
  destruct p; reflexivity.
Qed.

(** A student whose fields satisfy the validators, with an identifier,
    comes back from its own serialization. *)
Lemma Student_round_trip (s : Student.t) :
  valid_person (Student.person s) ->
  is_none (Student.student_id s) = false ->
  is_none (Student.registered_courses s) = false ->
  Student.from_dict (Student.to_dict s) = Ok s.
Proof.
  intros Hp Hid Hrc. pose proof (valid_person_init _ Hp) as Hinit.
  destruct Hp as (Hn & Ha & He).
  destruct s as [[n a e] sid rc]. simpl in *.
  unfold Student.from_dict, Student.from_dict_body, try_except_pass, block,
    assign_required, assign, as_str, as_int, py_index, Student.to_dict,
    Person.to_dict.
  cbn -[Person.validate_name Person.validate_age Person.validate_email
        Person.init].
  rewrite Hid, Hn, Ha, He.
  cbn -[Person.validate_name Person.validate_age Person.validate_email
        Person.init].
  unfold Student.init. rewrite Hinit. cbn [bind]. rewrite Hrc. reflexivity.
Qed.

Lemma Instructor_round_trip (i : Instructor.t) :
  valid_person (Instructor.person i) ->
  is_none (Instructor.assigned_courses i) = false ->
  Instructor.from_dict (Instructor.to_dict i) = Ok i.
Proof.
  intros Hp Hrc. pose proof (valid_person_init _ Hp) as Hinit.
  destruct Hp as (Hn & Ha & He).
  destruct i as [[n a e] iid rc]. simpl in *.
  unfold Instructor.from_dict, Instructor.from_dict_body, try_except_pass,
    block, assign, as_str, as_int, py_index, Instructor.to_dict,
    Person.to_dict.
  cbn -[Person.validate_name Person.validate_age Person.validate_email
        Person.init].
  rewrite Hn, Ha, He.
  cbn -[Person.validate_name Person.validate_age Person.validate_email
        Person.init].
  unfold Instructor.init. rewrite Hinit. cbn [bind]. rewrite Hrc. reflexivity.
Qed.

Lemma to_dict_of_students (h : heap) (xs : list pyobj) (ss : list Student.t) :
  refer_to h xs ss ->
  map_result (fun x => d <- obj_to_dict h x ;; Ok (VDict d)) xs
  = Ok (student_dicts ss).
Proof.
  induction 1 as [ | x s xs ss Hx _ IH]; [reflexivity | ].
  cbn [map_result]. rewrite IH.
  destruct x as [a | v]; [ | discriminate]. simpl in Hx |- *.
  destruct (nth_error h a) as [[s' | i | ] | ]; try discriminate.
  injection Hx as ->. reflexivity.
Qed.

Lemma new_students_of_dicts (ss : list Student.t) :
  Forall valid_student ss ->
  forall h,
    Course.new_students h (student_dicts ss)
    = Ok (h ++ map OStudent ss,
          map Ref (seq (List.length h) (List.length ss))).
Proof.
  induction 1 as [ | s ss (Hp & Hid & Hrc) _ IH]; intros h.
  - simpl. rewrite app_nil_r. reflexivity.
  - cbn [student_dicts map Course.new_students Course.new_student].
    rewrite (Student_round_trip s Hp Hid Hrc).
    cbn [bind alloc fst snd]. fold (student_dicts ss).
    rewrite (IH (h ++ [OStudent s])). cbn [bind fst snd].
    rewrite <- app_assoc, length_app. simpl.
    rewrite Nat.add_1_r. reflexivity.
Qed.

Lemma new_students_refer (ss : list Student.t) :
  forall h,
    refer_to (h ++ map OStudent ss)
      (map Ref (seq (List.length h) (List.length ss))) ss.
Proof.
  induction ss as [ | s ss IH]; intros h; [constructor | ].
  simpl. constructor.
  - simpl. rewrite nth_error_app2 by apply Nat.le_refl.
    rewrite Nat.sub_diag. reflexivity.
  - specialize (IH (h ++ [OStudent s])).
    rewrite <- app_assoc, length_app in IH. simpl in IH.
    rewrite Nat.add_1_r in IH. exact IH.
Qed.

Lemma Instructor_to_dict_truthy (i : Instructor.t) :
  py_truthy (VDict (Instructor.to_dict i)) = true.
Proof. destruct i as [[n a e] iid rc]. reflexivity. Qed.

(** C1.  A course with an instructor and valid students serializes, and
    the serialization is read back into a course with the same identifier,
    name and students but with no instructor: [from_dict] rebuilds the
    instructor and the constructor drops it. *)
Theorem Course_round_trip_loses_instructor
    (h : heap) (c : Course.t) (a : addr) (i : Instructor.t)
    (ss : list Student.t) :
  Course.instructor c = Ref a ->
  nth_error h a = Some (OInstructor i) ->
  valid_instructor i ->
  refer_to h (Course.enrolled_students c) ss ->
  Forall valid_student ss ->
  exists d h' c',
    Course.to_dict h c = Ok d
    /\ dict_get d "instructor" = Some (VDict (Instructor.to_dict i))
    /\ Course.from_dict h d = Ok (h', c')
    /\ Course.course_id c' = Course.course_id c
    /\ Course.course_name c' = Course.course_name c
    /\ refer_to h' (Course.enrolled_students c') ss
    /\ Course.instructor c' = Val VNone.
Proof.
  intros Hi Ha (Hp & Hrc) Hss Hvalid.
  unfold Course.to_dict. rewrite Hi. cbn [obj_is_none negb obj_to_dict].
  rewrite Ha. cbn [bind]. rewrite (to_dict_of_students h _ ss Hss).
  cbn [bind]. eexists. eexists. eexists.
  split; [reflexivity | ]. split; [reflexivity | ].
  unfold Course.from_dict.
  cbn -[Instructor.to_dict Instructor.from_dict Course.new_students].
  rewrite (Instructor_round_trip i Hp Hrc). cbn [bind alloc fst snd py_iter].
  change (match Instructor.to_dict i with [] => false | _ :: _ => true end)
    with (py_truthy (VDict (Instructor.to_dict i))).
  rewrite Instructor_to_dict_truthy. cbn [bind fst snd].
  rewrite (new_students_of_dicts ss Hvalid). cbn [bind fst snd].
  split; [reflexivity | ]. cbn [Course.init Course.course_id
    Course.course_name Course.instructor Course.enrolled_students].
  repeat split. apply new_students_refer.
Qed.

Lemma Course_round_trip_loses_instructor_witness :
  exists d h' c',
    Course.to_dict sample_heap logic_taught = Ok d
    /\ dict_get d "instructor" = Some (VDict (Instructor.to_dict bob))
    /\ Course.from_dict sample_heap d = Ok (h', c')
    /\ Course.course_id c' = VStr "C1"
    /\ Course.course_name c' = VStr "Logic"
    /\ refer_to h' (Course.enrolled_students c') [ann]
    /\ Course.instructor c' = Val VNone.
Proof.
  apply (Course_round_trip_loses_instructor
           sample_heap logic_taught 1%nat bob [ann]).
  - reflexivity.
  - reflexivity.
  - repeat split.
  - constructor; [reflexivity | constructor].
  - constructor; [repeat split | constructor].
Defined.

(** C3.  The constructors take a name that [validate_name] rejects, and
    [from_dict] reports no validation error: on a record with a field that
    fails its validator it raises [UnboundLocalError]. *)
Theorem creation_paths_and_validation :
  Person.validate_name (VStr "R2D2") = Raise (ValueError "Name must be alphabetic.")
  /\ Student.init (VStr "R2D2") (VInt 20) (VStr "r2@x.com") (VStr "S9") VNone
     = Ok (Student.mk (Person.mk "R2D2" 20 "r2@x.com") (VStr "S9") (VList []))
  /\ Instructor.init (VStr "R2D2") (VInt 20) (VStr "r2@x.com") (VStr "I9") VNone
     = Ok (Instructor.mk (Person.mk "R2D2" 20 "r2@x.com") (VStr "I9") (VList []))
  /\ Person.validate_age (VInt 0)
     = Raise (ValueError "Age must be between 1 and 120.")
  /\ Student.from_dict ann_aged_0 = Raise (UnboundLocalError "registered_courses")
  /\ Person.validate_email (VStr "bob") = Raise (ValueError "Invalid email format")
  /\ Instructor.from_dict bob_no_domain = Raise (UnboundLocalError "email")
  /\ (forall data msg, Student.from_dict data <> Raise (ValueError msg))
  /\ (forall data msg, Instructor.from_dict data <> Raise (ValueError msg)).
Proof.
  refine (conj eq_refl (conj eq_refl (conj eq_refl (conj eq_refl
            (conj eq_refl (conj eq_refl (conj eq_refl (conj _ _)))))))).
  - intros data msg H.
    destruct (Student_from_dict_outcomes data) as [[s Hs] | [x Hx]]; congruence.
  - intros data msg H.
    destruct (Instructor_from_dict_outcomes data) as [[i Hi] | [x Hx]];
      congruence.
Qed.

(** ** The SQLite store *)

Lemma person_params_not_null (id : pyval) (p : Person.t) (r : person_row) :
  DatabaseManager.person_params id p = Ok r ->
  sql_is_null (row_name r) = false /\
  sql_is_null (row_age r) = false /\
  sql_is_null (row_email r) = false.
Proof.
  unfold DatabaseManager.person_params. intros Hr.
  destruct (sql_bind id) as [i | e]; [ | discriminate].
  cbn [bind sql_bind] in Hr.
  destruct (andb _ _); [ | discriminate].
  cbn [bind] in Hr. injection Hr as <-. simpl. auto.
Qed.

Lemma existsb_of_In {A} (p : A -> bool) (l : list A) (x : A) :
  In x l -> p x = true -> existsb p l = true.
Proof. intros Hin Hp. apply existsb_exists. exists x. auto. Qed.

(** C5.  When the identifier of the student equals the primary key of a
    stored row, or the address equals the address of a stored row,
    [add_student] raises a [ValueError] and the database is the one it was
    called on. *)
Theorem add_student_duplicate (db : database) (student : Student.t)
    (r r' : person_row) :
  DatabaseManager.person_params
    (Student.student_id student) (Student.person student) = Ok r ->
  In r' (students db) ->
  sql_eq (row_id r') (row_id r) = true
  \/ sql_eq (row_email r') (row_email r) = true ->
  exists msg,
    DatabaseManager.add_student db student = (db, Raise (ValueError msg)).
Proof.
  intros Hr Hin Hdup. unfold DatabaseManager.add_student. rewrite Hr.
  destruct (person_params_not_null _ _ _ Hr) as (Hn & Ha & He).
  cbn [bind]. unfold DatabaseManager.insert_person.
  rewrite Hn, Ha, He.
  destruct (existsb (fun r0 => sql_eq (row_email r0) (row_email r))
              (students db)) eqn:Hemail.
  - eexists. reflexivity.
  - destruct Hdup as [Hdup | Hdup].
    + rewrite (existsb_of_In (fun r0 => sql_eq (row_id r0) (row_id r))
                 _ r' Hin Hdup).
      eexists. reflexivity.
    + rewrite (existsb_of_In _ _ r' Hin Hdup) in Hemail. discriminate.
Qed.

Lemma add_student_duplicate_witness :
  (exists msg,
     DatabaseManager.add_student sample_db same_id
     = (sample_db, Raise (ValueError msg))) /\
  (exists msg,
     DatabaseManager.add_student sample_db same_email
     = (sample_db, Raise (ValueError msg))).
Proof.
  split.
  - exact (add_student_duplicate sample_db same_id
             (mk_person_row (SText "S1") (SText "Dan") (SInt 23) (SText "dan@x.com"))
             (mk_person_row (SText "S1") (SText "Ann") (SInt 20) (SText "ann@x.com"))
             eq_refl (or_introl eq_refl) (or_introl eq_refl)).
  - exact (add_student_duplicate sample_db same_email
             (mk_person_row (SText "S2") (SText "Anna") (SInt 22) (SText "ann@x.com"))
             (mk_person_row (SText "S1") (SText "Ann") (SInt 20) (SText "ann@x.com"))
             eq_refl (or_introl eq_refl) (or_intror eq_refl)).
Defined.

Lemma delete_where_In {R} (column : R -> sqlval) (v : sqlval) (rows : list R)
    (r : R) :
  In r (DatabaseManager.delete_where column v rows)
  <-> In r rows /\ sql_eq (column r) (text_affinity v) = false.
Proof.
  unfold DatabaseManager.delete_where. rewrite filter_In.
  rewrite negb_true_iff. reflexivity.
Qed.

(** C6.  Whatever is stored, [delete_course] succeeds on an identifier that
    SQLite can bind and keeps exactly the rows of [courses],
    [student_courses] and [instructor_courses] whose [course_id] differs
    from it; [delete_student] keeps exactly the rows of [students] and
    [student_courses] whose [student_id] differs from it.  The other tables
    are as they were. *)
Theorem delete_cascades (db : database) (id : pyval) (v : sqlval) :
  sql_bind id = Ok v ->
  (let db' := fst (DatabaseManager.delete_course db id) in
   snd (DatabaseManager.delete_course db id) = Ok tt /\
   (forall r, In r (courses db') <->
      In r (courses db) /\ sql_eq (row_course_id r) (text_affinity v) = false) /\
   (forall r, In r (student_courses db') <->
      In r (student_courses db)
      /\ sql_eq (link_course_id r) (text_affinity v) = false) /\
   (forall r, In r (instructor_courses db') <->
      In r (instructor_courses db)
      /\ sql_eq (link_course_id r) (text_affinity v) = false) /\
   students db' = students db /\ instructors db' = instructors db) /\
  (let db' := fst (DatabaseManager.delete_student db id) in
   snd (DatabaseManager.delete_student db id) = Ok tt /\
   (forall r, In r (students db') <->
      In r (students db) /\ sql_eq (row_id r) (text_affinity v) = false) /\
   (forall r, In r (student_courses db') <->
      In r (student_courses db)
      /\ sql_eq (link_person_id r) (text_affinity v) = false) /\
   instructors db' = instructors db /\ courses db' = courses db /\
   instructor_courses db' = instructor_courses db).
Proof.
  intros Hv. unfold DatabaseManager.delete_course, DatabaseManager.delete_student.
  rewrite Hv. cbn [fst snd students instructors courses student_courses
                     instructor_courses].
  refine (conj (conj eq_refl (conj _ (conj _ (conj _ (conj eq_refl eq_refl)))))
               (conj eq_refl
                  (conj _ (conj _ (conj eq_refl (conj eq_refl eq_refl))))));
    intro r; apply delete_where_In.
Qed.

Lemma delete_cascades_witness :
  fst (DatabaseManager.delete_course sample_db (VStr "C1"))
  = mk_database
      [mk_person_row (SText "S1") (SText "Ann") (SInt 20) (SText "ann@x.com")]
      [mk_person_row (SText "I1") (SText "Bob") (SInt 41) (SText "bob@x.com")]
      [mk_course_row (SText "C2") (SText "Algebra")]
      [mk_link_row (SText "S1") (SText "C2")]
      []
  /\ snd (DatabaseManager.delete_student sample_db (VStr "S1")) = Ok tt
  /\ forall r,
       In r (student_courses
               (fst (DatabaseManager.delete_student sample_db (VStr "S1")))) ->
       sql_eq (link_person_id r) (SText "S1") = false.
Proof.
  refine (conj eq_refl (conj _ _)).
  - exact (proj1 (proj2 (delete_cascades sample_db (VStr "S1") (SText "S1")
                           eq_refl))).
  - intros r Hr.
    exact (proj2 (proj1 (proj1 (proj2 (proj2 (proj2
             (delete_cascades sample_db (VStr "S1") (SText "S1") eq_refl))))
             r) Hr)).
Defined.


(** ** Saving to a JSON file *)

Section DictFacts.
Context {V : Type}.
Implicit Types (d : list (string * V)) (k : string) (v : V).



Lemma dict_get_None_keys d k : dict_get d k = None <-> ~ In k (dict_keys d).
Proof.
  induction d as [ | [k' v'] d IH]; simpl.
  - tauto.
  - destruct (String.eqb k' k) eqn:E.
    + apply String.eqb_eq in E. split; [discriminate | tauto].
    + apply String.eqb_neq in E. rewrite IH. tauto.
Qed.

Lemma dict_set_new d k v :
  ~ In k (dict_keys d) -> dict_set d k v = d ++ [(k, v)].
Proof.
  induction d as [ | [k' v'] d IH]; simpl; intros Hk; [reflexivity | ].
  destruct (String.eqb k' k) eqn:E.
  - apply String.eqb_eq in E. tauto.
  - rewrite IH by tauto. reflexivity.
Qed.



Lemma dict_set_Forall (P : string * V -> Prop) d k v :
  Forall P d -> (forall k', k' = k -> P (k', v)) -> Forall P (dict_set d k v).
Proof.
  intros Hd Hv. induction Hd as [ | [k' v'] d Hx Hd IH]; simpl.
  - constructor; auto.
  - destruct (String.eqb k' k) eqn:E.
    + apply String.eqb_eq in E. constructor; auto.
    + constructor; auto.
Qed.

(** *** Changes *)

Implicit Types (c : @change V) (cs : list (@change V)).















End DictFacts.

(** *** Merging a record into another *)








(** *** Integers too long to be written *)

Lemma existsb_flat_map {A B} (p : B -> bool) (f : A -> list B) (l : list A) :
  existsb p (flat_map f l) = existsb (fun x => existsb p (f x)) l.
Proof.
  induction l as [ | x l IH]; simpl; [reflexivity | ].
  rewrite existsb_app, IH. reflexivity.
Qed.

Lemma existsb_false_Forall {A} (p : A -> bool) (l : list A) :
  existsb p l = false <-> Forall (fun x => p x = false) l.
Proof.
  induction l as [ | x l IH]; simpl.
  - split; [constructor | reflexivity].
  - rewrite orb_false_iff, IH. split.
    + intros [Hx Hl]. constructor; assumption.
    + intros Hall. inversion Hall. auto.
Qed.

Lemma short_list (l : list pyval) :
  has_long_int (VList l) = false
  <-> Forall (fun x => has_long_int x = false) l.
Proof.
  unfold has_long_int at 1. cbn [ints_of]. rewrite existsb_flat_map.
  apply existsb_false_Forall.
Qed.

Lemma short_dict (d : pydict) :
  has_long_int (VDict d) = false
  <-> Forall (fun kv => has_long_int (snd kv) = false) d.
Proof.
  unfold has_long_int at 1. cbn [ints_of]. rewrite existsb_flat_map.
  apply (existsb_false_Forall (fun kv => has_long_int (snd kv))).
Qed.

(** The records of an index hold no integer of more than 4300 digits. *)
Definition short_index (by_key : list (string * pydict)) : Prop :=
  Forall (fun kr => has_long_int (VDict (snd kr)) = false) by_key.

Lemma short_index_values (by_key : list (string * pydict)) :
  has_long_int (VList (map VDict (dict_values by_key))) = false
  <-> short_index by_key.
Proof.
  rewrite short_list. unfold dict_values, short_index.
  rewrite map_map, Forall_map. reflexivity.
Qed.

Lemma short_records (records : list pydict) :
  has_long_int (VList (map VDict records)) = false
  <-> Forall (fun r => has_long_int (VDict r) = false) records.
Proof. rewrite short_list, Forall_map. reflexivity. Qed.

Lemma short_dict_get (d : pydict) (k : string) (v : pyval) :
  has_long_int (VDict d) = false -> dict_get d k = Some v ->
  has_long_int v = false.
Proof.
  rewrite short_dict. induction 1 as [ | [k' v'] d Hx _ IH]; simpl;
    [discriminate | ].
  destruct (String.eqb k' k); [ | exact IH].
  intros Hv. injection Hv as <-. exact Hx.
Qed.

Lemma short_py_get (d : pydict) (k : string) :
  has_long_int (VDict d) = false -> has_long_int (py_get d k) = false.
Proof.
  intros Hd. unfold py_get. destruct (dict_get d k) as [v | ] eqn:Hv;
    [exact (short_dict_get d k v Hd Hv) | reflexivity].
Qed.

Lemma short_dict_update (d e : pydict) :
  has_long_int (VDict d) = false -> has_long_int (VDict e) = false ->
  has_long_int (VDict (dict_update d e)) = false.
Proof.
  rewrite !short_dict. intros Hd He. unfold dict_update. revert d Hd.
  induction He as [ | [k v] e Hx _ IH]; intros d Hd; simpl; [exact Hd | ].
  apply IH. apply dict_set_Forall; [exact Hd | ]. intros k' _. exact Hx.
Qed.

Lemma str_of_short (v : pyval) :
  has_long_int v = false -> str_of v = Ok (py_str v).
Proof. intros H. unfold str_of. rewrite H. reflexivity. Qed.

(** *** The loop of [save_data] *)

Lemma upsert_change (by_key : list (string * pydict)) (r : pydict)
    (key_field : string) :
  has_long_int (py_get r key_field) = false ->
  DataManager.upsert by_key r key_field
  = Ok (apply_changes (merge_changes key_field [r]) by_key).
Proof.
  intros Hr. unfold DataManager.upsert, merge_changes.
  rewrite (str_of_short _ Hr). cbn [bind].
  simpl. fold (key_of key_field r).
  destruct (String.eqb (key_of key_field r) ""); reflexivity.
Qed.

Lemma merge_changes_cons (key_field : string) (r : pydict) (rs : list pydict) :
  merge_changes key_field (r :: rs)
  = merge_changes key_field [r] ++ merge_changes key_field rs.
Proof.
  unfold merge_changes. simpl.
  destruct (negb (String.eqb (key_of key_field r) "")); reflexivity.
Qed.

Lemma merge_all_changes {T} `{ToDict T} (data : list (option T))
    (key_field : string) :
  forall rs by_key,
    records_of data = Ok rs ->
    Forall (fun r => has_long_int (py_get r key_field) = false) rs ->
    DataManager.merge_all by_key data key_field
    = Ok (apply_changes (merge_changes key_field rs) by_key).
Proof.
  induction data as [ | [obj | ] data IH]; intros rs by_key Hrs Hshort; simpl.
  - injection Hrs as <-. reflexivity.
  - simpl in Hrs. destruct (to_dict_of obj) as [r | e]; [ | discriminate].
    cbn [bind] in Hrs |- *.
    destruct (records_of data) as [rs' | e]; [ | discriminate].
    injection Hrs as <-. inversion Hshort as [ | ? ? Hr Hrs']; subst.
    rewrite (upsert_change by_key r key_field Hr). cbn [bind].
    rewrite (IH rs' _ eq_refl Hrs').
    rewrite (merge_changes_cons key_field r rs').
    unfold apply_changes. rewrite fold_left_app. reflexivity.
  - apply IH; assumption.
Qed.



Lemma short_index_get (by_key : list (string * pydict)) (k : string) :
  short_index by_key ->
  has_long_int
    (VDict (match dict_get by_key k with Some r => r | None => [] end))
  = false.
Proof.
  induction 1 as [ | [k' r'] by_key Hx _ IH]; simpl; [reflexivity | ].
  destruct (String.eqb k' k); [exact Hx | exact IH].
Qed.

Lemma merge_changes_short (key_field : string) (rs : list pydict) :
  Forall (fun r => has_long_int (VDict r) = false) rs ->
  forall by_key,
    short_index by_key ->
    short_index (apply_changes (merge_changes key_field rs) by_key).
Proof.
  induction 1 as [ | r rs Hr _ IH]; intros by_key Hshort; [exact Hshort | ].
  rewrite merge_changes_cons. unfold apply_changes. rewrite fold_left_app.
  apply IH. unfold merge_changes. simpl.
  destruct (negb (String.eqb (key_of key_field r) "")); simpl; [ | exact Hshort].
  unfold apply_change. simpl. apply dict_set_Forall; [exact Hshort | ].
  intros k' _. cbn [snd]. apply short_dict_update; [ | exact Hr].
  apply short_index_get. exact Hshort.
Qed.

(** *** The index and the file *)

(** On entries without an integer of more than 4300 digits, which are the
    only ones [json.load] returns, the index is built without an error. *)
Lemma index_by_key_indexed (key_field : string) (existing : list pyval) :
  has_long_int (VList existing) = false ->
  forall acc,
    DataManager.index_by_key acc existing key_field
    = Ok (indexed acc existing key_field).
Proof.
  rewrite short_list.
  induction 1 as [ | x existing Hx _ IH]; intros acc; [reflexivity | ].
  destruct x as [ | b | z | f | s | l | record]; simpl; try apply IH.
  destruct (dict_get record key_field) as [k | ] eqn:Hk; [ | apply IH].
  rewrite (str_of_short k (short_dict_get record key_field k Hx Hk)).
  cbn [bind]. apply IH.
Qed.

Lemma indexed_short (key_field : string) (existing : list pyval) :
  has_long_int (VList existing) = false ->
  forall acc, short_index acc -> short_index (indexed acc existing key_field).
Proof.
  rewrite short_list.
  induction 1 as [ | x existing Hx _ IH]; intros acc Hacc; [exact Hacc | ].
  destruct x as [ | b | z | f | s | l | record]; simpl; try (apply IH; exact Hacc).
  destruct (dict_get record key_field) as [k | ]; [ | apply IH; exact Hacc].
  apply IH. apply dict_set_Forall; [exact Hacc | ]. intros k' _. exact Hx.
Qed.





(** What [save_data] finds in a file that is missing or holds text. *)
Lemma read_existing_text (fs : files) (filename : string) :
  missing_or_text fs filename ->
  DataManager.read_existing fs filename = Ok (existing_records fs filename)
  /\ has_long_int (VList (existing_records fs filename)) = false.
Proof.
  unfold missing_or_text, existing_records, DataManager.read_existing, open_load.
  destruct (fs filename) as [c | ]; [ | intros _; split; reflexivity].
  destruct (read_utf8 c) as [v | | excess | ].
  - intros Hshort. rewrite (json_load_short v Hshort).
    destruct v; try (split; reflexivity). split; [reflexivity | exact Hshort].
  - intros _. split; reflexivity.
  - intros [].
  - intros [].
Qed.

(** What [save_data] finds in the file it wrote. *)
Lemma read_existing_written (fs : files) (filename : string) (l : list pyval) :
  has_long_int (VList l) = false ->
  DataManager.read_existing (write_file fs filename (Dumped (VList l) false))
    filename = Ok l.
Proof.
  intros Hshort. unfold DataManager.read_existing, open_load.
  rewrite write_file_read. cbn [read_utf8].
  rewrite (json_load_short _ Hshort). reflexivity.
Qed.





(** Over a file that is missing or holds text, when the keys of the
    serializations have a text, [save_data] comes to write the merged
    index. *)
Lemma save_data_dumps {T} `{ToDict T}
    (fs : files) (filename key_field : string)
    (data : list (option T)) (records : list pydict) :
  missing_or_text fs filename ->
  records_of data = Ok records ->
  Forall (fun r => has_long_int (py_get r key_field) = false) records ->
  DataManager.save_data fs filename (Some data) key_field
  = open_dump fs filename
      (VList (map VDict
                (dict_values
                   (apply_changes (merge_changes key_field records)
                      (file_index fs filename key_field)))))
      false.
Proof.
  intros Hfile Hrs Hkeys.
  destruct (read_existing_text fs filename Hfile) as [Hread Hexisting].
  unfold DataManager.save_data. rewrite Hread. cbn [bind].
  rewrite (index_by_key_indexed key_field _ Hexisting). cbn [bind].
  rewrite (merge_all_changes data key_field records _ Hrs Hkeys).
  reflexivity.
Qed.

Lemma short_keys (key_field : string) (records : list pydict) :
  Forall (fun r => has_long_int (VDict r) = false) records ->
  Forall (fun r => has_long_int (py_get r key_field) = false) records.
Proof.
  intros Hshort. eapply Forall_impl; [ | exact Hshort].
  intros r. apply short_py_get.
Qed.

(** What [save_data] writes over a file that is missing or holds text,
    when the serializations hold no integer of more than 4300 digits. *)
Lemma save_data_writes {T} `{ToDict T}
    (fs : files) (filename key_field : string)
    (data : list (option T)) (records : list pydict) :
  missing_or_text fs filename ->
  records_of data = Ok records ->
  Forall (fun r => has_long_int (VDict r) = false) records ->
  short_index (apply_changes (merge_changes key_field records)
                 (file_index fs filename key_field))
  /\ DataManager.save_data fs filename (Some data) key_field
     = (write_file fs filename
          (Dumped (VList (map VDict
                            (dict_values
                               (apply_changes (merge_changes key_field records)
                                  (file_index fs filename key_field)))))
             false),
        Ok tt).
Proof.
  intros Hfile Hrs Hshort.
  destruct (read_existing_text fs filename Hfile) as [_ Hexisting].
  assert (Hindex : short_index
                     (apply_changes (merge_changes key_field records)
                        (file_index fs filename key_field))).
  { apply merge_changes_short; [exact Hshort | ].
    apply indexed_short; [exact Hexisting | constructor]. }
  split; [exact Hindex | ].
  rewrite (save_data_dumps fs filename key_field data records Hfile Hrs
             (short_keys key_field records Hshort)).
  pose proof (proj2 (short_index_values _) Hindex) as Hdump.
  unfold open_dump, pydict in *. rewrite Hdump. reflexivity.
Qed.




(** The sample file after Ann is saved: Zed's record is untouched, Ann's
    has her new age and keeps the field only the file had. *)
Example save_data_sample :
  DataManager.save_data sample_files "students.json" (Some [Some ann; None])
    "student_id"
  = (write_file sample_files "students.json"
       (Dumped
          (VList
             [VDict zed_record;
              VDict [("name", VStr "Ann"); ("age", VInt 20);
                     ("email", VStr "ann@x.com"); ("student_id", VStr "S1");
                     ("registered_courses", VList []); ("note", VStr "kept")]])
          false),
     Ok tt).
Proof. reflexivity. Qed.



(** * Further properties *)

(** ** Strings and regular expressions *)

Lemma str_app_nil_r (s : string) : (s ++ "")%string = s.
Proof. induction s as [ | c s IH]; simpl; [ | rewrite IH]; reflexivity. Qed.

Lemma str_app_assoc (s1 s2 s3 : string) :
  ((s1 ++ s2) ++ s3)%string = (s1 ++ (s2 ++ s3))%string.
Proof. induction s1 as [ | c s1 IH]; simpl; [ | rewrite IH]; reflexivity. Qed.

Lemma str_app_empty (s1 s2 : string) :
  (s1 ++ s2)%string = "" -> s1 = "" /\ s2 = "".
Proof. destruct s1; simpl; [auto | discriminate]. Qed.

Lemma eps_inv (s : string) : re_matches Re.Eps s -> s = "".
Proof. intros H. inversion H. reflexivity. Qed.

Lemma void_inv (s : string) : ~ re_matches Re.Void s.
Proof. intros H. inversion H. Qed.

Lemma class_inv (p : ascii -> bool) (s : string) :
  re_matches (Re.Class p) s -> exists c, s = str1 c /\ p c = true.
Proof. intros H. inversion H; subst. eauto. Qed.

Lemma cat_inv (r1 r2 : Re.t) (s : string) :
  re_matches (Re.Cat r1 r2) s ->
  exists s1 s2, s = (s1 ++ s2)%string /\ re_matches r1 s1 /\ re_matches r2 s2.
Proof. intros H. inversion H; subst. eauto. Qed.

Lemma alt_inv (r1 r2 : Re.t) (s : string) :
  re_matches (Re.Alt r1 r2) s -> re_matches r1 s \/ re_matches r2 s.
Proof. intros H. inversion H; subst; auto. Qed.

Lemma nullable_spec (r : Re.t) : Re.nullable r = true <-> re_matches r "".
Proof.
  induction r as [ | | p | r1 IH1 r2 IH2 | r1 IH1 r2 IH2 | r IH]; simpl.
  - split; [discriminate | intros H; destruct (void_inv _ H)].
  - split; [constructor | reflexivity].
  - split; [discriminate | ].
    intros H. apply class_inv in H as (c & Hc & _). discriminate.
  - rewrite andb_true_iff, IH1, IH2. split.
    + intros [H1 H2]. exact (M_Cat r1 r2 "" "" H1 H2).
    + intros H. apply cat_inv in H as (s1 & s2 & Hs & H1 & H2).
      symmetry in Hs. apply str_app_empty in Hs as [-> ->]. auto.
  - rewrite orb_true_iff, IH1, IH2. split.
    + intros [H | H]; [apply M_AltL | apply M_AltR]; exact H.
    + apply alt_inv.
  - split; [constructor | reflexivity].
Qed.

Lemma star_cons (r : Re.t) (c : ascii) (s : string) :
  re_matches (Re.Star r) (String c s) ->
  exists s1 s2, s = (s1 ++ s2)%string
                /\ re_matches r (String c s1) /\ re_matches (Re.Star r) s2.
Proof.
  remember (Re.Star r) as r' eqn:Hr. remember (String c s) as cs eqn:Hcs.
  intros H. revert Hr Hcs.
  induction H as [ | | | | | | r0 s1 s2 H1 _ H2 IH2]; try discriminate.
  intros Hr Hcs. injection Hr as ->.
  destruct s1 as [ | c1 s1]; simpl in Hcs.
  - apply IH2; [reflexivity | exact Hcs].
  - injection Hcs as -> <-. eauto.
Qed.

Lemma deriv_spec (r : Re.t) (c : ascii) :
  forall s, re_matches (Re.deriv c r) s <-> re_matches r (String c s).
Proof.
  induction r as [ | | p | r1 IH1 r2 IH2 | r1 IH1 r2 IH2 | r IH]; intros s; simpl.
  - split; intros H; destruct (void_inv _ H).
  - split; intros H; [destruct (void_inv _ H) | ].
    apply eps_inv in H. discriminate.
  - destruct (p c) eqn:Hp; split; intros H.
    + apply eps_inv in H as ->. apply (M_Class p c Hp).
    + apply class_inv in H as (c' & Hs & _). injection Hs as _ ->. constructor.
    + destruct (void_inv _ H).
    + apply class_inv in H as (c' & Hs & Hc). injection Hs as -> _. congruence.
  - assert (Hcat : re_matches (Re.Cat (Re.deriv c r1) r2) s ->
                   re_matches (Re.Cat r1 r2) (String c s)).
    { intros H. apply cat_inv in H as (s1 & s2 & -> & H1 & H2).
      apply IH1 in H1. exact (M_Cat r1 r2 (String c s1) s2 H1 H2). }
    assert (Hback : re_matches (Re.Cat r1 r2) (String c s) ->
                    re_matches (Re.Cat (Re.deriv c r1) r2) s
                    \/ (re_matches r1 "" /\ re_matches (Re.deriv c r2) s)).
    { intros H. apply cat_inv in H as (s1 & s2 & Hs & H1 & H2).
      destruct s1 as [ | c1 s1]; simpl in Hs.
      - right. subst s2. split; [exact H1 | apply IH2; exact H2].
      - injection Hs as <- ->. left.
        apply M_Cat; [apply IH1; exact H1 | exact H2]. }
    destruct (Re.nullable r1) eqn:Hn; split; intros H.
    + apply alt_inv in H as [H | H]; [auto | ].
      apply nullable_spec in Hn.
      exact (M_Cat r1 r2 "" (String c s) Hn (proj1 (IH2 s) H)).
    + destruct (Hback H) as [H' | [_ H']]; [apply M_AltL | apply M_AltR]; exact H'.
    + auto.
    + destruct (Hback H) as [H' | [H' _]]; [exact H' | ].
      apply nullable_spec in H'. congruence.
  - split; intros H.
    + apply alt_inv in H as [H | H];
        [apply M_AltL, IH1 | apply M_AltR, IH2]; exact H.
    + apply alt_inv in H as [H | H];
        [apply M_AltL, IH1 | apply M_AltR, IH2]; exact H.
  - split; intros H.
    + apply cat_inv in H as (s1 & s2 & -> & H1 & H2).
      apply IH in H1. exact (M_StarS r (String c s1) s2 H1 H2).
    + apply star_cons in H as (s1 & s2 & -> & H1 & H2).
      apply M_Cat; [apply IH; exact H1 | exact H2].
Qed.

(** The matcher decides the language of the expression. *)
Lemma fullmatch_spec (s : string) :
  forall r, Re.fullmatch r s = true <-> re_matches r s.
Proof.
  induction s as [ | c s IH]; intros r; simpl.
  - apply nullable_spec.
  - rewrite IH. apply deriv_spec.
Qed.

Lemma star_class (p : ascii -> bool) (s : string) :
  re_matches (Re.Star (Re.Class p)) s <-> str_forall p s = true.
Proof.
  split.
  - remember (Re.Star (Re.Class p)) as r eqn:Hr. intros H. revert Hr.
    induction H as [ | | | | | | r0 s1 s2 H1 _ _ IH2]; try discriminate.
    + reflexivity.
    + intros Hr. injection Hr as ->.
      apply class_inv in H1 as (c & -> & Hc). simpl. rewrite Hc.
      apply IH2. reflexivity.
  - induction s as [ | c s IH]; simpl; intros H; [constructor | ].
    apply andb_true_iff in H as [Hc Hs].
    exact (M_StarS (Re.Class p) (str1 c) s (M_Class p c Hc) (IH Hs)).
Qed.

Lemma plus_class (p : ascii -> bool) (s : string) :
  re_matches (Re.Plus (Re.Class p)) s <-> s <> "" /\ str_forall p s = true.
Proof.
  unfold Re.Plus. split.
  - intros H. apply cat_inv in H as (s1 & s2 & -> & H1 & H2).
    apply class_inv in H1 as (c & -> & Hc). apply star_class in H2.
    simpl. rewrite Hc, H2. split; [discriminate | reflexivity].
  - intros [Hne H]. destruct s as [ | c s]; [congruence | ].
    simpl in H. apply andb_true_iff in H as [Hc Hs].
    exact (M_Cat _ _ (str1 c) s (M_Class p c Hc) (proj2 (star_class p s) Hs)).
Qed.

Lemma atleast2_class (p : ascii -> bool) (s : string) :
  re_matches (Re.AtLeast2 (Re.Class p)) s
  <-> (2 <= String.length s)%nat /\ str_forall p s = true.
Proof.
  unfold Re.AtLeast2. split.
  - intros H. apply cat_inv in H as (s1 & s2 & -> & H1 & H2).
    apply class_inv in H1 as (c & -> & Hc).
    apply (proj1 (plus_class p s2)) in H2 as [Hne Hs].
    simpl. rewrite Hc, Hs. split; [ | reflexivity].
    destruct s2; [congruence | simpl; lia].
  - intros [Hlen H]. destruct s as [ | c s]; [simpl in Hlen; lia | ].
    simpl in H. apply andb_true_iff in H as [Hc Hs].
    apply (M_Cat _ _ (str1 c) s (M_Class p c Hc)).
    apply (proj2 (plus_class p s)). split; [ | exact Hs].
    destruct s; [simpl in Hlen; lia | discriminate].
Qed.

Lemma is_char_single (x c : ascii) :
  Person.is_char (str1 x) c = true <-> c = x.
Proof.
  unfold Person.is_char. simpl. rewrite orb_false_r. apply Ascii.eqb_eq.
Qed.

(** The pattern of [validate_email] matches exactly the strings of the
    shape [local@domain.tld]. *)
Lemma email_pattern_shape (s : string) :
  Re.fullmatch Person.email_pattern s = true <-> email_shape s.
Proof.
  rewrite fullmatch_spec. unfold Person.email_pattern, email_shape. split.
  - intros H.
    apply cat_inv in H as (l & s1 & -> & Hl & H).
    apply cat_inv in H as (a & s2 & -> & Ha & H).
    apply cat_inv in H as (d & s3 & -> & Hd & H).
    apply cat_inv in H as (o & t & -> & Ho & Ht).
    apply class_inv in Ha as (ca & -> & Hca).
    apply class_inv in Ho as (co & -> & Hco).
    apply (is_char_single "@" ca) in Hca as ->.
    apply (is_char_single "." co) in Hco as ->.
    apply plus_class in Hl as [Hl1 Hl2]. apply plus_class in Hd as [Hd1 Hd2].
    apply atleast2_class in Ht as [Ht1 Ht2].
    exists l, d, t. repeat split; assumption.
  - intros (l & d & t & -> & Hl1 & Hd1 & Ht1 & Hl2 & Hd2 & Ht2).
    apply M_Cat; [apply plus_class; auto | ].
    apply (M_Cat _ _ (str1 "@")); [apply M_Class; reflexivity | ].
    apply M_Cat; [apply plus_class; auto | ].
    apply (M_Cat _ _ (str1 ".")); [apply M_Class; reflexivity | ].
    apply atleast2_class. auto.
Qed.

Lemma drop_final_newline_spec (s s' : string) :
  Re.drop_final_newline s = Some s' <-> s = (s' ++ str1 (chr 10))%string.
Proof.
  revert s'. induction s as [ | c s IH]; intros s'; simpl.
  - split; [discriminate | ]. destruct s'; discriminate.
  - destruct s as [ | c0 s0].
    + destruct (code c =? 10)%N eqn:E; split; intros H.
      * injection H as <-. apply N.eqb_eq in E. unfold code in E.
        rewrite <- (ascii_N_embedding c), E. reflexivity.
      * destruct s' as [ | c1 [ | c2 s2]]; try discriminate; reflexivity.
      * discriminate.
      * destruct s' as [ | c1 [ | c2 s2]]; try discriminate.
        injection H as ->. discriminate.
    + remember (String c0 s0) as t eqn:Ht.
      destruct (Re.drop_final_newline t) as [u | ] eqn:Hu; simpl; split; intros H.
      * injection H as <-. rewrite (proj1 (IH u) eq_refl). reflexivity.
      * destruct s' as [ | c1 s1]; simpl in H.
        -- injection H as _ H. subst t. discriminate.
        -- injection H as -> H. apply IH in H. congruence.
      * discriminate.
      * destruct s' as [ | c1 s1]; simpl in H.
        -- injection H as _ H. subst t. discriminate.
        -- injection H as -> H. apply IH in H. discriminate.
Qed.

Lemma email_shape_nonempty (s : string) : email_shape s -> s <> "".
Proof.
  intros (l & d & t & -> & Hl & _). destruct l; [congruence | discriminate].
Qed.

(** [validate_email] returns its argument as it is, and accepts exactly the
    strings of the shape [local@domain.tld], alone or followed by one
    newline. *)
Theorem validate_email_shape (v : pyval) (e : string) :
  Person.validate_email v = Ok e
  <-> v = VStr e
      /\ (email_shape e
          \/ exists body, e = (body ++ str1 (chr 10))%string /\ email_shape body).
Proof.
  unfold Person.validate_email, Re.match_anchored. split.
  - destruct (negb (py_truthy v)); [discriminate | ].
    destruct v as [ | | | | s | | ]; try discriminate.
    destruct (Re.fullmatch Person.email_pattern s) eqn:Hfull; simpl.
    + intros H. injection H as <-. split; [reflexivity | ].
      left. apply email_pattern_shape. exact Hfull.
    + destruct (Re.drop_final_newline s) as [body | ] eqn:Hdrop; [ | discriminate].
      destruct (Re.fullmatch Person.email_pattern body) eqn:Hbody; [ | discriminate].
      intros H. injection H as <-. split; [reflexivity | ].
      right. exists body. split.
      * apply drop_final_newline_spec. exact Hdrop.
      * apply email_pattern_shape. exact Hbody.
  - intros [-> [Hshape | (body & -> & Hshape)]].
    + pose proof (email_shape_nonempty _ Hshape) as Hne.
      apply String.eqb_neq in Hne. simpl. rewrite Hne. simpl.
      apply email_pattern_shape in Hshape. rewrite Hshape. reflexivity.
    + assert (Hne : (body ++ str1 (chr 10))%string <> "")
        by (destruct body; discriminate).
      apply String.eqb_neq in Hne. cbn [py_truthy]. rewrite Hne. cbn [negb].
      rewrite (proj2 (drop_final_newline_spec _ body) eq_refl).
      apply email_pattern_shape in Hshape. rewrite Hshape.
      rewrite orb_true_r. reflexivity.
Qed.

Lemma validate_email_shape_witness :
  Person.validate_email (VStr "a@b.co") = Ok "a@b.co"
  /\ (forall e, Person.validate_email (VStr "a@b.c") <> Ok e).
Proof.
  split.
  - apply (proj2 (validate_email_shape (VStr "a@b.co") "a@b.co")).
    split; [reflexivity | ]. left. exists "a", "b", "co".
    repeat split; try discriminate. simpl. lia.
  - intros e H. vm_compute in H. discriminate H.
Defined.

(** ** [Person] *)

Lemma validate_name_iff (v : pyval) (n : string) :
  Person.validate_name v = Ok n <-> v = VStr n /\ str_isalpha n = true.
Proof.
  split.
  - intros H. apply validate_name_Ok in H as (s & -> & Halpha & ->).
    rewrite (strip_alpha s Halpha). auto.
  - intros [-> Halpha]. unfold Person.validate_name.
    assert (Hne : py_truthy (VStr n) = true).
    { unfold str_isalpha in Halpha. apply andb_true_iff in Halpha as [H _].
      exact H. }
    rewrite Hne, Halpha. simpl. rewrite (strip_alpha n Halpha). reflexivity.
Qed.

(** [validate_name] accepts exactly the non-empty strings of alphabetic
    characters and returns them unchanged: a blank anywhere, also at an
    end, is refused, so its [strip] never removes anything. *)
Theorem validate_name_accepts (v : pyval) (n : string) :
  Person.validate_name v = Ok n <-> v = VStr n /\ str_isalpha n = true.
Proof. exact (validate_name_iff v n). Qed.

Lemma lstrip_idem (s : string) : lstrip (lstrip s) = lstrip s.
Proof.
  induction s as [ | c s IH]; [reflexivity | ]. simpl.
  destruct (char_isspace c) eqn:E; [exact IH | ]. simpl. rewrite E. reflexivity.
Qed.

Lemma rstrip_cons (c : ascii) (s : string) :
  rstrip (String c s)
  = match rstrip s with
    | EmptyString => if char_isspace c then EmptyString else str1 c
    | r => String c r
    end.
Proof. reflexivity. Qed.

Lemma rstrip_idem (s : string) : rstrip (rstrip s) = rstrip s.
Proof.
  induction s as [ | c s IH]; [reflexivity | ]. rewrite rstrip_cons.
  destruct (rstrip s) as [ | c' r] eqn:Hr.
  - destruct (char_isspace c) eqn:E; [reflexivity | ].
    simpl. rewrite E. reflexivity.
  - rewrite rstrip_cons, IH. reflexivity.
Qed.

Lemma rstrip_lstrip (s : string) : rstrip (lstrip s) = lstrip (rstrip s).
Proof.
  induction s as [ | c s IH]; [reflexivity | ].
  rewrite rstrip_cons. cbn [lstrip].
  destruct (char_isspace c) eqn:E.
  - rewrite IH. destruct (rstrip s) as [ | c' r]; [reflexivity | ].
    cbn [lstrip]. rewrite E. reflexivity.
  - rewrite rstrip_cons.
    destruct (rstrip s) as [ | c' r]; rewrite ?E; cbn [lstrip str1];
      rewrite E; reflexivity.
Qed.

(** Stripping twice strips once. *)
Lemma strip_idem (s : string) : strip (strip s) = strip s.
Proof.
  unfold strip. rewrite (rstrip_lstrip (rstrip s)).
  rewrite rstrip_idem, lstrip_idem. reflexivity.
Qed.

Lemma validate_age_in_range (v : pyval) (a : Z) :
  Person.validate_age v = Ok a -> 1 <= a <= 120.
Proof.
  unfold Person.validate_age. destruct (is_none v); [discriminate | ].
  destruct (py_int v) as [m | e]; [ | destruct e; discriminate].
  destruct (negb _) eqn:E; [discriminate | ].
  intros H. injection H as <-. apply negb_false_iff in E.
  apply andb_true_iff in E as [E1 E2].
  apply Z.leb_le in E1. apply Z.leb_le in E2. lia.
Qed.

(** Every person a constructor returns has an age in [1,120], an address
    that the validator accepts and a name without blanks at its ends;
    [set_email] keeps all three, changes nothing when it raises, and when
    it succeeds [get_email] gives the new address back. *)
Theorem Person_invariant_kept :
  (forall name age email p,
     Person.init name age email = Ok p -> person_invariant p)
  /\ (forall p new_email,
        person_invariant p ->
        person_invariant (fst (Person.set_email p new_email)))
  /\ (forall p new_email e,
        snd (Person.set_email p new_email) = Raise e ->
        fst (Person.set_email p new_email) = p)
  /\ (forall p new_email,
        snd (Person.set_email p new_email) = Ok tt ->
        new_email = VStr (Person.get_email (fst (Person.set_email p new_email)))
        /\ Person.name (fst (Person.set_email p new_email)) = Person.name p
        /\ Person.age (fst (Person.set_email p new_email)) = Person.age p).
Proof.
  refine (conj _ (conj _ (conj _ _))).
  - intros name age email p. unfold Person.init.
    destruct name as [ | | | | s | | ]; try discriminate. cbn [bind].
    destruct (Person.validate_age age) as [a | ] eqn:Ha; [ | discriminate].
    destruct (Person.validate_email email) as [e | ] eqn:He; [ | discriminate].
    cbn [bind]. intros H. injection H as <-. unfold person_invariant. simpl.
    split; [exact (validate_age_in_range _ _ Ha) | ].
    split; [exact (proj2 (validate_email_Ok _ _ He)) | apply strip_idem].
  - intros p new_email (Ha & He & Hn). unfold Person.set_email.
    destruct (Person.validate_email new_email) as [e | ] eqn:Hnew; simpl.
    + unfold person_invariant. simpl.
      split; [exact Ha | ].
      split; [exact (proj2 (validate_email_Ok _ _ Hnew)) | exact Hn].
    + split; [exact Ha | split; [exact He | exact Hn]].
  - intros p new_email e. unfold Person.set_email.
    destruct (Person.validate_email new_email); [discriminate | reflexivity].
  - intros p new_email. unfold Person.set_email.
    destruct (Person.validate_email new_email) as [e | ] eqn:Hnew;
      [ | discriminate].
    intros _. simpl. rewrite (proj1 (validate_email_Ok _ _ Hnew)). auto.
Qed.

Lemma Person_invariant_kept_witness :
  person_invariant (Person.mk "Ann Lee" 20 "ann@x.com")
  /\ fst (Person.set_email (Student.person ann) (VStr "nowhere"))
     = Student.person ann
  /\ VStr "ann@y.org"
     = VStr (Person.get_email (fst (Person.set_email (Student.person ann)
                                      (VStr "ann@y.org")))).
Proof.
  refine (conj _ (conj _ _)).
  - exact (proj1 Person_invariant_kept
             (VStr "  Ann Lee ") (VStr "20") (VStr "ann@x.com")
             (Person.mk "Ann Lee" 20 "ann@x.com") eq_refl).
  - exact (proj1 (proj2 (proj2 Person_invariant_kept))
             (Student.person ann) (VStr "nowhere")
             (ValueError "Invalid email format") eq_refl).
  - exact (proj1 (proj2 (proj2 (proj2 Person_invariant_kept))
                    (Student.person ann) (VStr "ann@y.org") eq_refl)).
Defined.

(** ** [from_dict] of students and instructors *)

Lemma Person_init_alpha (n : string) (a : Z) (e : string) :
  str_isalpha n = true ->
  Person.validate_age (VInt a) = Ok a ->
  Person.validate_email (VStr e) = Ok e ->
  Person.init (VStr n) (VInt a) (VStr e) = Ok (Person.mk n a e).
Proof.
  intros Hn Ha He. unfold Person.init. rewrite Ha, He.
  rewrite (strip_alpha n Hn). reflexivity.
Qed.

Lemma dict_get_py_get (d : pydict) (k : string) (v : pyval) :
  dict_get d k = Some v -> py_get d k = v /\ forall dflt, py_get_default d k dflt = v.
Proof. intros H. unfold py_get, py_get_default. rewrite H. auto. Qed.

Lemma py_get_not_none (d : pydict) (k : string) :
  is_none (py_get d k) = false ->
  exists v, dict_get d k = Some v /\ v <> VNone
            /\ py_get d k = v /\ forall dflt, py_get_default d k dflt = v.
Proof.
  unfold py_get, py_get_default. destruct (dict_get d k) as [v | ]; [ | discriminate].
  intros H. exists v. repeat split; auto. intros ->. discriminate.
Qed.

Local Opaque Person.validate_name Person.validate_age Person.validate_email
  Person.init py_get py_get_default strip.

(** One case split of a [from_dict] body that is known to succeed. *)
Ltac from_dict_success_step :=
  match goal with
  | |- context [is_none ?v] => destruct (is_none v) eqn:?
  | |- context [Person.validate_name ?v] =>
      destruct (Person.validate_name v) eqn:?
  | |- context [Person.validate_age ?v] =>
      destruct (Person.validate_age v) eqn:?
  | |- context [Person.validate_email ?v] =>
      destruct (Person.validate_email v) eqn:?
  | |- context [dict_get ?d ?k] => destruct (dict_get d k) eqn:?
  end; simpl; try (intros; discriminate).

(** The fields [Student.from_dict] builds a student from, when it
    succeeds. *)
Lemma Student_from_dict_fields (data : pydict) (s : Student.t) :
  Student.from_dict data = Ok s ->
  exists n a e sid,
    is_none (py_get data "name") = false
    /\ is_none (py_get data "age") = false
    /\ is_none (py_get data "email") = false
    /\ is_none (py_get data "student_id") = false
    /\ Person.validate_name (py_get data "name") = Ok n
    /\ Person.validate_age (py_get_default data "age" (VInt 1)) = Ok a
    /\ Person.validate_email (py_get_default data "email" (VStr "")) = Ok e
    /\ dict_get data "student_id" = Some sid
    /\ Student.init (VStr n) (VInt a) (VStr e) sid
         (py_get_default data "registered_courses" (VList [])) = Ok s.
Proof.
  unfold Student.from_dict, Student.from_dict_body, try_except_pass, block,
    assign_required, assign, as_str, as_int, py_index.
  repeat from_dict_success_step.
  intros H. do 4 eexists. repeat split; eassumption.
Qed.

Lemma Instructor_from_dict_fields (data : pydict) (i : Instructor.t) :
  Instructor.from_dict data = Ok i ->
  exists n a e iid,
    Person.validate_name (py_get_default data "name" (VStr "")) = Ok n
    /\ Person.validate_age (py_get_default data "age" (VInt 0)) = Ok a
    /\ Person.validate_email (py_get_default data "email" (VStr "")) = Ok e
    /\ dict_get data "instructor_id" = Some iid
    /\ Instructor.init (VStr n) (VInt a) (VStr e) iid
         (py_get_default data "assigned_courses" (VList [])) = Ok i.
Proof.
  unfold Instructor.from_dict, Instructor.from_dict_body, try_except_pass,
    block, assign, as_str, as_int, py_index.
  repeat from_dict_success_step.
  intros H. do 4 eexists. repeat split; eassumption.
Qed.

Lemma Student_from_dict_of_fields (data : pydict) (s : Student.t)
    (n : string) (a : Z) (e : string) (sid : pyval) :
  is_none (py_get data "name") = false ->
  is_none (py_get data "age") = false ->
  is_none (py_get data "email") = false ->
  is_none (py_get data "student_id") = false ->
  Person.validate_name (py_get data "name") = Ok n ->
  Person.validate_age (py_get_default data "age" (VInt 1)) = Ok a ->
  Person.validate_email (py_get_default data "email" (VStr "")) = Ok e ->
  dict_get data "student_id" = Some sid ->
  Student.init (VStr n) (VInt a) (VStr e) sid
    (py_get_default data "registered_courses" (VList [])) = Ok s ->
  Student.from_dict data = Ok s.
Proof.
  intros H1 H2 H3 H4 Hn Ha He Hsid Hinit.
  unfold Student.from_dict, Student.from_dict_body, try_except_pass, block,
    assign_required, assign, as_str, as_int, py_index.
  rewrite H1, H2, H3, H4, Hn, Ha, He, Hsid. simpl. exact Hinit.
Qed.

Lemma Instructor_from_dict_of_fields (data : pydict) (i : Instructor.t)
    (n : string) (a : Z) (e : string) (iid : pyval) :
  Person.validate_name (py_get_default data "name" (VStr "")) = Ok n ->
  Person.validate_age (py_get_default data "age" (VInt 0)) = Ok a ->
  Person.validate_email (py_get_default data "email" (VStr "")) = Ok e ->
  dict_get data "instructor_id" = Some iid ->
  Instructor.init (VStr n) (VInt a) (VStr e) iid
    (py_get_default data "assigned_courses" (VList [])) = Ok i ->
  Instructor.from_dict data = Ok i.
Proof.
  intros Hn Ha He Hiid Hinit.
  unfold Instructor.from_dict, Instructor.from_dict_body, try_except_pass,
    block, assign, as_str, as_int, py_index.
  rewrite Hn, Ha, He, Hiid. simpl. exact Hinit.
Qed.

Local Transparent Person.validate_name Person.validate_age
  Person.validate_email Person.init py_get py_get_default strip.

Lemma courses_or_empty_default (d : pydict) (k : string) :
  (if is_none (py_get_default d k (VList [])) then VList []
   else py_get_default d k (VList []))
  = courses_or_empty (dict_get d k).
Proof.
  unfold py_get_default, courses_or_empty.
  destruct (dict_get d k) as [[ | | | | | | ] | ]; reflexivity.
Qed.

Lemma Student_from_dict_iff (data : pydict) (s : Student.t) :
  Student.from_dict data = Ok s
  <-> exists n va a e sid,
        dict_get data "name" = Some (VStr n) /\ str_isalpha n = true
        /\ dict_get data "age" = Some va /\ Person.validate_age va = Ok a
        /\ dict_get data "email" = Some (VStr e)
        /\ Person.validate_email (VStr e) = Ok e
        /\ dict_get data "student_id" = Some sid /\ sid <> VNone
        /\ s = Student.mk (Person.mk n a e) sid
                 (courses_or_empty (dict_get data "registered_courses")).
Proof.
  split.
  - intros H.
    apply Student_from_dict_fields in H
      as (n & a & e & sid & H1 & H2 & H3 & H4 & Hn & Ha & He & Hsid & Hinit).
    apply py_get_not_none in H1 as (vn & Hdn & _ & Hgn & _).
    apply py_get_not_none in H2 as (va & Hda & _ & _ & Hga).
    apply py_get_not_none in H3 as (ve & Hde & _ & _ & Hge).
    apply py_get_not_none in H4 as (vs & Hds & Hnone & _ & _).
    rewrite Hgn in Hn. rewrite Hga in Ha. rewrite Hge in He.
    apply validate_name_iff in Hn as [-> Halpha].
    apply validate_email_Ok in He as [-> He].
    rewrite Hsid in Hds. injection Hds as <-.
    exists n, va, a, e, sid. repeat split; try assumption.
    unfold Student.init in Hinit.
    rewrite (Person_init_alpha n a e Halpha (validate_age_Ok _ _ Ha) He) in Hinit.
    cbn [bind] in Hinit. rewrite courses_or_empty_default in Hinit.
    injection Hinit as <-. reflexivity.
  - intros (n & va & a & e & sid & Hdn & Halpha & Hda & Ha & Hde & He & Hds
            & Hnone & ->).
    destruct (dict_get_py_get _ _ _ Hdn) as [Hgn _].
    destruct (dict_get_py_get _ _ _ Hda) as [Hga Hga'].
    destruct (dict_get_py_get _ _ _ Hde) as [Hge Hge'].
    destruct (dict_get_py_get _ _ _ Hds) as [Hgs _].
    apply (Student_from_dict_of_fields data _ n a e sid).
    + rewrite Hgn. reflexivity.
    + rewrite Hga. destruct va; try reflexivity. discriminate.
    + rewrite Hge. reflexivity.
    + rewrite Hgs. destruct sid; try reflexivity. congruence.
    + rewrite Hgn. apply validate_name_iff. auto.
    + rewrite Hga'. exact Ha.
    + rewrite Hge'. exact He.
    + exact Hds.
    + unfold Student.init.
      rewrite (Person_init_alpha n a e Halpha (validate_age_Ok _ _ Ha) He).
      cbn [bind]. rewrite courses_or_empty_default. reflexivity.
Qed.

(** [Student.from_dict] succeeds exactly on a record with an alphabetic
    name, an age that converts into [1,120], a well-formed address and an
    identifier that is not null; the student it returns has these fields,
    the age as an integer and the course list of the record, [[]] when the
    record has none. *)
Theorem Student_from_dict_succeeds (data : pydict) (s : Student.t) :
  Student.from_dict data = Ok s
  <-> exists n va a e sid,
        dict_get data "name" = Some (VStr n) /\ str_isalpha n = true
        /\ dict_get data "age" = Some va /\ Person.validate_age va = Ok a
        /\ dict_get data "email" = Some (VStr e)
        /\ Person.validate_email (VStr e) = Ok e
        /\ dict_get data "student_id" = Some sid /\ sid <> VNone
        /\ s = Student.mk (Person.mk n a e) sid
                 (courses_or_empty (dict_get data "registered_courses")).
Proof. exact (Student_from_dict_iff data s). Qed.

Lemma Instructor_from_dict_iff (data : pydict) (i : Instructor.t) :
  Instructor.from_dict data = Ok i
  <-> exists n va a e iid,
        dict_get data "name" = Some (VStr n) /\ str_isalpha n = true
        /\ dict_get data "age" = Some va /\ Person.validate_age va = Ok a
        /\ dict_get data "email" = Some (VStr e)
        /\ Person.validate_email (VStr e) = Ok e
        /\ dict_get data "instructor_id" = Some iid
        /\ i = Instructor.mk (Person.mk n a e) iid
                 (courses_or_empty (dict_get data "assigned_courses")).
Proof.
  split.
  - intros H.
    apply Instructor_from_dict_fields in H
      as (n & a & e & iid & Hn & Ha & He & Hiid & Hinit).
    apply validate_name_iff in Hn as [Hgn Halpha].
    apply validate_email_Ok in He as [Hge He].
    unfold py_get_default in Hgn, Hge, Ha.
    destruct (dict_get data "name") as [vn | ] eqn:Hdn;
      [ | injection Hgn as <-; discriminate].
    destruct (dict_get data "email") as [ve | ] eqn:Hde;
      [ | injection Hge as <-; discriminate].
    destruct (dict_get data "age") as [va | ] eqn:Hda; [ | discriminate].
    subst vn ve. exists n, va, a, e, iid. repeat split; try assumption.
    unfold Instructor.init in Hinit.
    rewrite (Person_init_alpha n a e Halpha (validate_age_Ok _ _ Ha) He) in Hinit.
    cbn [bind] in Hinit. rewrite courses_or_empty_default in Hinit.
    injection Hinit as <-. reflexivity.
  - intros (n & va & a & e & iid & Hdn & Halpha & Hda & Ha & Hde & He & Hdi & ->).
    destruct (dict_get_py_get _ _ _ Hdn) as [_ Hgn].
    destruct (dict_get_py_get _ _ _ Hda) as [_ Hga].
    destruct (dict_get_py_get _ _ _ Hde) as [_ Hge].
    apply (Instructor_from_dict_of_fields data _ n a e iid).
    + rewrite Hgn. apply validate_name_iff. auto.
    + rewrite Hga. exact Ha.
    + rewrite Hge. exact He.
    + exact Hdi.
    + unfold Instructor.init.
      rewrite (Person_init_alpha n a e Halpha (validate_age_Ok _ _ Ha) He).
      cbn [bind]. rewrite courses_or_empty_default. reflexivity.
Qed.

(** [Instructor.from_dict] succeeds on the same conditions, except that it
    takes any identifier the record has, also a null one. *)
Theorem Instructor_from_dict_succeeds (data : pydict) (i : Instructor.t) :
  Instructor.from_dict data = Ok i
  <-> exists n va a e iid,
        dict_get data "name" = Some (VStr n) /\ str_isalpha n = true
        /\ dict_get data "age" = Some va /\ Person.validate_age va = Ok a
        /\ dict_get data "email" = Some (VStr e)
        /\ Person.validate_email (VStr e) = Ok e
        /\ dict_get data "instructor_id" = Some iid
        /\ i = Instructor.mk (Person.mk n a e) iid
                 (courses_or_empty (dict_get data "assigned_courses")).
Proof. exact (Instructor_from_dict_iff data i). Qed.

Lemma Student_from_dict_succeeds_witness :
  Student.from_dict
    [("name", VStr "Ann"); ("age", VStr " 20 "); ("email", VStr "ann@x.com");
     ("student_id", VInt 7); ("registered_courses", VNone)]
  = Ok (Student.mk (Person.mk "Ann" 20 "ann@x.com") (VInt 7) (VList [])).
Proof.
  apply (proj2 (Student_from_dict_succeeds _ _)).
  exists "Ann", (VStr " 20 "), 20, "ann@x.com", (VInt 7).
  repeat split; try reflexivity. discriminate.
Defined.

Lemma Instructor_from_dict_succeeds_witness :
  Instructor.from_dict
    [("name", VStr "Bob"); ("age", VInt 41); ("email", VStr "bob@x.com");
     ("instructor_id", VNone)]
  = Ok (Instructor.mk (Person.mk "Bob" 41 "bob@x.com") VNone (VList [])).
Proof.
  apply (proj2 (Instructor_from_dict_succeeds _ _)).
  exists "Bob", (VInt 41), 41, "bob@x.com", VNone.
  repeat split; reflexivity.
Defined.

(** A student comes back from its own serialization exactly when its
    name, age and address satisfy the validators and neither its
    identifier nor its course list is null; an instructor, when its fields
    satisfy the validators and its course list is not null. *)
Theorem from_dict_to_dict_round_trip :
  (forall s, Student.from_dict (Student.to_dict s) = Ok s <-> valid_student s)
  /\ (forall i, Instructor.from_dict (Instructor.to_dict i) = Ok i
                <-> valid_instructor i).
Proof.
  split.
  - intros s. split.
    + intros H. apply Student_from_dict_iff in H
        as (n & va & a & e & sid & Hn & Halpha & Ha & Hva & He & Hve & Hs
            & Hnone & Heq).
      destruct s as [[n0 a0 e0] sid0 rc0]. cbn in Hn, Ha, He, Hs, Heq.
      injection Hn as <-. injection Ha as <-. injection He as <-.
      injection Hs as <-. injection Heq as Hage Hrc.
      unfold valid_student, valid_person.
      cbn [Student.person Student.student_id Student.registered_courses
             Person.name Person.age Person._email].
      repeat split.
      * apply validate_name_iff. auto.
      * rewrite Hva. congruence.
      * exact Hve.
      * destruct sid0; try reflexivity. congruence.
      * destruct rc0; try reflexivity. discriminate.
    + intros (Hp & Hid & Hrc). exact (Student_round_trip s Hp Hid Hrc).
  - intros i. split.
    + intros H. apply Instructor_from_dict_iff in H
        as (n & va & a & e & iid & Hn & Halpha & Ha & Hva & He & Hve & Hi & Heq).
      destruct i as [[n0 a0 e0] iid0 rc0]. cbn in Hn, Ha, He, Hi, Heq.
      injection Hn as <-. injection Ha as <-. injection He as <-.
      injection Hi as <-. injection Heq as Hage Hrc.
      unfold valid_instructor, valid_person.
      cbn [Instructor.person Instructor.assigned_courses
             Person.name Person.age Person._email].
      repeat split.
      * apply validate_name_iff. auto.
      * rewrite Hva. congruence.
      * exact Hve.
      * destruct rc0; try reflexivity. discriminate.
    + intros (Hp & Hrc). exact (Instructor_round_trip i Hp Hrc).
Qed.

Lemma from_dict_to_dict_round_trip_witness :
  Student.from_dict (Student.to_dict ann) = Ok ann
  /\ Instructor.from_dict (Instructor.to_dict bob) = Ok bob.
Proof.
  split.
  - apply (proj2 (proj1 from_dict_to_dict_round_trip ann)). repeat split.
  - apply (proj2 (proj2 from_dict_to_dict_round_trip bob)). repeat split.
Defined.

(** ** Courses *)

(** A course without an instructor, whose students are valid, is read
    back from its serialization with the same identifier and name, no
    instructor, and new student objects equal to the enrolled ones; the
    objects that existed are left as they were. *)
Theorem Course_round_trip_without_instructor
    (h : heap) (c : Course.t) (ss : list Student.t) :
  Course.instructor c = Val VNone ->
  refer_to h (Course.enrolled_students c) ss ->
  Forall valid_student ss ->
  exists d c',
    Course.to_dict h c = Ok d
    /\ Course.from_dict h d = Ok (h ++ map OStudent ss, c')
    /\ Course.course_id c' = Course.course_id c
    /\ Course.course_name c' = Course.course_name c
    /\ Course.instructor c' = Course.instructor c
    /\ refer_to (h ++ map OStudent ss) (Course.enrolled_students c') ss.
Proof.
  intros Hi Hss Hvalid.
  unfold Course.to_dict. rewrite Hi. cbn [obj_is_none is_none negb].
  cbn [bind]. rewrite (to_dict_of_students h _ ss Hss). cbn [bind].
  eexists. eexists. split; [reflexivity | ].
  unfold Course.from_dict. cbn -[Course.new_students].
  rewrite (new_students_of_dicts ss Hvalid). cbn [bind fst snd].
  split; [reflexivity | ].
  cbn [Course.init Course.course_id Course.course_name Course.instructor
         Course.enrolled_students].
  repeat split. apply new_students_refer.
Qed.

Lemma Course_round_trip_without_instructor_witness :
  exists d c',
    Course.to_dict sample_heap
      (Course.mk (VStr "C1") (VStr "Logic") (Val VNone) [Ref 0%nat]) = Ok d
    /\ Course.from_dict sample_heap d = Ok (sample_heap ++ [OStudent ann], c')
    /\ Course.course_id c' = VStr "C1"
    /\ Course.course_name c' = VStr "Logic"
    /\ Course.instructor c' = Val VNone
    /\ refer_to (sample_heap ++ [OStudent ann])
         (Course.enrolled_students c') [ann].
Proof.
  apply (Course_round_trip_without_instructor sample_heap
           (Course.mk (VStr "C1") (VStr "Logic") (Val VNone) [Ref 0%nat]) [ann]).
  - reflexivity.
  - constructor; [reflexivity | constructor].
  - constructor; [repeat split | constructor].
Defined.

Lemma obj_eq_ref_iff (a : addr) (y : pyobj) :
  obj_eq (Ref a) y = true <-> y = Ref a.
Proof.
  destruct y as [b | v]; simpl.
  - rewrite Nat.eqb_eq. split; congruence.
  - split; discriminate.
Qed.

Lemma existsb_obj_eq_In (a : addr) (l : list pyobj) :
  existsb (obj_eq (Ref a)) l = true <-> In (Ref a) l.
Proof.
  rewrite existsb_exists. split.
  - intros (y & Hy & Heq). apply obj_eq_ref_iff in Heq. congruence.
  - intros Hin. exists (Ref a). split; [exact Hin | apply obj_eq_refl_ref].
Qed.

(** [add_student] only ever appends its argument: the students enrolled
    before stay where they were, the argument is enrolled after a
    successful call, a list without repetitions stays without, every
    enrolled object is still a [Student], and identifier, name and
    instructor are untouched. *)
Theorem add_student_invariants (h : heap) (c : Course.t) (x : pyobj) :
  let c' := fst (Course.add_student h c x) in
  (Course.enrolled_students c' = Course.enrolled_students c
   \/ Course.enrolled_students c' = Course.enrolled_students c ++ [x])
  /\ (snd (Course.add_student h c x) = Ok tt ->
      In x (Course.enrolled_students c'))
  /\ (NoDup (Course.enrolled_students c) -> NoDup (Course.enrolled_students c'))
  /\ (Forall (fun y => is_Student h y = true) (Course.enrolled_students c) ->
      Forall (fun y => is_Student h y = true) (Course.enrolled_students c'))
  /\ Course.course_id c' = Course.course_id c
  /\ Course.course_name c' = Course.course_name c
  /\ Course.instructor c' = Course.instructor c.
Proof.
  unfold Course.add_student.
  destruct (is_Student h x) eqn:Hs; cbn [negb fst snd].
  - destruct (is_Student_ref h x Hs) as [a ->].
    destruct (existsb (obj_eq (Ref a)) (Course.enrolled_students c)) eqn:Hin;
      cbn [negb fst snd Course.enrolled_students Course.course_id
             Course.course_name Course.instructor].
    + apply existsb_obj_eq_In in Hin. repeat split; auto.
    + assert (Hout : ~ In (Ref a) (Course.enrolled_students c)).
      { intros H. apply existsb_obj_eq_In in H. congruence. }
      repeat split; auto.
      * intros _. apply in_or_app. right. left. reflexivity.
      * intros Hnd. apply NoDup_app; [exact Hnd | repeat constructor; tauto | ].
        intros y Hy [<- | []]. exact (Hout Hy).
      * intros Hall. apply Forall_app. split; [exact Hall | ].
        constructor; [exact Hs | constructor].
  - repeat split; auto. discriminate.
Qed.

Lemma add_student_invariants_witness :
  In (Ref 0%nat)
    (Course.enrolled_students (fst (Course.add_student sample_heap logic
                                      (Ref 0%nat))))
  /\ NoDup (Course.enrolled_students
              (fst (Course.add_student sample_heap logic_taught (Ref 0%nat)))).
Proof.
  split.
  - exact (proj1 (proj2 (add_student_invariants sample_heap logic (Ref 0%nat)))
             eq_refl).
  - apply (proj1 (proj2 (proj2 (add_student_invariants sample_heap logic_taught
                                  (Ref 0%nat))))).
    repeat constructor. simpl. tauto.
Defined.

(** ** Course lists of students and instructors *)

(** On a student whose [registered_courses] is a list, [register_course]
    succeeds; afterwards the course's identifier is in the list, the
    identifiers registered before are where they were, and the student's
    other fields are the same.  On any other [registered_courses] but a
    string or a dict it raises [TypeError] and changes nothing. *)
Theorem register_course_registers
    (C : Type) (HC : HasCourseId C) (s : Student.t) (course : C) :
  (forall l,
     Student.registered_courses s = VList l ->
     let s' := fst (Student.register_course s course) in
     snd (Student.register_course s course) = Ok tt
     /\ (exists l',
           Student.registered_courses s' = VList l'
           /\ (l' = l \/ l' = l ++ [get_course_id course])
           /\ existsb (py_eq (get_course_id course)) l' = true)
     /\ Student.person s' = Student.person s
     /\ Student.student_id s' = Student.student_id s)
  /\ (match Student.registered_courses s with
      | VNone | VBool _ | VInt _ => True
      | _ => False
      end ->
      Student.register_course s course = (s, Raise TypeError)).
Proof.
  unfold Student.register_course. split.
  - intros l Hl. rewrite Hl. cbn [py_contains py_append].
    destruct (existsb (py_eq (get_course_id course)) l) eqn:Hin;
      cbn [negb fst snd Student.registered_courses Student.person
             Student.student_id].
    + repeat split; auto. exists l. rewrite Hl. auto.
    + repeat split; auto. eexists. split; [reflexivity | ].
      split; [auto | ]. apply existsb_app_last. apply py_eq_refl.
  - destruct (Student.registered_courses s); intros H; try destruct H;
      reflexivity.
Qed.

Lemma register_course_registers_witness :
  snd (Student.register_course ann logic) = Ok tt
  /\ Student.register_course
       (Student.mk (Person.mk "Ann" 20 "ann@x.com") (VStr "S1") VNone) logic
     = (Student.mk (Person.mk "Ann" 20 "ann@x.com") (VStr "S1") VNone,
        Raise TypeError).
Proof.
  split.
  - exact (proj1 (proj1 (register_course_registers Course.t Course_HasCourseId
                           ann logic) [] eq_refl)).
  - exact (proj2 (register_course_registers Course.t Course_HasCourseId
                    (Student.mk (Person.mk "Ann" 20 "ann@x.com") (VStr "S1") VNone)
                    logic) I).
Defined.

(** [assign_course] does the same on [assigned_courses]. *)
Theorem assign_course_assigns
    (C : Type) (HC : HasCourseId C) (i : Instructor.t) (course : C) :
  (forall l,
     Instructor.assigned_courses i = VList l ->
     let i' := fst (Instructor.assign_course i course) in
     snd (Instructor.assign_course i course) = Ok tt
     /\ (exists l',
           Instructor.assigned_courses i' = VList l'
           /\ (l' = l \/ l' = l ++ [get_course_id course])
           /\ existsb (py_eq (get_course_id course)) l' = true)
     /\ Instructor.person i' = Instructor.person i
     /\ Instructor.instructor_id i' = Instructor.instructor_id i)
  /\ (match Instructor.assigned_courses i with
      | VNone | VBool _ | VInt _ => True
      | _ => False
      end ->
      Instructor.assign_course i course = (i, Raise TypeError)).
Proof.
  unfold Instructor.assign_course. split.
  - intros l Hl. rewrite Hl. cbn [py_contains py_append].
    destruct (existsb (py_eq (get_course_id course)) l) eqn:Hin;
      cbn [negb fst snd Instructor.assigned_courses Instructor.person
             Instructor.instructor_id].
    + repeat split; auto. exists l. rewrite Hl. auto.
    + repeat split; auto. eexists. split; [reflexivity | ].
      split; [auto | ]. apply existsb_app_last. apply py_eq_refl.
  - destruct (Instructor.assigned_courses i); intros H; try destruct H;
      reflexivity.
Qed.

Lemma assign_course_assigns_witness :
  snd (Instructor.assign_course bob logic) = Ok tt.
Proof.
  exact (proj1 (proj1 (assign_course_assigns Course.t Course_HasCourseId
                         bob logic) [] eq_refl)).
Defined.


(** ** More on saving to a JSON file *)

Lemma index_by_key_filter (key_field : string) (l : list pyval) :
  forall acc,
    DataManager.index_by_key acc (filter (is_keyed key_field) l) key_field
    = DataManager.index_by_key acc l key_field.
Proof.
  induction l as [ | x l IH]; intros acc; [reflexivity | ].
  destruct x as [ | b | z | f | s | l' | r]; simpl; try apply IH.
  unfold dict_has. destruct (dict_get r key_field) as [v | ] eqn:Hv; simpl.
  - rewrite Hv. destruct (str_of v); cbn [bind]; [apply IH | reflexivity].
  - apply IH.
Qed.

Lemma short_filter (f : pyval -> bool) (l : list pyval) :
  has_long_int (VList l) = false -> has_long_int (VList (filter f l)) = false.
Proof.
  rewrite !short_list, !Forall_forall. intros Hl x Hx.
  apply filter_In in Hx as [Hx _]. exact (Hl x Hx).
Qed.

(** [save_data] depends on the file through the index it builds only. *)
Lemma save_data_by_index {T} `{ToDict T} (fs fs' : files) (filename : string)
    (data : option (list (option T))) (key_field : string) :
  (existing <- DataManager.read_existing fs filename ;;
   DataManager.index_by_key [] existing key_field)
  = (existing <- DataManager.read_existing fs' filename ;;
     DataManager.index_by_key [] existing key_field) ->
  end_alike fs fs' filename
    (DataManager.save_data fs filename data key_field)
    (DataManager.save_data fs' filename data key_field).
Proof.
  intros Hindex. unfold DataManager.save_data.
  assert (Hassoc : forall fs0 : files,
            (existing <- DataManager.read_existing fs0 filename ;;
             by_key <- DataManager.index_by_key [] existing key_field ;;
             DataManager.merge_all by_key
               (match data with Some l => l | None => [] end) key_field)
            = (by_key <- (existing <- DataManager.read_existing fs0 filename ;;
                          DataManager.index_by_key [] existing key_field) ;;
               DataManager.merge_all by_key
                 (match data with Some l => l | None => [] end) key_field))
    by (intros fs0; destruct (DataManager.read_existing fs0 filename);
        reflexivity).
  rewrite !Hassoc, Hindex.
  match goal with
  | |- end_alike _ _ _ (match ?m with Ok _ => _ | Raise _ => _ end) _ =>
      destruct m as [by_key | e]
  end.
  - right. unfold open_dump. destruct (has_long_int _);
      eexists; eexists; split; reflexivity.
  - left. exists e. split; reflexivity.
Qed.

(** [save_data] takes a file that is missing, is UTF-8 text but not JSON,
    or is JSON but no list, for one that holds [[]]; and of a list it
    reads only the dicts that have the key field: it writes what it would
    write had the other entries never been there, so they are gone from
    the file afterwards.  On a file that is not UTF-8 text it raises
    [UnicodeDecodeError], and on one in which [json.load] meets an integer
    of more than 4300 digits [ValueError]; the file is then left as it
    was. *)
Theorem save_data_keeps_only_keyed_records {T} `{ToDict T}
    (fs : files) (filename : string) (data : option (list (option T)))
    (key_field : string) :
  ((fs filename = None
    \/ (exists c, fs filename = Some c /\ read_utf8 c = NotJson)
    \/ (exists c v, fs filename = Some c /\ read_utf8 c = Json v
                    /\ has_long_int v = false /\ forall l, v <> VList l)) ->
   end_alike fs (write_file fs filename (Dumped (VList []) false)) filename
     (DataManager.save_data fs filename data key_field)
     (DataManager.save_data
        (write_file fs filename (Dumped (VList []) false))
        filename data key_field))
  /\ (forall c l,
        fs filename = Some c ->
        read_utf8 c = Json (VList l) ->
        has_long_int (VList l) = false ->
        end_alike fs
          (write_file fs filename
             (Dumped (VList (filter (is_keyed key_field) l)) false))
          filename
          (DataManager.save_data fs filename data key_field)
          (DataManager.save_data
             (write_file fs filename
                (Dumped (VList (filter (is_keyed key_field) l)) false))
             filename data key_field))
  /\ (forall c,
        fs filename = Some c ->
        read_utf8 c = NotText ->
        DataManager.save_data fs filename data key_field
        = (fs, Raise UnicodeDecodeError))
  /\ (forall c,
        fs filename = Some c ->
        (exists v, read_utf8 c = Json v /\ has_long_int v = true)
        \/ (exists excess, read_utf8 c = LongBeforeFlaw excess) ->
        exists n,
          max_str_digits < n
          /\ DataManager.save_data fs filename data key_field
             = (fs, Raise (long_literal n))).
Proof.
  refine (conj _ (conj _ (conj _ _))).
  - intros Hfile. apply save_data_by_index.
    rewrite (read_existing_written fs filename [] eq_refl).
    unfold DataManager.read_existing, open_load.
    destruct Hfile as [-> | [(c & -> & ->) | (c & v & -> & -> & Hshort & Hv)]];
      try reflexivity.
    rewrite (json_load_short v Hshort).
    destruct v; try reflexivity. destruct (Hv l eq_refl).
  - intros c l Hc Hl Hshort. apply save_data_by_index.
    rewrite (read_existing_written fs filename _
               (short_filter (is_keyed key_field) l Hshort)).
    unfold DataManager.read_existing, open_load. rewrite Hc, Hl.
    rewrite (json_load_short _ Hshort). cbn [bind].
    symmetry. apply index_by_key_filter.
  - intros c Hc Hread. unfold DataManager.save_data, DataManager.read_existing,
      open_load. rewrite Hc, Hread. reflexivity.
  - intros c Hc Hread.
    destruct (proj2 (proj1 (proj2 (proj2 (proj2
                                             (json_load_cases (read_utf8 c))))))
                Hread) as (n & Hn & Hload).
    exists n. split; [exact Hn | ].
    unfold DataManager.save_data, DataManager.read_existing, open_load.
    rewrite Hc, Hload. reflexivity.
Qed.

Lemma save_data_keeps_only_keyed_records_witness :
  DataManager.save_data
    (write_file (fun _ => None) "students.json"
       (Dumped (VList [VStr "note"; VDict [("name", VStr "Zed")];
                       VDict zed_record]) false))
    "students.json" (Some [Some ann]) "student_id"
  = (write_file
       (write_file (fun _ => None) "students.json"
          (Dumped (VList [VStr "note"; VDict [("name", VStr "Zed")];
                          VDict zed_record]) false))
       "students.json"
       (Dumped (VList [VDict zed_record; VDict (Student.to_dict ann)]) false),
     Ok tt)
  /\ DataManager.save_data
       (write_file (fun _ => None) "students.json" (Bytes NotText NotText))
       "students.json" (Some [Some ann]) "student_id"
     = (write_file (fun _ => None) "students.json" (Bytes NotText NotText),
        Raise UnicodeDecodeError).
Proof.
  split.
  - destruct (proj1 (proj2 (save_data_keeps_only_keyed_records
                              (write_file (fun _ => None) "students.json"
                                 (Dumped (VList [VStr "note";
                                                 VDict [("name", VStr "Zed")];
                                                 VDict zed_record]) false))
                              "students.json" (Some [Some ann]) "student_id"))
                _ _ eq_refl eq_refl eq_refl)
      as [(e & Ha & _) | (c & r & Ha & _)]; [discriminate Ha | reflexivity].
  - exact (proj1 (proj2 (proj2 (save_data_keeps_only_keyed_records
                                  (write_file (fun _ => None) "students.json"
                                     (Bytes NotText NotText))
                                  "students.json" (Some [Some ann])
                                  "student_id")))
             _ eq_refl eq_refl).
Defined.

Lemma dict_update_fresh (acc r : pydict) :
  NoDup (dict_keys (acc ++ r)) -> dict_update acc r = acc ++ r.
Proof.
  unfold dict_update. revert acc.
  induction r as [ | [k v] r IH]; intros acc Hkeys; simpl.
  - rewrite app_nil_r. reflexivity.
  - assert (Hnew : ~ In k (dict_keys acc)).
    { unfold dict_keys in *. rewrite map_app in Hkeys.
      apply NoDup_remove_2 in Hkeys. intros Hin. apply Hkeys.
      apply in_or_app. left. exact Hin. }
    rewrite (dict_set_new acc k v Hnew). rewrite IH.
    + rewrite <- app_assoc. reflexivity.
    + rewrite <- app_assoc. exact Hkeys.
Qed.

Lemma apply_changes_app {V} (cs1 cs2 : list (@change V)) (d : list (string * V)) :
  apply_changes (cs1 ++ cs2) d = apply_changes cs2 (apply_changes cs1 d).
Proof. unfold apply_changes. apply fold_left_app. Qed.

Lemma apply_change_fresh (key_field : string) (r : pydict)
    (acc : list (string * pydict)) :
  NoDup (dict_keys r) ->
  key_of key_field r <> "" ->
  ~ In (key_of key_field r) (dict_keys acc) ->
  apply_changes (merge_changes key_field [r]) acc
  = acc ++ [(key_of key_field r, r)].
Proof.
  intros Hr Hk Hnew. unfold merge_changes. cbn [filter].
  apply String.eqb_neq in Hk. rewrite Hk. cbn [negb map].
  unfold apply_changes, merge_change. cbn [fold_left].
  unfold apply_change. cbn [fst snd]. unfold pydict in *.
  rewrite (proj2 (dict_get_None_keys acc _) Hnew).
  rewrite (dict_set_new acc _ _ Hnew).
  rewrite (dict_update_fresh [] r) by exact Hr. reflexivity.
Qed.

(** Records with distinct, non-empty keys are filed one after the other. *)
Lemma apply_changes_fresh (key_field : string) (records : list pydict) :
  Forall (fun r => NoDup (dict_keys r)) records ->
  Forall (fun r => key_of key_field r <> "") records ->
  forall acc,
    NoDup (dict_keys acc ++ map (key_of key_field) records) ->
    apply_changes (merge_changes key_field records) acc
    = acc ++ map (fun r => (key_of key_field r, r)) records.
Proof.
  induction records as [ | r records IH]; intros Hdict Hkey acc Hnd.
  - simpl. rewrite app_nil_r. reflexivity.
  - inversion Hdict as [ | ? ? Hr Hdict']; subst.
    inversion Hkey as [ | ? ? Hk Hkey']; subst.
    assert (Hnew : ~ In (key_of key_field r) (dict_keys acc)).
    { simpl in Hnd. apply NoDup_remove_2 in Hnd. intros Hin. apply Hnd.
      apply in_or_app. left. exact Hin. }
    rewrite merge_changes_cons, apply_changes_app.
    rewrite (apply_change_fresh key_field r acc Hr Hk Hnew).
    rewrite IH; try assumption.
    + rewrite <- app_assoc. reflexivity.
    + unfold dict_keys in *. rewrite map_app. simpl.
      rewrite <- app_assoc. simpl. exact Hnd.
Qed.

Lemma Student_to_dict_key (s : Student.t) :
  key_of "student_id" (Student.to_dict s) = py_str (Student.student_id s)
  /\ NoDup (dict_keys (Student.to_dict s)).
Proof.
  destruct s as [[n a e] sid rc]. split; [reflexivity | ].
  simpl. repeat constructor; simpl; intuition discriminate.
Qed.

Lemma records_of_students (ss : list Student.t) :
  records_of (map Some ss) = Ok (map Student.to_dict ss).
Proof.
  induction ss as [ | s ss IH]; [reflexivity | ].
  simpl. rewrite IH. reflexivity.
Qed.

Lemma read_locale_dumped (loc : locale) (v : pyval) :
  is_utf8 loc = true \/ ascii_only v = true ->
  read_locale loc (Dumped v false) = Json v.
Proof.
  unfold read_locale. intros [-> | Hascii]; [reflexivity | ].
  rewrite Hascii. destruct (is_utf8 loc); reflexivity.
Qed.

(** Students that are valid, with distinct non-empty identifiers and no
    integer of more than 4300 digits in their fields, saved to a file
    that does not exist yet, are what the file gives back when the
    encoding of the locale is UTF-8, in which [save_data] writes, or their
    fields have ASCII characters only: [load_json] returns their
    serializations in the order they were saved, and [Student.from_dict]
    turns each into the student it came from. *)
Theorem save_then_load_students
    (loc : locale) (fs : files) (filename : string) (ss : list Student.t) :
  fs filename = None ->
  Forall valid_student ss ->
  NoDup (map (fun s => py_str (Student.student_id s)) ss) ->
  Forall (fun s => py_str (Student.student_id s) <> "") ss ->
  has_long_int (VList (student_dicts ss)) = false ->
  is_utf8 loc = true \/ ascii_only (VList (student_dicts ss)) = true ->
  exists fs1,
    DataManager.save_data fs filename (Some (map Some ss)) "student_id"
    = (fs1, Ok tt)
    /\ DataManager.load_json loc fs1 filename = Ok (VList (student_dicts ss))
    /\ Forall2 (fun d s => exists r, d = VDict r /\ Student.from_dict r = Ok s)
         (student_dicts ss) ss.
Proof.
  intros Hnone Hvalid Hnd Hne Hshort Hread.
  assert (Hfile : missing_or_text fs filename)
    by (unfold missing_or_text; rewrite Hnone; exact I).
  assert (Hrecords : Forall (fun r => has_long_int (VDict r) = false)
                       (map Student.to_dict ss)).
  { apply short_records. unfold student_dicts in Hshort.
    rewrite map_map. exact Hshort. }
  destruct (save_data_writes fs filename "student_id" (map Some ss)
              (map Student.to_dict ss) Hfile (records_of_students ss) Hrecords)
    as [_ Hsave].
  assert (Hwritten :
            map VDict
              (dict_values
                 (apply_changes
                    (merge_changes "student_id" (map Student.to_dict ss))
                    (file_index fs filename "student_id")))
            = student_dicts ss).
  { unfold file_index, existing_records, DataManager.read_existing, open_load.
    rewrite Hnone. cbn [indexed].
    rewrite apply_changes_fresh.
    - unfold dict_values, student_dicts. simpl app.
      rewrite !map_map. reflexivity.
    - apply Forall_forall. intros r Hr. apply in_map_iff in Hr as (s & <- & _).
      apply Student_to_dict_key.
    - apply Forall_forall. intros r Hr. apply in_map_iff in Hr as (s & <- & Hs).
      rewrite (proj1 (Student_to_dict_key s)).
      rewrite Forall_forall in Hne. apply Hne. exact Hs.
    - simpl. rewrite map_map.
      erewrite map_ext; [exact Hnd | ].
      intros s. apply Student_to_dict_key. }
  rewrite Hwritten in Hsave.
  eexists. split; [exact Hsave | ]. split.
  - unfold DataManager.load_json, open_load. rewrite write_file_read.
    rewrite (read_locale_dumped loc _ Hread).
    apply json_load_short. exact Hshort.
  - clear Hsave Hwritten Hrecords Hshort Hread.
    unfold student_dicts. induction Hvalid as [ | s ss' (Hp & Hid & Hrc) _ IH];
      simpl; constructor.
    + eexists. split; [reflexivity | ]. apply Student_round_trip; assumption.
    + apply IH.
      * inversion Hnd; assumption.
      * inversion Hne; assumption.
Qed.

Lemma save_then_load_students_witness :
  exists fs1,
    DataManager.save_data (fun _ => None) "students.json"
      (Some (map Some [ann; same_email])) "student_id" = (fs1, Ok tt)
    /\ DataManager.load_json other_locale fs1 "students.json"
       = Ok (VList (student_dicts [ann; same_email]))
    /\ Forall2 (fun d s => exists r, d = VDict r /\ Student.from_dict r = Ok s)
         (student_dicts [ann; same_email]) [ann; same_email].
Proof.
  apply (save_then_load_students other_locale (fun _ => None) "students.json"
           [ann; same_email]).
  - reflexivity.
  - repeat constructor.
  - repeat constructor; simpl; intuition discriminate.
  - repeat constructor; discriminate.
  - reflexivity.
  - right. reflexivity.
Defined.

(** ** The tables of the SQLite store *)

Lemma existsb_false_In {A} (p : A -> bool) (l : list A) :
  existsb p l = false <-> forall x, In x l -> p x = false.
Proof.
  split.
  - intros H x Hx. destruct (p x) eqn:E; [ | reflexivity].
    rewrite (existsb_of_In p l x Hx E) in H. discriminate.
  - intros H. induction l as [ | y l IH]; [reflexivity | ]. simpl.
    rewrite (H y (or_introl eq_refl)). apply IH.
    intros x Hx. apply H. right. exact Hx.
Qed.

Lemma sql_is_null_false (v : sqlval) : sql_is_null v = false <-> v <> SNull.
Proof. destruct v; simpl; split; congruence. Qed.

Lemma sql_eq_refl (v : sqlval) :
  text_affinity v <> SNull -> sql_eq (text_affinity v) (text_affinity v) = true.
Proof.
  destruct v; simpl; intros H; try apply String.eqb_refl. congruence.
Qed.

Lemma text_affinity_null (v : sqlval) : text_affinity v = SNull <-> v = SNull.
Proof. destruct v; simpl; split; congruence. Qed.

Lemma pairwise_false_app_last {R} (same : R -> R -> bool) (rows : list R)
    (r : R) :
  pairwise_false same rows ->
  (forall r', In r' rows -> same r' r = false) ->
  pairwise_false same (rows ++ [r]).
Proof.
  induction rows as [ | x rows IH]; simpl.
  - intros _ _. split; [intros r' [] | exact I].
  - intros [Hx Hrows] Hr. split.
    + intros r' Hin. apply in_app_or in Hin as [Hin | [<- | []]].
      * apply Hx, Hin.
      * apply Hr. left. reflexivity.
    + apply IH; [exact Hrows | ]. intros r' Hin. apply Hr. right. exact Hin.
Qed.

Lemma pairwise_false_filter {R} (same : R -> R -> bool) (p : R -> bool)
    (rows : list R) :
  pairwise_false same rows -> pairwise_false same (filter p rows).
Proof.
  induction rows as [ | x rows IH]; simpl; [auto | ].
  intros [Hx Hrows]. destruct (p x); simpl.
  - split; [ | apply IH, Hrows].
    intros r' Hin. apply filter_In in Hin as [Hin _]. apply Hx, Hin.
  - apply IH, Hrows.
Qed.

(** What a successful [INSERT] of a person found and left. *)
Lemma insert_person_Ok (table id_column : string) (rows rows' : list person_row)
    (r : person_row) :
  DatabaseManager.insert_person table id_column rows r = Ok rows' ->
  rows' = rows ++ [r]
  /\ (row_name r <> SNull /\ row_age r <> SNull /\ row_email r <> SNull)
  /\ (forall r', In r' rows -> sql_eq (row_id r') (row_id r) = false)
  /\ (forall r', In r' rows -> sql_eq (row_email r') (row_email r) = false).
Proof.
  unfold DatabaseManager.insert_person.
  destruct (sql_is_null (row_name r)) eqn:Hn; [discriminate | ].
  destruct (sql_is_null (row_age r)) eqn:Ha; [discriminate | ].
  destruct (sql_is_null (row_email r)) eqn:He; [discriminate | ].
  destruct (existsb (fun r' => sql_eq (row_email r') (row_email r)) rows)
    eqn:Hem; [discriminate | ].
  destruct (existsb (fun r' => sql_eq (row_id r') (row_id r)) rows) eqn:Hid;
    [discriminate | ].
  intros H. injection H as <-.
  apply sql_is_null_false in Hn, Ha, He.
  refine (conj eq_refl (conj (conj Hn (conj Ha He)) (conj _ _))).
  - exact (proj1 (existsb_false_In _ _) Hid).
  - exact (proj1 (existsb_false_In _ _) Hem).
Qed.

(** An [INSERT] of a person fails with an [IntegrityError] or not at all. *)
Lemma insert_person_Raise (table id_column : string) (rows : list person_row)
    (r : person_row) (e : exn) :
  DatabaseManager.insert_person table id_column rows r = Raise e ->
  exists msg, e = IntegrityError msg.
Proof.
  unfold DatabaseManager.insert_person.
  repeat match goal with
         | |- context [if ?b then _ else _] => destruct b
         end;
    intros H; try discriminate; injection H as <-; eexists; reflexivity.
Qed.

Lemma insert_person_unique (table id_column : string) (rows rows' : list person_row)
    (r : person_row) :
  DatabaseManager.insert_person table id_column rows r = Ok rows' ->
  pairwise_false (same_on row_id) rows ->
  pairwise_false (same_on row_email) rows ->
  pairwise_false (same_on row_id) rows'
  /\ pairwise_false (same_on row_email) rows'.
Proof.
  intros H Hid Hem. apply insert_person_Ok in H as (-> & _ & Hid' & Hem').
  split; apply pairwise_false_app_last; assumption.
Qed.

Lemma insert_link_Ok (table person_column : string) (rows rows' : list link_row)
    (person_id course_id : pyval) :
  DatabaseManager.insert_link table person_column rows person_id course_id
  = Ok rows' ->
  exists p c,
    sql_bind person_id = Ok p /\ sql_bind course_id = Ok c
    /\ rows' = rows ++ [mk_link_row (text_affinity p) (text_affinity c)]
    /\ forall r', In r' rows ->
         same_link r' (mk_link_row (text_affinity p) (text_affinity c)) = false.
Proof.
  unfold DatabaseManager.insert_link.
  destruct (sql_bind person_id) as [p | ]; [ | discriminate].
  destruct (sql_bind course_id) as [c | ]; [ | discriminate].
  cbn [bind link_person_id link_course_id].
  destruct (existsb _ rows) eqn:Hex; [discriminate | ].
  intros H. injection H as <-. exists p, c.
  refine (conj eq_refl (conj eq_refl (conj eq_refl _))).
  exact (proj1 (existsb_false_In _ _) Hex).
Qed.

Lemma add_course_rows (db : database) (course : Course.t) :
  (exists i n,
     sql_bind (Course.course_id course) = Ok i
     /\ sql_bind (Course.course_name course) = Ok n
     /\ text_affinity n <> SNull
     /\ (forall r', In r' (courses db) ->
           sql_eq (row_course_id r') (text_affinity i) = false)
     /\ DatabaseManager.add_course db course
        = (mk_database (students db) (instructors db)
             (courses db ++ [mk_course_row (text_affinity i) (text_affinity n)])
             (student_courses db) (instructor_courses db), Ok tt))
  \/ (exists e, DatabaseManager.add_course db course = (db, Raise e)).
Proof.
  unfold DatabaseManager.add_course.
  destruct (sql_bind (Course.course_id course)) as [i | e];
    [ | right; destruct e; eexists; reflexivity].
  destruct (sql_bind (Course.course_name course)) as [n | e];
    [ | right; destruct e; eexists; reflexivity].
  cbn [bind row_course_name row_course_id].
  destruct (sql_is_null (text_affinity n)) eqn:Hn;
    [right; eexists; reflexivity | ].
  destruct (existsb _ (courses db)) eqn:Hex; [right; eexists; reflexivity | ].
  left. exists i, n. apply sql_is_null_false in Hn.
  refine (conj eq_refl (conj eq_refl (conj Hn (conj _ eq_refl)))).
  exact (proj1 (existsb_false_In _ _) Hex).
Qed.

Lemma run_keeps_keys_unique (db : database) (c : command) :
  keys_unique db -> keys_unique (fst (run db c)).
Proof.
  intros (Hs & Hse & Hi & Hie & Hc & Hsc & Hic).
  destruct c as [s | i | c | id | id | id | s c | i c]; cbn [run].
  - unfold DatabaseManager.add_student.
    destruct (DatabaseManager.person_params _ _) as [r | e]; cbn [bind].
    + destruct (DatabaseManager.insert_person _ _ _ r) as [rows | e] eqn:E.
      * destruct (insert_person_unique _ _ _ _ _ E Hs Hse) as [H1 H2].
        repeat split; assumption.
      * destruct e; repeat split; assumption.
    + destruct e; repeat split; assumption.
  - unfold DatabaseManager.add_instructor.
    destruct (DatabaseManager.person_params _ _) as [r | e]; cbn [bind].
    + destruct (DatabaseManager.insert_person _ _ _ r) as [rows | e] eqn:E.
      * destruct (insert_person_unique _ _ _ _ _ E Hi Hie) as [H1 H2].
        repeat split; assumption.
      * destruct e; repeat split; assumption.
    + destruct e; repeat split; assumption.
  - destruct (add_course_rows db c) as [(i & n & _ & _ & _ & Hnew & ->) | (e & ->)];
      cbn [fst]; [ | repeat split; assumption].
    repeat split; try assumption.
    apply pairwise_false_app_last; [exact Hc | exact Hnew].
  - unfold DatabaseManager.delete_student.
    destruct (sql_bind id); cbn [fst]; repeat split; try assumption;
      apply pairwise_false_filter; assumption.
  - unfold DatabaseManager.delete_instructor.
    destruct (sql_bind id); cbn [fst]; repeat split; try assumption;
      apply pairwise_false_filter; assumption.
  - unfold DatabaseManager.delete_course.
    destruct (sql_bind id); cbn [fst]; repeat split; try assumption;
      apply pairwise_false_filter; assumption.
  - unfold DatabaseManager.register_student_course.
    destruct (DatabaseManager.insert_link _ _ _ s c) as [rows | e] eqn:E.
    + apply insert_link_Ok in E as (p & c' & _ & _ & -> & Hnew).
      repeat split; try assumption.
      apply pairwise_false_app_last; assumption.
    + destruct e; repeat split; assumption.
  - unfold DatabaseManager.assign_instructor_course.
    destruct (DatabaseManager.insert_link _ _ _ i c) as [rows | e] eqn:E.
    + apply insert_link_Ok in E as (p & c' & _ & _ & -> & Hnew).
      repeat split; try assumption.
      apply pairwise_false_app_last; assumption.
    + destruct e; repeat split; assumption.
Qed.

Lemma not_null_app_last {R} (P : R -> Prop) (rows : list R) (r : R) :
  (forall r', In r' rows -> P r') -> P r ->
  forall r', In r' (rows ++ [r]) -> P r'.
Proof.
  intros Hrows Hr r' Hin. apply in_app_or in Hin as [Hin | [<- | []]]; auto.
Qed.

Lemma not_null_filter {R} (P : R -> Prop) (p : R -> bool) (rows : list R) :
  (forall r', In r' rows -> P r') ->
  forall r', In r' (filter p rows) -> P r'.
Proof. intros Hrows r' Hin. apply filter_In in Hin as [Hin _]. auto. Qed.

Lemma run_keeps_not_null (db : database) (c : command) :
  not_null_kept db -> not_null_kept (fst (run db c)).
Proof.
  intros (Hs & Hi & Hc).
  destruct c as [s | i | c | id | id | id | s c | i c]; cbn [run].
  - unfold DatabaseManager.add_student.
    destruct (DatabaseManager.person_params _ _) as [r | e]; cbn [bind].
    + destruct (DatabaseManager.insert_person _ _ _ r) as [rows | e] eqn:E.
      * apply insert_person_Ok in E as (-> & Hr & _).
        refine (conj _ (conj Hi Hc)). cbn [fst students].
        apply not_null_app_last; assumption.
      * destruct e; exact (conj Hs (conj Hi Hc)).
    + destruct e; exact (conj Hs (conj Hi Hc)).
  - unfold DatabaseManager.add_instructor.
    destruct (DatabaseManager.person_params _ _) as [r | e]; cbn [bind].
    + destruct (DatabaseManager.insert_person _ _ _ r) as [rows | e] eqn:E.
      * apply insert_person_Ok in E as (-> & Hr & _).
        refine (conj Hs (conj _ Hc)). cbn [fst instructors].
        apply not_null_app_last; assumption.
      * destruct e; exact (conj Hs (conj Hi Hc)).
    + destruct e; exact (conj Hs (conj Hi Hc)).
  - destruct (add_course_rows db c) as [(i & n & _ & _ & Hn & _ & ->) | (e & ->)];
      cbn [fst]; [ | exact (conj Hs (conj Hi Hc))].
    refine (conj Hs (conj Hi _)). cbn [courses].
    apply not_null_app_last; [exact Hc | exact Hn].
  - unfold DatabaseManager.delete_student.
    destruct (sql_bind id); cbn [fst]; [ | exact (conj Hs (conj Hi Hc))].
    refine (conj _ (conj Hi Hc)). cbn [students].
    apply not_null_filter. exact Hs.
  - unfold DatabaseManager.delete_instructor.
    destruct (sql_bind id); cbn [fst]; [ | exact (conj Hs (conj Hi Hc))].
    refine (conj Hs (conj _ Hc)). cbn [instructors].
    apply not_null_filter. exact Hi.
  - unfold DatabaseManager.delete_course.
    destruct (sql_bind id); cbn [fst]; [ | exact (conj Hs (conj Hi Hc))].
    refine (conj Hs (conj Hi _)). cbn [courses].
    apply not_null_filter. exact Hc.
  - unfold DatabaseManager.register_student_course.
    destruct (DatabaseManager.insert_link _ _ _ s c) as [rows | e];
      [ | destruct e]; exact (conj Hs (conj Hi Hc)).
  - unfold DatabaseManager.assign_instructor_course.
    destruct (DatabaseManager.insert_link _ _ _ i c) as [rows | e];
      [ | destruct e]; exact (conj Hs (conj Hi Hc)).
Qed.

(** Whatever calls are made and whatever they raise, the tables keep what
    the schema declares: no two students and no two instructors share a
    non-null identifier or an address, no two courses share a non-null
    identifier, no two registrations and no two assignments have the same
    two identifiers when neither identifier is null, and no name, age,
    address or course name is null.  A pair of identifiers with a null in
    it can be stored any number of times: in a key SQLite takes NULLs for
    distinct. *)
Theorem calls_keep_the_schema (db : database) (cs : list command) :
  keys_unique db -> not_null_kept db ->
  keys_unique (run_all db cs) /\ not_null_kept (run_all db cs).
Proof.
  unfold run_all. revert db. induction cs as [ | c cs IH]; intros db Hk Hn.
  - split; assumption.
  - simpl. apply IH.
    + apply run_keeps_keys_unique. exact Hk.
    + apply run_keeps_not_null. exact Hn.
Qed.

Lemma calls_keep_the_schema_witness :
  let db :=
    run_all empty_database
      [AddStudent ann; AddStudent same_email; AddStudent same_id;
       RegisterStudentCourse (VStr "S1") (VStr "C1");
       RegisterStudentCourse (VStr "S1") (VStr "C1");
       DeleteStudent (VInt 7)] in
  keys_unique db /\ not_null_kept db.
Proof.
  apply (calls_keep_the_schema empty_database).
  - cbv. tauto.
  - cbv. tauto.
Defined.

Lemma sql_bind_null (x : pyval) :
  sql_bind x = Ok SNull -> binds_null x = true.
Proof.
  destruct x; simpl; try discriminate; try reflexivity.
  - destruct (andb _ _); discriminate.
  - destruct (float_is_nan f); [reflexivity | discriminate].
Qed.

Lemma binds_null_bind (x : pyval) :
  binds_null x = true -> sql_bind x = Ok SNull.
Proof.
  destruct x; simpl; try discriminate; try reflexivity.
  intros ->. reflexivity.
Qed.

Lemma person_params_Ok (id : pyval) (p : Person.t) (r : person_row) :
  DatabaseManager.person_params id p = Ok r ->
  exists v,
    sql_bind id = Ok v
    /\ r = mk_person_row (text_affinity v) (SText (Person.name p))
             (SInt (Person.age p)) (SText (Person.get_email p)).
Proof.
  unfold DatabaseManager.person_params.
  destruct (sql_bind id) as [v | ]; [ | discriminate].
  cbn [bind sql_bind]. destruct (andb _ _); [ | discriminate].
  cbn [bind text_affinity]. intros H. injection H as <-.
  exists v. split; reflexivity.
Qed.

(** An [INSERT] of a person whose identifier or address is stored fails on
    a [UNIQUE] constraint. *)
Lemma insert_person_duplicate (table id_column : string)
    (rows : list person_row) (r r' : person_row) :
  sql_is_null (row_name r) = false ->
  sql_is_null (row_age r) = false ->
  sql_is_null (row_email r) = false ->
  In r' rows ->
  sql_eq (row_id r') (row_id r) = true
  \/ sql_eq (row_email r') (row_email r) = true ->
  exists msg,
    DatabaseManager.insert_person table id_column rows r
    = Raise (IntegrityError msg).
Proof.
  intros Hn Ha He Hin Hdup. unfold DatabaseManager.insert_person.
  rewrite Hn, Ha, He.
  destruct (existsb (fun r0 => sql_eq (row_email r0) (row_email r)) rows)
    eqn:Hem; [eexists; reflexivity | ].
  destruct Hdup as [Hdup | Hdup].
  - rewrite (existsb_of_In (fun r0 => sql_eq (row_id r0) (row_id r))
               _ r' Hin Hdup).
    eexists. reflexivity.
  - rewrite (existsb_of_In _ _ r' Hin Hdup) in Hem. discriminate.
Qed.

Lemma add_student_Ok (db db' : database) (s : Student.t) :
  DatabaseManager.add_student db s = (db', Ok tt) ->
  exists r,
    DatabaseManager.person_params (Student.student_id s) (Student.person s)
    = Ok r
    /\ DatabaseManager.insert_person "students" "student_id" (students db) r
       = Ok (students db ++ [r])
    /\ db' = mk_database (students db ++ [r]) (instructors db) (courses db)
               (student_courses db) (instructor_courses db).
Proof.
  unfold DatabaseManager.add_student.
  destruct (DatabaseManager.person_params _ _) as [r | e]; cbn [bind].
  - destruct (DatabaseManager.insert_person _ _ _ r) as [rows | e] eqn:E.
    + intros H. injection H as <-. exists r.
      pose proof (insert_person_Ok _ _ _ _ _ E) as (-> & _).
      split; [reflexivity | split; [exact E | reflexivity]].
    + destruct e; discriminate.
  - destruct e; discriminate.
Qed.

Lemma add_instructor_Ok (db db' : database) (i : Instructor.t) :
  DatabaseManager.add_instructor db i = (db', Ok tt) ->
  exists r,
    DatabaseManager.person_params (Instructor.instructor_id i)
      (Instructor.person i) = Ok r
    /\ DatabaseManager.insert_person "instructors" "instructor_id"
         (instructors db) r = Ok (instructors db ++ [r])
    /\ db' = mk_database (students db) (instructors db ++ [r]) (courses db)
               (student_courses db) (instructor_courses db).
Proof.
  unfold DatabaseManager.add_instructor.
  destruct (DatabaseManager.person_params _ _) as [r | e]; cbn [bind].
  - destruct (DatabaseManager.insert_person _ _ _ r) as [rows | e] eqn:E.
    + intros H. injection H as <-. exists r.
      pose proof (insert_person_Ok _ _ _ _ _ E) as (-> & _).
      split; [reflexivity | split; [exact E | reflexivity]].
    + destruct e; discriminate.
  - destruct e; discriminate.
Qed.

(** The row a person was stored as clashes with the row of a person who
    has the same address or the same identifier, unless that is bound as
    NULL. *)
Lemma person_params_clash (id id2 : pyval) (p p2 : Person.t) (r r2 : person_row) :
  DatabaseManager.person_params id p = Ok r ->
  DatabaseManager.person_params id2 p2 = Ok r2 ->
  Person.get_email p2 = Person.get_email p
  \/ (id2 = id /\ binds_null id = false) ->
  sql_eq (row_id r) (row_id r2) = true
  \/ sql_eq (row_email r) (row_email r2) = true.
Proof.
  intros Hr Hr2 Hsame.
  apply person_params_Ok in Hr as (v & Hv & ->).
  apply person_params_Ok in Hr2 as (v2 & Hv2 & ->).
  cbn [row_id row_email]. destruct Hsame as [-> | [-> Hid]].
  - right. simpl. apply String.eqb_refl.
  - left. assert (Heq : v2 = v) by congruence. rewrite Heq.
    apply sql_eq_refl. intros Hnull.
    apply (proj1 (text_affinity_null v)) in Hnull.
    rewrite sql_bind_null in Hid; [discriminate | congruence].
Qed.

(** Once a student is stored, [add_student] refuses every student with the
    same address, and every student with the same identifier unless the
    identifier is [None] or a NaN, which are both stored as NULL: it
    raises [ValueError] and stores nothing.  In particular the same
    student cannot be stored twice.  [add_instructor] does the same for
    instructors. *)
Theorem add_twice_is_refused (db db' : database) :
  (forall s s2 r2,
     DatabaseManager.add_student db s = (db', Ok tt) ->
     DatabaseManager.person_params (Student.student_id s2) (Student.person s2)
     = Ok r2 ->
     Person.get_email (Student.person s2) = Person.get_email (Student.person s)
     \/ (Student.student_id s2 = Student.student_id s
         /\ binds_null (Student.student_id s) = false) ->
     exists msg,
       DatabaseManager.add_student db' s2 = (db', Raise (ValueError msg)))
  /\ (forall i i2 r2,
        DatabaseManager.add_instructor db i = (db', Ok tt) ->
        DatabaseManager.person_params (Instructor.instructor_id i2)
          (Instructor.person i2) = Ok r2 ->
        Person.get_email (Instructor.person i2)
        = Person.get_email (Instructor.person i)
        \/ (Instructor.instructor_id i2 = Instructor.instructor_id i
            /\ binds_null (Instructor.instructor_id i) = false) ->
        exists msg,
          DatabaseManager.add_instructor db' i2 = (db', Raise (ValueError msg))).
Proof.
  split.
  - intros s s2 r2 Hadd Hr2 Hsame.
    apply add_student_Ok in Hadd as (r & Hr & _ & ->).
    pose proof (person_params_clash _ _ _ _ _ _ Hr Hr2 Hsame) as Hclash.
    destruct (person_params_not_null _ _ _ Hr2) as (Hn & Ha & He).
    unfold DatabaseManager.add_student. rewrite Hr2. cbn [bind students].
    destruct (insert_person_duplicate "students" "student_id"
                (students db ++ [r]) r2 r Hn Ha He
                (in_elt r _ []) Hclash)
      as (msg & ->).
    eexists. reflexivity.
  - intros i i2 r2 Hadd Hr2 Hsame.
    apply add_instructor_Ok in Hadd as (r & Hr & _ & ->).
    pose proof (person_params_clash _ _ _ _ _ _ Hr Hr2 Hsame) as Hclash.
    destruct (person_params_not_null _ _ _ Hr2) as (Hn & Ha & He).
    unfold DatabaseManager.add_instructor. rewrite Hr2. cbn [bind instructors].
    destruct (insert_person_duplicate "instructors" "instructor_id"
                (instructors db ++ [r]) r2 r Hn Ha He
                (in_elt r _ []) Hclash)
      as (msg & ->).
    eexists. reflexivity.
Qed.

Lemma add_twice_is_refused_witness :
  exists msg,
    DatabaseManager.add_student
      (fst (DatabaseManager.add_student empty_database ann)) same_email
    = (fst (DatabaseManager.add_student empty_database ann),
       Raise (ValueError msg)).
Proof.
  exact (proj1 (add_twice_is_refused empty_database
                  (fst (DatabaseManager.add_student empty_database ann)))
           ann same_email
           (mk_person_row (SText "S2") (SText "Anna") (SInt 22)
              (SText "ann@x.com"))
           eq_refl eq_refl (or_introl eq_refl)).
Defined.

Lemma sql_eq_null_r (a : sqlval) : sql_eq a SNull = false.
Proof. destruct a; reflexivity. Qed.

(** [add_course] on a course whose name is [None] raises a [ValueError]
    that says the course already exists, whatever is stored, also when
    nothing is.  On a course with a name it succeeds exactly when no stored
    course has its identifier, so that a course whose identifier is [None]
    is stored every time; the row is added after the others, and a call
    that raises changes nothing. *)
Theorem add_course_outcomes (db : database) (c : Course.t) (i n : sqlval) :
  sql_bind (Course.course_id c) = Ok i ->
  sql_bind (Course.course_name c) = Ok n ->
  (n = SNull ->
   DatabaseManager.add_course db c
   = (db, Raise (ValueError
        "Course already exists: NOT NULL constraint failed: courses.course_name")))
  /\ (n <> SNull ->
      (snd (DatabaseManager.add_course db c) = Ok tt <->
       forall r, In r (courses db) ->
                 sql_eq (row_course_id r) (text_affinity i) = false)
      /\ (i = SNull -> snd (DatabaseManager.add_course db c) = Ok tt)
      /\ (snd (DatabaseManager.add_course db c) = Ok tt ->
          fst (DatabaseManager.add_course db c)
          = mk_database (students db) (instructors db)
              (courses db ++ [mk_course_row (text_affinity i) (text_affinity n)])
              (student_courses db) (instructor_courses db))
      /\ (snd (DatabaseManager.add_course db c) <> Ok tt ->
          DatabaseManager.add_course db c
          = (db, Raise (ValueError
               "Course already exists: UNIQUE constraint failed: courses.course_id")))).
Proof.
  intros Hi Hn. unfold DatabaseManager.add_course. rewrite Hi, Hn.
  cbn [bind row_course_name row_course_id]. split.
  - intros ->. reflexivity.
  - intros Hnn.
    assert (Hnull : sql_is_null (text_affinity n) = false).
    { apply sql_is_null_false. intros H.
      apply Hnn. exact (proj1 (text_affinity_null n) H). }
    rewrite Hnull.
    destruct (existsb (fun r' => sql_eq (row_course_id r') (text_affinity i))
                (courses db)) eqn:Hex; cbn [fst snd].
    + refine (conj _ (conj _ (conj _ _))).
      * split; [discriminate | ]. intros Hall.
        rewrite (proj2 (existsb_false_In _ _) Hall) in Hex. discriminate.
      * intros ->.
        rewrite (proj2 (existsb_false_In
                          (fun r' => sql_eq (row_course_id r') (text_affinity SNull))
                          (courses db))) in Hex; [discriminate | ].
        intros r _. apply sql_eq_null_r.
      * discriminate.
      * reflexivity.
    + refine (conj _ (conj _ (conj _ _))).
      * split; [ | reflexivity]. intros _.
        exact (proj1 (existsb_false_In _ _) Hex).
      * reflexivity.
      * reflexivity.
      * intros H. elim H. reflexivity.
Qed.

Lemma add_course_outcomes_witness :
  DatabaseManager.add_course sample_db logic
  = (sample_db, Raise (ValueError
       "Course already exists: UNIQUE constraint failed: courses.course_id"))
  /\ DatabaseManager.add_course empty_database
       (Course.init (VStr "C9") VNone (Val VNone) None)
     = (empty_database, Raise (ValueError
          "Course already exists: NOT NULL constraint failed: courses.course_name")).
Proof.
  split.
  - apply (proj2 (add_course_outcomes sample_db logic (SText "C1") (SText "Logic")
                    eq_refl eq_refl)).
    + discriminate.
    + simpl. discriminate.
  - exact (proj1 (add_course_outcomes empty_database
                    (Course.init (VStr "C9") VNone (Val VNone) None)
                    (SText "C9") SNull eq_refl eq_refl) eq_refl).
Defined.

Lemma filter_everything {A} (f : A -> bool) (l : list A) :
  (forall x, In x l -> f x = true) -> filter f l = l.
Proof.
  induction l as [ | x l IH]; [reflexivity | ]. simpl. intros Hf.
  rewrite (Hf x (or_introl eq_refl)). f_equal. apply IH.
  intros y Hy. apply Hf. right. exact Hy.
Qed.

(** A student that was stored with an identifier other than [None] and a
    NaN is removed by [delete_student] on that identifier, which leaves
    the [students] table as it was before the student was added.  A
    student stored with the identifier [None] or a NaN, which are both
    stored as NULL, stays in the table whatever identifier
    [delete_student] is called on, [None] included. *)
Theorem delete_student_after_add (db db' : database) (s : Student.t) :
  DatabaseManager.add_student db s = (db', Ok tt) ->
  (binds_null (Student.student_id s) = false ->
   snd (DatabaseManager.delete_student db' (Student.student_id s)) = Ok tt
   /\ students (fst (DatabaseManager.delete_student db' (Student.student_id s)))
      = students db)
  /\ (binds_null (Student.student_id s) = true ->
      forall id,
      exists r,
        In r (students (fst (DatabaseManager.delete_student db' id)))
        /\ row_id r = SNull
        /\ row_email r = SText (Person.get_email (Student.person s))).
Proof.
  intros Hadd. apply add_student_Ok in Hadd as (r & Hr & Hins & ->).
  apply insert_person_Ok in Hins as (_ & _ & Hid & _).
  apply person_params_Ok in Hr as (v & Hv & ->). cbn [row_id] in Hid.
  split.
  - intros Hsome. unfold DatabaseManager.delete_student. rewrite Hv.
    cbn [fst snd students]. split; [reflexivity | ].
    unfold DatabaseManager.delete_where. rewrite filter_app.
    rewrite filter_everything.
    + cbn [filter row_id]. rewrite sql_eq_refl; [apply app_nil_r | ].
      intros Hnull. apply (proj1 (text_affinity_null v)) in Hnull.
      rewrite sql_bind_null in Hsome; [discriminate | congruence].
    + intros r' Hin. rewrite (Hid r' Hin). reflexivity.
  - intros Hnone id. rewrite (binds_null_bind _ Hnone) in Hv.
    injection Hv as <-.
    exists (mk_person_row SNull (SText (Person.name (Student.person s)))
              (SInt (Person.age (Student.person s)))
              (SText (Person.get_email (Student.person s)))).
    split; [ | split; reflexivity].
    unfold DatabaseManager.delete_student. cbn [text_affinity].
    destruct (sql_bind id) as [v' | e]; cbn [fst students].
    + apply delete_where_In. split; [apply in_elt | reflexivity].
    + apply in_elt.
Qed.

Lemma delete_student_after_add_witness :
  students
    (fst (DatabaseManager.delete_student
            (fst (DatabaseManager.add_student empty_database ann)) (VStr "S1")))
  = [].
Proof.
  exact (proj2 (proj1 (delete_student_after_add empty_database
                         (fst (DatabaseManager.add_student empty_database ann))
                         ann eq_refl)
                  eq_refl)).
Defined.

Lemma insert_link_of (table person_column : string) (rows : list link_row)
    (x c : pyval) (p k : sqlval) :
  sql_bind x = Ok p -> sql_bind c = Ok k ->
  DatabaseManager.insert_link table person_column rows x c
  = if existsb (fun r' => same_link r'
                            (mk_link_row (text_affinity p) (text_affinity k)))
         rows
    then Raise (IntegrityError
                  ("UNIQUE constraint failed: " ++ table ++ "." ++ person_column
                   ++ ", " ++ table ++ ".course_id")%string)
    else Ok (rows ++ [mk_link_row (text_affinity p) (text_affinity k)]).
Proof.
  intros Hp Hk. unfold DatabaseManager.insert_link. rewrite Hp, Hk.
  reflexivity.
Qed.

Lemma same_link_refl (p k : sqlval) :
  p <> SNull -> k <> SNull ->
  same_link (mk_link_row (text_affinity p) (text_affinity k))
    (mk_link_row (text_affinity p) (text_affinity k)) = true.
Proof.
  intros Hp Hk. unfold same_link. cbn [link_person_id link_course_id].
  rewrite !sql_eq_refl; [reflexivity | | ];
    intros H; [apply Hk | apply Hp]; exact (proj1 (text_affinity_null _) H).
Qed.

Lemma same_link_null (r : link_row) (p k : sqlval) :
  p = SNull \/ k = SNull ->
  same_link r (mk_link_row (text_affinity p) (text_affinity k)) = false.
Proof.
  unfold same_link. cbn [link_person_id link_course_id].
  intros [-> | ->]; cbn [text_affinity]; rewrite sql_eq_null_r;
    [reflexivity | apply andb_false_r].
Qed.

(** [register_student_course] and [assign_instructor_course] look at no
    other table than their own: into an empty one they store any two
    identifiers that SQLite can bind, whatever students, instructors and
    courses there are.  A pair that was stored is refused the second time
    with a [ValueError], and nothing is stored; a pair with a [None] in it
    is stored every time. *)
Theorem links_are_not_checked (db : database) (x c : pyval) (p k : sqlval) :
  sql_bind x = Ok p -> sql_bind c = Ok k ->
  (student_courses db = [] ->
   DatabaseManager.register_student_course db x c
   = (mk_database (students db) (instructors db) (courses db)
        [mk_link_row (text_affinity p) (text_affinity k)]
        (instructor_courses db), Ok tt))
  /\ (instructor_courses db = [] ->
      DatabaseManager.assign_instructor_course db x c
      = (mk_database (students db) (instructors db) (courses db)
           (student_courses db)
           [mk_link_row (text_affinity p) (text_affinity k)], Ok tt))
  /\ (p = SNull \/ k = SNull ->
      snd (DatabaseManager.register_student_course db x c) = Ok tt
      /\ snd (DatabaseManager.assign_instructor_course db x c) = Ok tt)
  /\ (p <> SNull -> k <> SNull ->
      forall db',
        (DatabaseManager.register_student_course db x c = (db', Ok tt) ->
         DatabaseManager.register_student_course db' x c
         = (db', Raise (ValueError
              "Registration already exists: UNIQUE constraint failed: student_courses.student_id, student_courses.course_id")))
        /\ (DatabaseManager.assign_instructor_course db x c = (db', Ok tt) ->
            DatabaseManager.assign_instructor_course db' x c
            = (db', Raise (ValueError
                 "Assignment already exists: UNIQUE constraint failed: instructor_courses.instructor_id, instructor_courses.course_id")))).
Proof.
  intros Hp Hk.
  unfold DatabaseManager.register_student_course,
    DatabaseManager.assign_instructor_course.
  refine (conj _ (conj _ (conj _ _))).
  - intros ->. rewrite (insert_link_of _ _ _ _ _ _ _ Hp Hk). reflexivity.
  - intros ->. rewrite (insert_link_of _ _ _ _ _ _ _ Hp Hk). reflexivity.
  - intros Hnull. rewrite !(insert_link_of _ _ _ _ _ _ _ Hp Hk).
    rewrite !(proj2 (existsb_false_In _ _)
                (fun r _ => same_link_null r p k Hnull)).
    split; reflexivity.
  - intros Hpn Hkn db'. rewrite !(insert_link_of _ _ _ _ _ _ _ Hp Hk).
    split.
    + destruct (existsb _ (student_courses db)); [discriminate | ].
      intros H. injection H as <-. cbn [student_courses].
      rewrite existsb_app. cbn [existsb].
      rewrite (same_link_refl p k Hpn Hkn), orb_true_r. reflexivity.
    + destruct (existsb _ (instructor_courses db)); [discriminate | ].
      intros H. injection H as <-. cbn [instructor_courses].
      rewrite existsb_app. cbn [existsb].
      rewrite (same_link_refl p k Hpn Hkn), orb_true_r. reflexivity.
Qed.

Lemma links_are_not_checked_witness :
  DatabaseManager.register_student_course empty_database (VStr "S7") (VStr "C7")
  = (mk_database [] [] [] [mk_link_row (SText "S7") (SText "C7")] [], Ok tt)
  /\ DatabaseManager.register_student_course sample_db (VStr "S1") (VStr "C2")
     = (sample_db, Raise (ValueError
          "Registration already exists: UNIQUE constraint failed: student_courses.student_id, student_courses.course_id")).
Proof.
  split.
  - exact (proj1 (links_are_not_checked empty_database (VStr "S7") (VStr "C7")
                    (SText "S7") (SText "C7") eq_refl eq_refl) eq_refl).
  - apply (proj1 (proj2 (proj2 (proj2
             (links_are_not_checked
                (mk_database (students sample_db) (instructors sample_db)
                   (courses sample_db) [mk_link_row (SText "S1") (SText "C1")]
                   (instructor_courses sample_db))
                (VStr "S1") (VStr "C2") (SText "S1") (SText "C2")
                eq_refl eq_refl)))
             ltac:(discriminate) ltac:(discriminate) sample_db)).
    reflexivity.
Defined.

Lemma filter_same_twice {A} (f : A -> bool) (l : list A) :
  filter f (filter f l) = filter f l.
Proof.
  apply filter_everything. intros x Hx. apply filter_In in Hx. tauto.
Qed.

(** [delete_instructor] succeeds on every identifier that SQLite can bind,
    stored or not.  It keeps exactly the instructors and the assignments
    that have another identifier and leaves the three other tables as they
    are; a second call changes nothing more, and a call on [None] changes
    nothing at all. *)
Theorem delete_instructor_cascades (db : database) (id : pyval) (v : sqlval) :
  sql_bind id = Ok v ->
  let db' := fst (DatabaseManager.delete_instructor db id) in
  snd (DatabaseManager.delete_instructor db id) = Ok tt
  /\ (forall r, In r (instructors db') <->
        In r (instructors db) /\ sql_eq (row_id r) (text_affinity v) = false)
  /\ (forall r, In r (instructor_courses db') <->
        In r (instructor_courses db)
        /\ sql_eq (link_person_id r) (text_affinity v) = false)
  /\ students db' = students db
  /\ courses db' = courses db
  /\ student_courses db' = student_courses db
  /\ DatabaseManager.delete_instructor db' id = (db', Ok tt)
  /\ (v = SNull -> db' = db).
Proof.
  intros Hv. unfold DatabaseManager.delete_instructor. rewrite Hv.
  cbn [fst snd students instructors courses student_courses instructor_courses].
  refine (conj eq_refl (conj _ (conj _ (conj eq_refl (conj eq_refl
            (conj eq_refl (conj _ _))))))).
  - intro r. apply delete_where_In.
  - intro r. apply delete_where_In.
  - unfold DatabaseManager.delete_where. rewrite !filter_same_twice.
    reflexivity.
  - intros ->. unfold DatabaseManager.delete_where. cbn [text_affinity].
    rewrite !filter_everything.
    + destruct db; reflexivity.
    + intros r _. rewrite sql_eq_null_r. reflexivity.
    + intros r _. rewrite sql_eq_null_r. reflexivity.
Qed.

Lemma delete_instructor_cascades_witness :
  fst (DatabaseManager.delete_instructor sample_db (VStr "I1"))
  = mk_database (students sample_db) [] (courses sample_db)
      (student_courses sample_db) []
  /\ DatabaseManager.delete_instructor
       (fst (DatabaseManager.delete_instructor sample_db (VStr "I1"))) (VStr "I1")
     = (fst (DatabaseManager.delete_instructor sample_db (VStr "I1")), Ok tt).
Proof.
  split; [reflexivity | ].
  exact (proj1 (proj2 (proj2 (proj2 (proj2 (proj2 (proj2
           (delete_instructor_cascades sample_db (VStr "I1") (SText "I1")
              eq_refl)))))))).
Defined.

(** ** Reading the tables back *)

Lemma map_result_app_last {A B} (f : A -> result B) (l : list A) (x : A)
    (l' : list B) (y : B) :
  map_result f l = Ok l' -> f x = Ok y ->
  map_result f (l ++ [x]) = Ok (l' ++ [y]).
Proof.
  revert l'. induction l as [ | a l IH]; intros l'; simpl.
  - intros H Hx. injection H as <-. rewrite Hx. reflexivity.
  - destruct (f a) as [b | ]; [ | discriminate]. cbn [bind].
    destruct (map_result f l) as [bs | ]; [ | discriminate]. cbn [bind].
    intros H Hx. injection H as <-. rewrite (IH bs eq_refl Hx). reflexivity.
Qed.

Lemma map_result_Forall2 {A B} (f : A -> result B) (l : list A) (l' : list B) :
  map_result f l = Ok l' -> Forall2 (fun x y => f x = Ok y) l l'.
Proof.
  revert l'. induction l as [ | a l IH]; intros l'; simpl.
  - intros H. injection H as <-. constructor.
  - destruct (f a) as [b | ] eqn:Ha; [ | discriminate]. cbn [bind].
    destruct (map_result f l) as [bs | ]; [ | discriminate]. cbn [bind].
    intros H. injection H as <-. constructor; [exact Ha | apply IH; reflexivity].
Qed.

Lemma map_result_Raise {A B} (f : A -> result B) (l : list A) (x : A) (e : exn) :
  In x l -> f x = Raise e -> exists e', map_result f l = Raise e'.
Proof.
  induction l as [ | a l IH]; simpl; [intros [] | ].
  intros [-> | Hin] Hx.
  - rewrite Hx. eexists. reflexivity.
  - destruct (f a); [ | eexists; reflexivity]. cbn [bind].
    destruct (IH Hin Hx) as (e' & ->). eexists. reflexivity.
Qed.

Lemma person_invariant_init (p : Person.t) :
  person_invariant p ->
  Person.init (VStr (Person.name p)) (VInt (Person.age p))
    (VStr (Person._email p)) = Ok p.
Proof.
  intros (Ha & He & Hn). unfold Person.init. rewrite Hn.
  rewrite (validate_age_of_int (VInt (Person.age p)) (Person.age p) eq_refl).
  replace ((1 <=? Person.age p) && (Person.age p <=? 120)) with true
    by (symmetry; apply andb_true_iff; split; apply Z.leb_le; lia).
  cbn [bind]. rewrite He. destruct p; reflexivity.
Qed.

Lemma Person_init_inv (vn va ve : pyval) (p : Person.t) :
  Person.init vn va ve = Ok p ->
  person_invariant p
  /\ (exists n, vn = VStr n /\ Person.name p = strip n)
  /\ Person.validate_age va = Ok (Person.age p)
  /\ ve = VStr (Person._email p).
Proof.
  unfold Person.init. destruct vn as [ | | | | n | | ]; try discriminate.
  cbn [bind].
  destruct (Person.validate_age va) as [a | ] eqn:Ha; [ | discriminate].
  destruct (Person.validate_email ve) as [e | ] eqn:He; [ | discriminate].
  cbn [bind]. intros H. injection H as <-.
  destruct (validate_email_Ok _ _ He) as [-> He'].
  refine (conj (conj _ (conj He' _)) (conj _ (conj eq_refl eq_refl))).
  - exact (validate_age_in_range _ _ Ha).
  - apply strip_idem.
  - exists n. split; reflexivity.
Qed.

Lemma Person_init_bad_age (vn ve : pyval) (z : Z) :
  ~ 1 <= z <= 120 -> exists e, Person.init vn (VInt z) ve = Raise e.
Proof.
  intros Hz. unfold Person.init.
  destruct vn; try (eexists; reflexivity). cbn [bind].
  rewrite (validate_age_of_int (VInt z) z eq_refl).
  destruct ((1 <=? z) && (z <=? 120)) eqn:E.
  - apply andb_true_iff in E as [E1 E2].
    apply Z.leb_le in E1. apply Z.leb_le in E2. lia.
  - eexists. reflexivity.
Qed.

Lemma sql_to_py_str (v : sqlval) (s : string) :
  sql_to_py v = VStr s -> v = SText s.
Proof. destruct v; simpl; congruence. Qed.

(** A student who satisfies the invariant of [Person] and was stored by
    [add_student] is what [get_all_students] returns last, after the
    students it returned before, with the same name, age and address; the
    identifier comes back as SQLite stored it in a [TEXT] column, a number
    as its decimal text; and the registered courses are not stored, the
    student comes back with none.  The same holds of [add_instructor] and
    [get_all_instructors]. *)
Theorem read_after_add (db db' : database) :
  (forall s l,
     person_invariant (Student.person s) ->
     DatabaseReads.get_all_students db = Ok l ->
     DatabaseManager.add_student db s = (db', Ok tt) ->
     exists v,
       sql_bind (Student.student_id s) = Ok v
       /\ DatabaseReads.get_all_students db'
          = Ok (l ++ [Student.mk (Student.person s) (stored_id v) (VList [])]))
  /\ (forall i l,
        person_invariant (Instructor.person i) ->
        DatabaseReads.get_all_instructors db = Ok l ->
        DatabaseManager.add_instructor db i = (db', Ok tt) ->
        exists v,
          sql_bind (Instructor.instructor_id i) = Ok v
          /\ DatabaseReads.get_all_instructors db'
             = Ok (l ++ [Instructor.mk (Instructor.person i) (stored_id v)
                           (VList [])])).
Proof.
  split.
  - intros s l Hinv Hl Hadd.
    apply add_student_Ok in Hadd as (r & Hr & _ & ->).
    apply person_params_Ok in Hr as (v & Hv & ->).
    exists v. split; [exact Hv | ].
    unfold DatabaseReads.get_all_students. cbn [students].
    apply map_result_app_last; [exact Hl | ].
    cbn [row_id row_name row_age row_email sql_to_py]. unfold Student.init.
    unfold Person.get_email. rewrite (person_invariant_init _ Hinv).
    reflexivity.
  - intros i l Hinv Hl Hadd.
    apply add_instructor_Ok in Hadd as (r & Hr & _ & ->).
    apply person_params_Ok in Hr as (v & Hv & ->).
    exists v. split; [exact Hv | ].
    unfold DatabaseReads.get_all_instructors. cbn [instructors].
    apply map_result_app_last; [exact Hl | ].
    cbn [row_id row_name row_age row_email sql_to_py]. unfold Instructor.init.
    unfold Person.get_email. rewrite (person_invariant_init _ Hinv).
    reflexivity.
Qed.

Lemma read_after_add_witness :
  exists v,
    sql_bind (VInt 7) = Ok v
    /\ DatabaseReads.get_all_students
         (fst (DatabaseManager.add_student empty_database
                 (Student.mk (Person.mk "Ann" 20 "ann@x.com") (VInt 7)
                    (VList [VStr "C1"]))))
       = Ok ([] ++ [Student.mk (Person.mk "Ann" 20 "ann@x.com") (stored_id v)
                      (VList [])]).
Proof.
  apply (proj1 (read_after_add empty_database
                  (fst (DatabaseManager.add_student empty_database
                          (Student.mk (Person.mk "Ann" 20 "ann@x.com") (VInt 7)
                             (VList [VStr "C1"])))))
           (Student.mk (Person.mk "Ann" 20 "ann@x.com") (VInt 7)
              (VList [VStr "C1"])) []).
  - split; [simpl; lia | split; reflexivity].
  - reflexivity.
  - reflexivity.
Defined.

(** Every student that [get_all_students] returns was built by the
    constructor from one row, in the order of the rows: it satisfies the
    invariant of [Person], has the row's identifier and address, the row's
    name without the blanks at its ends, and no registered course,
    whatever [student_courses] holds.  One row whose age is an integer
    outside 1..120 makes the call raise, so that no student is returned.
    [get_all_courses] never raises, and every course it returns has no
    instructor and no enrolled student. *)
Theorem reads_are_validated (db : database) :
  (forall l,
     DatabaseReads.get_all_students db = Ok l ->
     Forall2
       (fun row s =>
          person_invariant (Student.person s)
          /\ Student.student_id s = sql_to_py (row_id row)
          /\ Student.registered_courses s = VList []
          /\ row_email row = SText (Person.get_email (Student.person s))
          /\ exists n, row_name row = SText n
                       /\ Person.name (Student.person s) = strip n)
       (students db) l)
  /\ (forall row z,
        In row (students db) -> row_age row = SInt z -> ~ 1 <= z <= 120 ->
        exists e, DatabaseReads.get_all_students db = Raise e)
  /\ Forall2
       (fun row c =>
          Course.course_id c = sql_to_py (row_course_id row)
          /\ Course.course_name c = sql_to_py (row_course_name row)
          /\ Course.instructor c = Val VNone
          /\ Course.enrolled_students c = [])
       (courses db) (DatabaseReads.get_all_courses db).
Proof.
  refine (conj _ (conj _ _)).
  - intros l Hl. unfold DatabaseReads.get_all_students in Hl.
    apply map_result_Forall2 in Hl.
    induction Hl as [ | row s rows l Hs _ IH]; constructor; [ | exact IH].
    unfold Student.init in Hs.
    destruct (Person.init _ _ _) as [p | ] eqn:Hp; [ | discriminate].
    cbn [bind is_none] in Hs. injection Hs as <-.
    apply Person_init_inv in Hp as (Hinv & (n & Hn & Hname) & _ & He).
    cbn [Student.person Student.student_id Student.registered_courses].
    refine (conj Hinv (conj eq_refl (conj eq_refl (conj _ _)))).
    + apply sql_to_py_str. exact He.
    + exists n. split; [apply sql_to_py_str; exact Hn | exact Hname].
  - intros row z Hin Hage Hz. unfold DatabaseReads.get_all_students.
    destruct (Person_init_bad_age (sql_to_py (row_name row))
                (sql_to_py (row_email row)) z Hz) as (e & He).
    apply (map_result_Raise _ _ row e Hin).
    unfold Student.init. rewrite Hage. cbn [sql_to_py]. rewrite He.
    reflexivity.
  - unfold DatabaseReads.get_all_courses.
    induction (courses db) as [ | row rows IH]; simpl; constructor;
      [ | exact IH].
    repeat split.
Qed.

Lemma reads_are_validated_witness :
  exists e,
    DatabaseReads.get_all_students
      (mk_database
         [mk_person_row (SText "S1") (SText "Ann") (SInt 20) (SText "ann@x.com");
          mk_person_row (SText "S2") (SText "Zed") (SInt 0) (SText "zed@x.com")]
         [] [] [] [])
    = Raise e.
Proof.
  apply (proj1 (proj2 (reads_are_validated _))
           (mk_person_row (SText "S2") (SText "Zed") (SInt 0) (SText "zed@x.com"))
           0).
  - right. left. reflexivity.
  - reflexivity.
  - lia.
Defined.

(** ** The validators of the forms *)

Lemma validate_name_outcomes (v : pyval) :
  (exists s, v = VStr s /\ str_isalpha s = true
             /\ Person.validate_name v = Ok s)
  \/ (exists msg, (py_truthy v = false \/ exists s, v = VStr s)
                  /\ Person.validate_name v = Raise (ValueError msg))
  \/ (py_truthy v = true /\ (forall s, v <> VStr s)
      /\ Person.validate_name v = Raise AttributeError).
Proof.
  unfold Person.validate_name. destruct (py_truthy v) eqn:Ht; cbn [negb].
  - destruct v as [ | b | z | f | s | l | d ];
      try (right; right; split; [reflexivity | split; [discriminate | reflexivity]]).
    destruct (str_isalpha s) eqn:Ha; cbn [negb].
    + left. exists s. rewrite (strip_alpha s Ha). auto.
    + right. left. eexists. split; [right; exists s; reflexivity | reflexivity].
  - right. left. eexists. split; [left; reflexivity | reflexivity].
Qed.

Lemma validate_email_outcomes (v : pyval) :
  (exists s, v = VStr s /\ Person.validate_email v = Ok s)
  \/ (exists msg, (py_truthy v = false \/ exists s, v = VStr s)
                  /\ Person.validate_email v = Raise (ValueError msg))
  \/ (py_truthy v = true /\ (forall s, v <> VStr s)
      /\ Person.validate_email v = Raise TypeError).
Proof.
  unfold Person.validate_email. destruct (py_truthy v) eqn:Ht; cbn [negb].
  - destruct v as [ | b | z | f | s | l | d ];
      try (right; right; split; [reflexivity | split; [discriminate | reflexivity]]).
    destruct (Re.match_anchored Person.email_pattern s).
    + left. exists s. auto.
    + right. left. eexists. split; [right; exists s; reflexivity | reflexivity].
  - right. left. eexists. split; [left; reflexivity | reflexivity].
Qed.

Lemma parse_int_raises (s : string) (e : exn) :
  parse_int s = Raise e -> exists msg, e = ValueError msg.
Proof.
  unfold parse_int, invalid_literal, long_literal. cbv zeta. intros H.
  repeat match type of H with
         | context [match ?x with _ => _ end] => destruct x; try discriminate
         end;
    injection H as <-; eexists; reflexivity.
Qed.

(** [int()] raises [TypeError], [ValueError] or, on an infinite float,
    [OverflowError]. *)
Lemma py_int_raises (v : pyval) (e : exn) :
  py_int v = Raise e ->
  e = TypeError \/ (exists msg, e = ValueError msg)
  \/ (e = OverflowError /\ exists s, v = VFloat (S754_infinity s)).
Proof.
  destruct v as [ | b | z | f | s | l | d ]; simpl; try discriminate;
    try (intros H; injection H as <-; left; reflexivity).
  - destruct f as [sg | sg | | sg m ex]; simpl; try discriminate.
    + intros H. injection H as <-. right. right.
      split; [reflexivity | exists sg; reflexivity].
    + intros H. injection H as <-. right. left. eexists. reflexivity.
  - intros H. right. left. exact (parse_int_raises s e H).
Qed.

Lemma validate_age_outcomes (v : pyval) :
  (exists a, 1 <= a <= 120 /\ py_int v = Ok a /\ Person.validate_age v = Ok a)
  \/ (exists msg, Person.validate_age v = Raise (ValueError msg))
  \/ (exists s, v = VFloat (S754_infinity s)
                /\ Person.validate_age v = Raise OverflowError).
Proof.
  unfold Person.validate_age.
  destruct (is_none v) eqn:Hnone; [right; left; eexists; reflexivity | ].
  destruct (py_int v) as [a | e] eqn:Hint.
  - destruct ((1 <=? a) && (a <=? 120)) eqn:E; cbn [negb].
    + left. exists a. apply andb_true_iff in E as [E1 E2].
      apply Z.leb_le in E1. apply Z.leb_le in E2.
      split; [lia | split; reflexivity].
    + right. left. eexists. reflexivity.
  - destruct (py_int_raises v e Hint) as [-> | [(msg & ->) | (-> & sg & ->)]].
    + right. left. eexists. reflexivity.
    + right. left. eexists. reflexivity.
    + right. right. exists sg. split; reflexivity.
Qed.

(** The validators of the forms answer [True] without a dialogue exactly
    on what the validators of [Person] accept, and otherwise answer
    [False] after one warning, with three exceptions, which raise without
    a dialogue: [validate_name] raises [AttributeError] and
    [validate_email] raises [TypeError] on a value that is not a string
    and is not empty either, and [validate_age] raises [OverflowError] on
    an infinite float.  [require] answers [True] on the values that count
    as true; on the others it answers [False] after one warning, unless
    the label has no text, being or holding an integer of more than 4300
    digits: then it raises [ValueError]. *)
Theorem form_validators_outcomes (v : pyval) :
  ((exists s, v = VStr s /\ str_isalpha s = true
              /\ Validators.validate_name v = ([], Ok true))
   \/ (exists msg, (py_truthy v = false \/ exists s, v = VStr s)
                   /\ Validators.validate_name v
                      = ([showwarning "Invalid Input" msg], Ok false))
   \/ (py_truthy v = true /\ (forall s, v <> VStr s)
       /\ Validators.validate_name v = ([], Raise AttributeError)))
  /\ ((exists a, 1 <= a <= 120 /\ py_int v = Ok a
                 /\ Validators.validate_age v = ([], Ok true))
      \/ (exists msg, Validators.validate_age v
                      = ([showwarning "Invalid Input" msg], Ok false))
      \/ (exists s, v = VFloat (S754_infinity s)
                    /\ Validators.validate_age v = ([], Raise OverflowError)))
  /\ ((exists s, v = VStr s /\ Person.validate_email v = Ok s
                 /\ Validators.validate_email v = ([], Ok true))
      \/ (exists msg, (py_truthy v = false \/ exists s, v = VStr s)
                      /\ Validators.validate_email v
                         = ([showwarning "Invalid Input" msg], Ok false))
      \/ (py_truthy v = true /\ (forall s, v <> VStr s)
          /\ Validators.validate_email v = ([], Raise TypeError)))
  /\ (forall label,
        Validators.require v label
        = if py_truthy v then ([], Ok true)
          else if has_long_int label then ([], Raise limit_exceeded)
          else ([showwarning "Invalid Input"
                   (py_str label ++ " cannot be empty.")%string], Ok false)).
Proof.
  unfold Validators.validate_name, Validators.validate_age,
    Validators.validate_email, Validators.require.
  refine (conj _ (conj _ (conj _ _))).
  - destruct (validate_name_outcomes v)
      as [(s & Hv & Ha & ->) | [(msg & Hv & ->) | (Ht & Hv & ->)]].
    + left. exists s. auto.
    + right. left. exists msg. auto.
    + right. right. auto.
  - destruct (validate_age_outcomes v)
      as [(a & Ha & Hi & ->) | [(msg & ->) | (sg & Hv & ->)]].
    + left. exists a. auto.
    + right. left. exists msg. reflexivity.
    + right. right. exists sg. auto.
  - destruct (validate_email_outcomes v)
      as [(s & Hv & He) | [(msg & Hv & ->) | (Ht & Hv & ->)]].
    + left. exists s. rewrite He. auto.
    + right. left. exists msg. auto.
    + right. right. auto.
  - intros label. unfold str_of.
    destruct (py_truthy v); [reflexivity | ].
    destruct (has_long_int label); reflexivity.
Qed.

Lemma unique_among_outcomes {T} (getattr : T -> string -> result pyval)
    (same_object : T -> T -> bool) (title : string -> string)
    (new_id : pyval) (items : list T) (attr_name : string) (exclude : option T) :
  has_long_int new_id = false ->
  Forall (fun obj => exists v, getattr obj attr_name = Ok v
                               /\ has_long_int v = false) items ->
  (Validators.validate_unique_id getattr same_object title new_id items
     attr_name exclude = ([], Ok true)
   /\ forall obj, In obj items ->
        ~ clashes getattr same_object new_id attr_name exclude obj)
  \/ (Validators.validate_unique_id getattr same_object title new_id items
        attr_name exclude
      = ([showwarning "Invalid Input"
            (title (Validators.replace_underscores attr_name)
             ++ " must be unique.")%string], Ok false)
      /\ exists obj, In obj items
           /\ clashes getattr same_object new_id attr_name exclude obj).
Proof.
  intros Hnew. unfold Validators.validate_unique_id, str_of. rewrite Hnew.
  induction 1 as [ | obj rest (v & Hv & Hlong) _ IH];
    cbn [Validators.unique_among].
  - left. split; [reflexivity | intros obj []].
  - rewrite Hv. unfold str_of. rewrite Hlong.
    destruct (String.eqb (py_str v) (strip (py_str new_id))
              && negb (Validators.is_excluded same_object exclude obj)) eqn:E.
    + right. split; [reflexivity | ]. exists obj. split; [left; reflexivity | ].
      exists v. apply andb_true_iff in E as [E1 E2].
      apply String.eqb_eq in E1. apply negb_true_iff in E2. auto.
    + destruct IH as [[-> Hno] | [-> (o & Hin & Hc)]].
      * left. split; [reflexivity | ].
        intros o [<- | Hin] (v' & Hv' & Heq & Hex).
        -- rewrite Hv in Hv'. injection Hv' as <-.
           apply String.eqb_eq in Heq. rewrite Heq, Hex in E. discriminate.
        -- apply (Hno o Hin). exists v'. auto.
      * right. split; [reflexivity | ]. exists o. split; [right; exact Hin | exact Hc].
Qed.

(** When every item has the attribute and neither the new identifier nor
    an attribute is or holds an integer of more than 4300 digits, of which
    [str] gives no text, [validate_unique_id] answers [True] without a
    dialogue exactly when no item other than the excluded one has an
    attribute whose text is the text of the new identifier without the
    blanks at its ends; otherwise it answers [False] after one warning.
    Only the new identifier is stripped and both sides are compared as
    text, so the answer for a new identifier is the answer for its stripped
    text: [1], ["1"] and [" 1 "] are the same identifier. *)
Theorem validate_unique_id_answers {T} (getattr : T -> string -> result pyval)
    (same_object : T -> T -> bool) (title : string -> string)
    (new_id : pyval) (items : list T) (attr_name : string) (exclude : option T) :
  has_long_int new_id = false ->
  Forall (fun obj => exists v, getattr obj attr_name = Ok v
                               /\ has_long_int v = false) items ->
  (Validators.validate_unique_id getattr same_object title new_id items
     attr_name exclude = ([], Ok true)
   <-> forall obj, In obj items ->
         ~ clashes getattr same_object new_id attr_name exclude obj)
  /\ ((exists obj, In obj items
         /\ clashes getattr same_object new_id attr_name exclude obj) ->
      Validators.validate_unique_id getattr same_object title new_id items
        attr_name exclude
      = ([showwarning "Invalid Input"
            (title (Validators.replace_underscores attr_name)
             ++ " must be unique.")%string], Ok false))
  /\ Validators.validate_unique_id getattr same_object title new_id items
       attr_name exclude
     = Validators.validate_unique_id getattr same_object title
         (VStr (strip (py_str new_id))) items attr_name exclude.
Proof.
  intros Hnew Hattr.
  pose proof (unique_among_outcomes getattr same_object title new_id items
                attr_name exclude Hnew Hattr) as Hcases.
  refine (conj _ (conj _ _)).
  - split.
    + intros Hok. destruct Hcases as [[_ Hno] | [Hwarn _]]; [exact Hno | ].
      rewrite Hwarn in Hok. discriminate.
    + intros Hno. destruct Hcases as [[Hok _] | [_ (o & Hin & Hc)]]; [exact Hok | ].
      elim (Hno o Hin Hc).
  - intros (o & Hin & Hc).
    destruct Hcases as [[_ Hno] | [Hwarn _]]; [elim (Hno o Hin Hc) | exact Hwarn].
  - unfold Validators.validate_unique_id, str_of. rewrite Hnew.
    change (has_long_int (VStr (strip (py_str new_id)))) with false.
    cbn [py_str]. rewrite strip_idem. reflexivity.
Qed.

Lemma validate_unique_id_answers_witness :
  Validators.validate_unique_id Student_getattr (fun _ _ => false) title_ascii
    (VStr " S1 ") [same_email; ann] "student_id" None
  = ([showwarning "Invalid Input" "Student Id must be unique."], Ok false).
Proof.
  assert (Hattr : Forall (fun obj => exists v,
                            Student_getattr obj "student_id" = Ok v
                            /\ has_long_int v = false)
                     [same_email; ann])
    by (repeat constructor; eexists; split; reflexivity).
  apply (proj1 (proj2 (validate_unique_id_answers Student_getattr
                         (fun _ _ => false) title_ascii (VStr " S1 ")
                         [same_email; ann] "student_id" None eq_refl Hattr))).
  exists ann. split; [right; left; reflexivity | ].
  exists (VStr "S1"). repeat split.
Defined.

(** ** [Person.from_dict] *)

(** [Person.from_dict] succeeds exactly on a record that has a string
    under ["name"], a value that [int()] converts into 1..120 under
    ["age"] and a well-formed address under ["email"]: a missing address
    is refused, because the default is the empty string.  The name is
    only stripped, not checked for letters, and the person returned
    satisfies the invariant of [Person].  A person that satisfies the
    invariant comes back from its own [to_dict]. *)
Theorem Person_from_dict_succeeds (d : pydict) (p : Person.t) :
  (Person.from_dict d = Ok p
   <-> exists n va,
         dict_get d "name" = Some (VStr n)
         /\ dict_get d "age" = Some va
         /\ py_int va = Ok (Person.age p)
         /\ dict_get d "email" = Some (VStr (Person._email p))
         /\ Person.name p = strip n
         /\ person_invariant p)
  /\ (person_invariant p -> Person.from_dict (Person.to_dict p) = Ok p).
Proof.
  assert (Hback : forall d' n va,
            dict_get d' "name" = Some (VStr n) ->
            dict_get d' "age" = Some va ->
            py_int va = Ok (Person.age p) ->
            dict_get d' "email" = Some (VStr (Person._email p)) ->
            Person.name p = strip n ->
            person_invariant p ->
            Person.from_dict d' = Ok p).
  { intros d' n va Hn Ha Hint He Hname (Hr & Hv & Hs).
    unfold Person.from_dict, py_index, py_get_default.
    rewrite Hn, Ha. cbn [bind]. rewrite Hint. cbn [bind]. rewrite He.
    unfold Person.init.
    rewrite (validate_age_of_int (VInt (Person.age p)) (Person.age p) eq_refl).
    replace ((1 <=? Person.age p) && (Person.age p <=? 120)) with true
      by (symmetry; apply andb_true_iff; split; apply Z.leb_le; lia).
    cbn [bind]. rewrite Hv. cbn [bind]. rewrite <- Hname.
    destruct p; reflexivity. }
  split; [split | ].
  - unfold Person.from_dict, py_index.
    destruct (dict_get d "name") as [vn | ] eqn:Hn; [ | discriminate].
    destruct (dict_get d "age") as [va | ] eqn:Ha; [ | discriminate].
    cbn [bind]. destruct (py_int va) as [a | ] eqn:Hint; [ | discriminate].
    cbn [bind]. intros H.
    apply Person_init_inv in H as (Hinv & (n & -> & Hname) & Hage & Hem).
    rewrite (validate_age_of_int (VInt a) a eq_refl) in Hage.
    destruct ((1 <=? a) && (a <=? 120)); [ | discriminate].
    injection Hage as ->.
    exists n, va. refine (conj eq_refl (conj eq_refl (conj Hint (conj _
                            (conj Hname Hinv))))).
    unfold py_get_default in Hem.
    destruct (dict_get d "email") as [ve | ]; [rewrite Hem; reflexivity | ].
    injection Hem as Hem. destruct Hinv as (_ & Hv & _).
    rewrite <- Hem in Hv. discriminate.
  - intros (n & va & Hn & Ha & Hint & He & Hname & Hinv).
    exact (Hback d n va Hn Ha Hint He Hname Hinv).
  - intros Hinv.
    apply (Hback (Person.to_dict p) (Person.name p) (VInt (Person.age p)));
      try reflexivity; [ | exact Hinv].
    destruct Hinv as (_ & _ & Hs). symmetry. exact Hs.
Qed.

Lemma Person_from_dict_succeeds_witness :
  Person.from_dict (Person.to_dict (Person.mk "Ann" 20 "ann@x.com"))
  = Ok (Person.mk "Ann" 20 "ann@x.com").
Proof.
  apply (proj2 (Person_from_dict_succeeds [] (Person.mk "Ann" 20 "ann@x.com"))).
  split; [simpl; lia | split; reflexivity].
Defined.
